(** * The AWS-S3 cloud environment of rocksdb-cloud: a shallow embedding

    The development follows [cloud/aws/aws_env.cc] (the environment
    router, the dbid registry, the deferred deletion thread) and the
    readable and writable S3 files ([S3ReadableFile], [S3WritableFile]).

    Conventions.
    - A [Status] is modelled by its code; the message strings only reach
      the log.  Calls to [Log] and [Header] are dropped.
    - [uint64_t] and [size_t] values are integers in [Z]; arithmetic that
      the code performs on them is wrapped with [wrap64].
    - File contents and object bodies are byte strings ([string]).
    - Every function that the source runs against the local file system,
      the object store or the clock is a state transformer over [World];
      [assert] aborts the run unless the build defines [NDEBUG]. *)

From stdpp Require Import gmap strings list sorting.
From Stdlib Require Import ZArith Lia Ascii.

Local Open Scope string_scope.
Local Open Scope Z_scope.

(** ** Status codes (rocksdb/status.h) *)

Inductive Status : Type :=
| OK
| NotFound
| IOError
| InvalidArgument
| NotSupported
| TimedOut
| Busy.

#[global] Instance Status_eq_dec : EqDecision Status.
Proof. solve_decision. Defined.

Definition ok (s : Status) : bool :=
  match s with OK => true | _ => false end.

Definition IsNotFound (s : Status) : bool :=
  match s with NotFound => true | _ => false end.

(** ** Machine integers *)

Definition wrap64 (z : Z) : Z := z mod 2 ^ 64.

(** ** Names declared in the headers

    [aws_env.h], [aws_file.h], [cloud/filename.h], [util/string_util.h]
    and the Kinesis classes declare the names below; the environment is
    verified for every choice of them. *)

Class Externals : Type := {
  (** the build defines NDEBUG: [assert] expands to nothing *)
  NDEBUG : bool;
  (** bucket name of a bucket prefix *)
  GetBucket : string -> string;
  basename : string -> string;
  dirname : string -> string;
  trim : string -> string;
  IsSstFile : string -> bool;
  IsLogFile : string -> bool;
  IsManifestFile : string -> bool;
  IsIdentityFile : string -> bool;
  (** default of the [is_file] parameter of the [S3ReadableFile] constructor *)
  is_file_default : bool;
  (** default of the [force] parameter of [S3WritableFile::CopyManifestToS3] *)
  force_default : bool;
  (** region used when the source bucket names none *)
  default_region : string;
  (** [AwsEnv::file_deletion_delay_], in ticks of the steady clock *)
  file_deletion_delay_ : Z;
  (** [KinesisSystem::retry_period_micros] *)
  retry_period_micros : Z;
  (** [KinesisSystem::GetCachePath] applied to the tailer's cache directory *)
  GetCachePath : string -> string;
  (** status of [KinesisSystem::CreateStream] for a bucket prefix *)
  Kinesis_CreateStream : string -> Status;
  (** status of a newly built [KinesisSystem] (the tailer) *)
  Kinesis_tailer_status : Status;
  (** status of a newly built [KinesisWritableFile] for a file name *)
  KinesisWritableFile_status : string -> Status;
  (** status of [KinesisWritableFile::LogDelete] for a file name *)
  KinesisWritableFile_LogDelete : string -> Status
}.

(** Modelled from the spec: [dbid_registry_], the constant of [aws_env.h]
    that prefixes every key of the dbid registry (".rockset/dbid/" + dbid). *)
Definition dbid_registry_ : string := ".rockset/dbid/".

(** ** The object store *)

Inductive S3Errors : Type :=
| NO_SUCH_BUCKET
| NO_SUCH_KEY
| RESOURCE_NOT_FOUND
| UNKNOWN
| BUCKET_ALREADY_EXISTS
| BUCKET_ALREADY_OWNED_BY_YOU
| ACCESS_DENIED
| INVALID_RANGE
| NETWORK_CONNECTION.

#[global] Instance S3Errors_eq_dec : EqDecision S3Errors.
Proof. solve_decision. Defined.

Record AWSError : Type := {
  GetErrorType : S3Errors;
  GetMessage : string
}.

Record S3Object : Type := {
  obj_body : string;
  obj_metadata : gmap string string;
  obj_last_modified : Z
}.

(** An inclusive byte range, as in the header "bytes=first-last". *)
Record ByteRange : Type := {
  range_first : Z;
  range_last : Z
}.

Inductive S3Request : Type :=
| ListObjectsRequest (bucket prefix marker : string) (max_keys : Z)
| CreateBucketRequest (bucket : string) (location : option string)
| DeleteObjectRequest (bucket key : string)
| GetObjectRequest (bucket key : string) (range : option ByteRange)
                   (response_file : option string)
| PutObjectRequest (bucket key : string) (body : string)
                   (metadata : gmap string string)
| HeadObjectRequest (bucket key : string).

Inductive CloudRequestOpType : Type :=
| kReadOp | kWriteOp | kListOp | kCreateOp | kDeleteOp | kCopyOp | kInfoOp.

#[global] Instance CloudRequestOpType_eq_dec : EqDecision CloudRequestOpType.
Proof. solve_decision. Defined.

(** [AwsS3ClientResult]: the slot in which the client wrapper leaves the
    outcome of the last request. *)
Record AwsS3ClientResult : Type := {
  result_type : CloudRequestOpType;
  result_size : Z;
  result_micros : Z;
  result_ok : bool
}.

(** Modelled from the spec: [CloudStatistics] of
    [rocksdb/cloud/cloud_statistics.h]; a ticker is a counter and a
    histogram keeps the measurements it was given, newest first. *)
Record CloudStatistics : Type := {
  NUMBER_MANIFEST_WRITES : Z;
  MANIFEST_WRITES_TIME : list Z
}.

Definition recordTick_NUMBER_MANIFEST_WRITES (count : Z) (st : CloudStatistics)
  : CloudStatistics :=
  {| NUMBER_MANIFEST_WRITES := wrap64 (NUMBER_MANIFEST_WRITES st + count);
     MANIFEST_WRITES_TIME := MANIFEST_WRITES_TIME st |}.

Definition measureTime_MANIFEST_WRITES_TIME (t : Z) (st : CloudStatistics)
  : CloudStatistics :=
  {| NUMBER_MANIFEST_WRITES := NUMBER_MANIFEST_WRITES st;
     MANIFEST_WRITES_TIME := t :: MANIFEST_WRITES_TIME st |}.

(** ** The world an environment runs in

    The local file system behind [base_env_], the object store behind
    [s3client_], the clock, and the mutable members of [AwsEnv] that
    are shared between threads. *)

Record World : Type := {
  (** regular files of the local file system: path to contents *)
  local_files : gmap string string;
  (** directories of the local file system *)
  local_dirs : gset string;
  (** objects of the store, by bucket and key *)
  s3_objects : gmap (string * string) S3Object;
  (** an error the service answers a request with, if any *)
  s3_fault : S3Request -> option AWSError;
  (** microseconds the [Timer] of the wrapper measures for a request *)
  s3_latency : S3Request -> Z;
  (** requests sent to the service, newest first *)
  s3_log : list S3Request;
  (** invocations of [cloud_request_callback], newest first *)
  callback_log : list (CloudRequestOpType * Z * Z * bool);
  (** [Env::NowMicros] *)
  now_micros : Z;
  (** [std::chrono::steady_clock::now] *)
  steady_now : Z;
  (** [AwsEnv::s3client_result_] of the calling thread *)
  s3client_result_ : AwsS3ClientResult;
  (** the object [cloud_env_options.cloud_statistics] points to, if any *)
  cloud_statistics : option CloudStatistics;
  (** [AwsEnv::files_to_delete_], front of the queue first *)
  files_to_delete_ : list (Z * string);
  (** [AwsEnv::running_] *)
  running_ : bool
}.

(** Field updates. *)

Definition set_local_files (v : gmap string string) (w : World) : World :=
  {| local_files := v;
     local_dirs := local_dirs w;
     s3_objects := s3_objects w;
     s3_fault := s3_fault w;
     s3_latency := s3_latency w;
     s3_log := s3_log w;
     callback_log := callback_log w;
     now_micros := now_micros w;
     steady_now := steady_now w;
     s3client_result_ := s3client_result_ w;
     cloud_statistics := cloud_statistics w;
     files_to_delete_ := files_to_delete_ w;
     running_ := running_ w |}.

Definition set_local_dirs (v : gset string) (w : World) : World :=
  {| local_files := local_files w;
     local_dirs := v;
     s3_objects := s3_objects w;
     s3_fault := s3_fault w;
     s3_latency := s3_latency w;
     s3_log := s3_log w;
     callback_log := callback_log w;
     now_micros := now_micros w;
     steady_now := steady_now w;
     s3client_result_ := s3client_result_ w;
     cloud_statistics := cloud_statistics w;
     files_to_delete_ := files_to_delete_ w;
     running_ := running_ w |}.

Definition set_s3_objects (v : gmap (string * string) S3Object) (w : World) : World :=
  {| local_files := local_files w;
     local_dirs := local_dirs w;
     s3_objects := v;
     s3_fault := s3_fault w;
     s3_latency := s3_latency w;
     s3_log := s3_log w;
     callback_log := callback_log w;
     now_micros := now_micros w;
     steady_now := steady_now w;
     s3client_result_ := s3client_result_ w;
     cloud_statistics := cloud_statistics w;
     files_to_delete_ := files_to_delete_ w;
     running_ := running_ w |}.

Definition set_s3_fault (v : S3Request -> option AWSError) (w : World) : World :=
  {| local_files := local_files w;
     local_dirs := local_dirs w;
     s3_objects := s3_objects w;
     s3_fault := v;
     s3_latency := s3_latency w;
     s3_log := s3_log w;
     callback_log := callback_log w;
     now_micros := now_micros w;
     steady_now := steady_now w;
     s3client_result_ := s3client_result_ w;
     cloud_statistics := cloud_statistics w;
     files_to_delete_ := files_to_delete_ w;
     running_ := running_ w |}.

Definition set_s3_log (v : list S3Request) (w : World) : World :=
  {| local_files := local_files w;
     local_dirs := local_dirs w;
     s3_objects := s3_objects w;
     s3_fault := s3_fault w;
     s3_latency := s3_latency w;
     s3_log := v;
     callback_log := callback_log w;
     now_micros := now_micros w;
     steady_now := steady_now w;
     s3client_result_ := s3client_result_ w;
     cloud_statistics := cloud_statistics w;
     files_to_delete_ := files_to_delete_ w;
     running_ := running_ w |}.

Definition set_callback_log (v : list (CloudRequestOpType * Z * Z * bool)) (w : World) : World :=
  {| local_files := local_files w;
     local_dirs := local_dirs w;
     s3_objects := s3_objects w;
     s3_fault := s3_fault w;
     s3_latency := s3_latency w;
     s3_log := s3_log w;
     callback_log := v;
     now_micros := now_micros w;
     steady_now := steady_now w;
     s3client_result_ := s3client_result_ w;
     cloud_statistics := cloud_statistics w;
     files_to_delete_ := files_to_delete_ w;
     running_ := running_ w |}.

Definition set_now_micros (v : Z) (w : World) : World :=
  {| local_files := local_files w;
     local_dirs := local_dirs w;
     s3_objects := s3_objects w;
     s3_fault := s3_fault w;
     s3_latency := s3_latency w;
     s3_log := s3_log w;
     callback_log := callback_log w;
     now_micros := v;
     steady_now := steady_now w;
     s3client_result_ := s3client_result_ w;
     cloud_statistics := cloud_statistics w;
     files_to_delete_ := files_to_delete_ w;
     running_ := running_ w |}.

Definition set_steady_now (v : Z) (w : World) : World :=
  {| local_files := local_files w;
     local_dirs := local_dirs w;
     s3_objects := s3_objects w;
     s3_fault := s3_fault w;
     s3_latency := s3_latency w;
     s3_log := s3_log w;
     callback_log := callback_log w;
     now_micros := now_micros w;
     steady_now := v;
     s3client_result_ := s3client_result_ w;
     cloud_statistics := cloud_statistics w;
     files_to_delete_ := files_to_delete_ w;
     running_ := running_ w |}.

Definition set_s3client_result_ (v : AwsS3ClientResult) (w : World) : World :=
  {| local_files := local_files w;
     local_dirs := local_dirs w;
     s3_objects := s3_objects w;
     s3_fault := s3_fault w;
     s3_latency := s3_latency w;
     s3_log := s3_log w;
     callback_log := callback_log w;
     now_micros := now_micros w;
     steady_now := steady_now w;
     s3client_result_ := v;
     cloud_statistics := cloud_statistics w;
     files_to_delete_ := files_to_delete_ w;
     running_ := running_ w |}.

Definition set_cloud_statistics (v : option CloudStatistics) (w : World) : World :=
  {| local_files := local_files w;
     local_dirs := local_dirs w;
     s3_objects := s3_objects w;
     s3_fault := s3_fault w;
     s3_latency := s3_latency w;
     s3_log := s3_log w;
     callback_log := callback_log w;
     now_micros := now_micros w;
     steady_now := steady_now w;
     s3client_result_ := s3client_result_ w;
     cloud_statistics := v;
     files_to_delete_ := files_to_delete_ w;
     running_ := running_ w |}.

Definition set_files_to_delete_ (v : list (Z * string)) (w : World) : World :=
  {| local_files := local_files w;
     local_dirs := local_dirs w;
     s3_objects := s3_objects w;
     s3_fault := s3_fault w;
     s3_latency := s3_latency w;
     s3_log := s3_log w;
     callback_log := callback_log w;
     now_micros := now_micros w;
     steady_now := steady_now w;
     s3client_result_ := s3client_result_ w;
     cloud_statistics := cloud_statistics w;
     files_to_delete_ := v;
     running_ := running_ w |}.

Definition set_running_ (v : bool) (w : World) : World :=
  {| local_files := local_files w;
     local_dirs := local_dirs w;
     s3_objects := s3_objects w;
     s3_fault := s3_fault w;
     s3_latency := s3_latency w;
     s3_log := s3_log w;
     callback_log := callback_log w;
     now_micros := now_micros w;
     steady_now := steady_now w;
     s3client_result_ := s3client_result_ w;
     cloud_statistics := cloud_statistics w;
     files_to_delete_ := files_to_delete_ w;
     running_ := v |}.

(** ** Runs: a state monad over [World] that can abort *)

Inductive Stuck : Type :=
| AssertionFailed   (* an [assert] failed in a build without NDEBUG *)
| Undefined         (* a read of an unassigned variable, [back()] of an empty vector *)
| OutOfFuel         (* a loop did not finish within its bound *)
| Terminated.       (* [std::terminate]: an exception left a destructor *)

Inductive Outcome (A : Type) : Type :=
| Returns (a : A) (w : World)
| Aborts (why : Stuck).

Arguments Returns {A} a w.
Arguments Aborts {A} why.

Definition M (A : Type) : Type := World -> Outcome A.

#[global] Instance M_ret : MRet M := fun A a w => Returns a w.

#[global] Instance M_bind : MBind M := fun A B f m w =>
  match m w with
  | Returns a w' => f a w'
  | Aborts why => Aborts why
  end.

#[global] Instance M_fmap : FMap M := fun A B f m w =>
  match m w with
  | Returns a w' => Returns (f a) w'
  | Aborts why => Aborts why
  end.

Definition get : M World := fun w => Returns w w.

Definition modify (f : World -> World) : M unit := fun w => Returns tt (f w).

Definition abort {A : Type} (why : Stuck) : M A := fun _ => Aborts why.

(** [assert(c)] of <assert.h>. *)
Definition assert_ `{Externals} (c : bool) : M unit :=
  if NDEBUG || c then mret tt else abort AssertionFailed.

(** A [bool] variable of a caller: [None] until something is assigned. *)
Definition Slot : Type := option bool.

(** Reading a variable. *)
Definition rd (s : Slot) : M bool :=
  match s with
  | Some b => mret b
  | None => abort Undefined
  end.

(** [assert(v)] on a variable: the variable is read only when the
    assertion is compiled in. *)
Definition assert_var `{Externals} (s : Slot) : M unit :=
  if NDEBUG then mret tt
  else rd s ≫= fun b : bool => if b then mret tt else abort AssertionFailed.

(** The world a run ends in ([w] itself when the run aborts). *)
Definition world_after {A : Type} (m : M A) (w : World) : World :=
  match m w with
  | Returns _ w' => w'
  | Aborts _ => w
  end.

(** ** Options *)

Inductive CloudType : Type :=
| kNone | kAws | kGoogle | kAzure | kRackspace | kEnd.

(** [CloudEnvOptions]; the credentials are opaque and left out, the two
    shared pointers are represented by whether they are non-null (the
    statistics object itself is [cloud_statistics] of the world). *)
Record CloudEnvOptions : Type := {
  cloud_type : CloudType;
  keep_local_sst_files : bool;
  keep_local_log_files : bool;
  manifest_durable_periodicity_millis : Z;
  purger_periodicity_millis : Z;
  cloud_request_callback : bool
}.

(** [EnvOptions], of which the environment reads one member. *)
Record EnvOptions : Type := {
  use_mmap_reads : bool
}.

(** ** The environment object *)

Record AwsEnv : Type := {
  cloud_env_options : CloudEnvOptions;
  src_bucket_prefix_ : string;
  src_object_prefix_ : string;
  src_bucket_region_ : string;
  dest_bucket_prefix_ : string;
  dest_object_prefix_ : string;
  dest_bucket_region_ : string;
  has_src_bucket_ : bool;
  has_dest_bucket_ : bool;
  has_two_unique_buckets_ : bool;
  create_bucket_status_ : Status;
  (** status of the Kinesis tailer, when one was created *)
  tailer_ : option Status;
  (** the deletion thread was started *)
  file_deletion_thread_ : bool
}.

Definition GetSrcBucketPrefix (env : AwsEnv) : string := src_bucket_prefix_ env.
Definition GetSrcObjectPrefix (env : AwsEnv) : string := src_object_prefix_ env.
Definition GetDestBucketPrefix (env : AwsEnv) : string := dest_bucket_prefix_ env.
Definition GetDestObjectPrefix (env : AwsEnv) : string := dest_object_prefix_ env.
Definition two_unique_buckets (env : AwsEnv) : bool := has_two_unique_buckets_ env.

(** ** The local environment

    Modelled from the spec: the local environment behind [base_env_]
    ([rocksdb/env.h] and its POSIX implementation are consumed as a
    dependency): an in-memory file system.  Opening, sizing, renaming or
    deleting a missing path fails with IOError, [FileExists] answers
    NotFound for it, and local errors reach the caller unchanged. *)

(** [s.find('/') != npos] *)
Fixpoint contains_slash (s : string) : bool :=
  match s with
  | EmptyString => false
  | String c s => Ascii.eqb c "/"%char || contains_slash s
  end.

Module BaseEnv.

(** What [unique_ptr<SequentialFile>], [unique_ptr<RandomAccessFile>]
    and [unique_ptr<WritableFile>] of the local environment point to:
    the path of the open file. *)
Definition File : Type := string.

Definition FileExists (fname : string) : M Status :=
  w ← get;
  mret (match local_files w !! fname with
        | Some _ => OK
        | None => NotFound
        end).

Definition NewSequentialFile (fname : string) : M (Status * option File) :=
  w ← get;
  mret (match local_files w !! fname with
        | Some _ => (OK, Some fname)
        | None => (IOError, None)
        end).

Definition NewRandomAccessFile (fname : string) : M (Status * option File) :=
  w ← get;
  mret (match local_files w !! fname with
        | Some _ => (OK, Some fname)
        | None => (IOError, None)
        end).

(** Creates the file, or truncates it. *)
Definition NewWritableFile (fname : string) : M (Status * option File) :=
  modify (fun w => set_local_files (<[fname := ""]> (local_files w)) w);;
  mret (OK, Some fname).

(** Stores 0 in [*size] when the file is missing. *)
Definition GetFileSize (fname : string) : M (Status * Z) :=
  w ← get;
  mret (match local_files w !! fname with
        | Some c => (OK, Z.of_nat (String.length c))
        | None => (IOError, 0)
        end).

Definition RenameFile (src target : string) : M Status :=
  w ← get;
  match local_files w !! src with
  | Some c =>
      modify (fun w =>
        set_local_files (<[target := c]> (delete src (local_files w))) w);;
      mret OK
  | None => mret IOError
  end.

Definition DeleteFile (fname : string) : M Status :=
  w ← get;
  match local_files w !! fname with
  | Some _ =>
      modify (fun w => set_local_files (delete fname (local_files w)) w);;
      mret OK
  | None => mret IOError
  end.

Definition DeleteDir (dname : string) : M Status :=
  w ← get;
  if decide (dname ∈ local_dirs w) then
    modify (fun w => set_local_dirs (local_dirs w ∖ {[dname]}) w);;
    mret OK
  else mret IOError.

Definition CreateDir (dname : string) : M Status :=
  w ← get;
  if decide (dname ∈ local_dirs w) then mret IOError
  else
    modify (fun w => set_local_dirs ({[dname]} ∪ local_dirs w) w);;
    mret OK.

Definition CreateDirIfMissing (dname : string) : M Status :=
  modify (fun w => set_local_dirs ({[dname]} ∪ local_dirs w) w);;
  mret OK.

Definition NewDirectory (dname : string) : M Status :=
  w ← get;
  mret (if decide (dname ∈ local_dirs w) then OK else IOError).

(** The names of the files directly under a directory. *)
Definition GetChildren (dname : string) : M (Status * list string) :=
  w ← get;
  if decide (dname ∈ local_dirs w) then
    mret (OK,
          omap (fun path : string =>
                  let pfx := dname +:+ "/" in
                  let leaf := String.substring (String.length pfx)
                                (String.length path - String.length pfx) path in
                  if String.prefix pfx path
                     && negb (String.prefix "/" leaf || contains_slash leaf)
                  then Some leaf else None)
               (map_to_list (local_files w)).*1)
  else mret (IOError, []).

Definition GetFileModificationTime (fname : string) : M (Status * Z) :=
  w ← get;
  mret (match local_files w !! fname with
        | Some _ => (OK, now_micros w / 1000000)
        | None => (IOError, 0)
        end).

Definition ReadFileIntoString (fname : string) : M (Status * string) :=
  w ← get;
  mret (match local_files w !! fname with
        | Some c => (OK, c)
        | None => (IOError, "")
        end).

(** Members of an open [WritableFile]. *)
Definition Append (f : File) (data : string) : M Status :=
  w ← get;
  match local_files w !! f with
  | Some c =>
      modify (fun w => set_local_files (<[f := c +:+ data]> (local_files w)) w);;
      mret OK
  | None => mret IOError
  end.

Definition Close (f : File) : M Status := mret OK.
Definition Sync (f : File) : M Status := mret OK.
Definition Flush (f : File) : M Status := mret OK.

Definition WritableFile_GetFileSize (f : File) : M Z :=
  w ← get;
  mret (match local_files w !! f with
        | Some c => Z.of_nat (String.length c)
        | None => 0
        end).

End BaseEnv.

(** ** The S3 client

    Modelled from the spec: the primitives of the object store (the AWS
    SDK is consumed as a capability with [Head], [Get], [Put], [Delete],
    [List] and [CreateBucket] returning success or a typed error).  A
    request is logged; the service answers with the error [s3_fault]
    holds for it, if any, and otherwise serves it from [s3_objects].
    A missing key is reported as NO_SUCH_KEY; deleting a missing key
    succeeds; a listing returns the keys under the prefix that follow
    the marker, in alphabetical order, at most [max_keys] of them. *)

Module S3Client.

Record HeadObjectResult : Type := {
  head_ContentLength : Z;
  head_LastModified_Millis : Z;
  head_Metadata : gmap string string
}.

Record GetObjectResult : Type := {
  get_ContentLength : Z;
  get_Body : string
}.

Record ListObjectsResult : Type := {
  list_Contents : list string;
  list_IsTruncated : bool;
  list_NextMarker : string
}.

Definition send (req : S3Request) : M (option AWSError) :=
  w ← get;
  modify (set_s3_log (req :: s3_log w));;
  mret (s3_fault w req).

Definition no_such_key : AWSError :=
  {| GetErrorType := NO_SUCH_KEY;
     GetMessage := "The specified key does not exist." |}.

Definition HeadObject (bucket key : string)
  : M (AWSError + HeadObjectResult) :=
  fault ← send (HeadObjectRequest bucket key);
  w ← get;
  mret (match fault with
        | Some e => inl e
        | None =>
            match s3_objects w !! (bucket, key) with
            | Some o =>
                inr {| head_ContentLength := Z.of_nat (String.length (obj_body o));
                       head_LastModified_Millis := obj_last_modified o;
                       head_Metadata := obj_metadata o |}
            | None => inl no_such_key
            end
        end).

(** The bytes of [body] that an inclusive range selects. *)
Definition slice (range : option ByteRange) (body : string) : option string :=
  match range with
  | None => Some body
  | Some r =>
      if (range_first r <? 0) || (range_last r <? range_first r)
         || (Z.of_nat (String.length body) <=? range_first r)
      then None
      else Some (String.substring (Z.to_nat (range_first r))
                           (Z.to_nat (range_last r - range_first r + 1)) body)
  end.

(** With a response file the body is streamed into that local file. *)
Definition GetObject (bucket key : string) (range : option ByteRange)
           (response_file : option string)
  : M (AWSError + GetObjectResult) :=
  fault ← send (GetObjectRequest bucket key range response_file);
  w ← get;
  match fault with
  | Some e => mret (inl e)
  | None =>
      match s3_objects w !! (bucket, key) with
      | None => mret (inl no_such_key)
      | Some o =>
          match slice range (obj_body o) with
          | None =>
              mret (inl {| GetErrorType := INVALID_RANGE;
                           GetMessage := "The requested range is not satisfiable" |})
          | Some data =>
              let len := Z.of_nat (String.length data) in
              match response_file with
              | Some path =>
                  modify (fun w => set_local_files (<[path := data]> (local_files w)) w);;
                  mret (inr {| get_ContentLength := len; get_Body := "" |})
              | None =>
                  mret (inr {| get_ContentLength := len; get_Body := data |})
              end
          end
      end
  end.

Definition PutObject (bucket key body : string)
           (metadata : gmap string string) : M (AWSError + unit) :=
  fault ← send (PutObjectRequest bucket key body metadata);
  match fault with
  | Some e => mret (inl e)
  | None =>
      modify (fun w =>
        set_s3_objects
          (<[(bucket, key) := {| obj_body := body;
                                 obj_metadata := metadata;
                                 obj_last_modified := now_micros w / 1000 |}]>
             (s3_objects w)) w);;
      mret (inr tt)
  end.

Definition DeleteObject (bucket key : string) : M (AWSError + unit) :=
  fault ← send (DeleteObjectRequest bucket key);
  match fault with
  | Some e => mret (inl e)
  | None =>
      modify (fun w => set_s3_objects (delete (bucket, key) (s3_objects w)) w);;
      mret (inr tt)
  end.

Definition CreateBucket (bucket : string) (location : option string)
  : M (AWSError + unit) :=
  fault ← send (CreateBucketRequest bucket location);
  mret (match fault with
        | Some e => inl e
        | None => inr tt
        end).

(** The keys of a bucket under a prefix and after a marker, sorted. *)
Definition keys_after (objects : gmap (string * string) S3Object)
           (bucket pfx marker : string) : list string :=
  merge_sort String.le
    (omap (fun bk : string * string =>
             if bool_decide (bk.1 = bucket) && String.prefix pfx bk.2
                && (bool_decide (marker = "") || String.ltb marker bk.2)
             then Some bk.2 else None)
          (map_to_list objects).*1).

Definition ListObjects (bucket pfx marker : string) (max_keys : Z)
  : M (AWSError + ListObjectsResult) :=
  fault ← send (ListObjectsRequest bucket pfx marker max_keys);
  w ← get;
  mret (match fault with
        | Some e => inl e
        | None =>
            let keys := keys_after (s3_objects w) bucket pfx marker in
            inr {| list_Contents := take (Z.to_nat max_keys) keys;
                   list_IsTruncated :=
                     bool_decide (Z.to_nat max_keys < length keys)%nat;
                   list_NextMarker := "" |}
        end).

End S3Client.

(** ** [AwsS3ClientWrapper]: the client with a [Timer] around each request *)

Module AwsS3ClientWrapper.

(** [AwsEnv::S3ClientCallback], the callback the wrapper is built with. *)
Definition S3ClientCallback (env : AwsEnv) (type : CloudRequestOpType)
           (size micros : Z) (success : bool) : M unit :=
  (if cloud_request_callback (cloud_env_options env)
   then modify (fun w =>
          set_callback_log ((type, size, micros, success) :: callback_log w) w)
   else mret tt);;
  modify (set_s3client_result_
            {| result_type := type; result_size := size;
               result_micros := micros; result_ok := success |}).

(** The destructor of a [Timer] started for request [req]. *)
Definition Timer_done (env : AwsEnv) (type : CloudRequestOpType) (size : Z)
           (success : bool) (req : S3Request) : M unit :=
  w ← get;
  S3ClientCallback env type size (s3_latency w req) success.

Definition IsSuccess {E A : Type} (outcome : E + A) : bool :=
  match outcome with inr _ => true | inl _ => false end.

Definition ListObjects (env : AwsEnv) (bucket pfx marker : string)
           (max_keys : Z) : M (AWSError + S3Client.ListObjectsResult) :=
  outcome ← S3Client.ListObjects bucket pfx marker max_keys;
  Timer_done env kListOp 0 (IsSuccess outcome)
             (ListObjectsRequest bucket pfx marker max_keys);;
  mret outcome.

(** The timer of [CreateBucket] is never told of a success. *)
Definition CreateBucket (env : AwsEnv) (bucket : string)
           (location : option string) : M (AWSError + unit) :=
  outcome ← S3Client.CreateBucket bucket location;
  Timer_done env kCreateOp 0 false (CreateBucketRequest bucket location);;
  mret outcome.

Definition DeleteObject (env : AwsEnv) (bucket key : string)
  : M (AWSError + unit) :=
  outcome ← S3Client.DeleteObject bucket key;
  Timer_done env kDeleteOp 0 (IsSuccess outcome)
             (DeleteObjectRequest bucket key);;
  mret outcome.

Definition GetObject (env : AwsEnv) (bucket key : string)
           (range : option ByteRange) (response_file : option string)
  : M (AWSError + S3Client.GetObjectResult) :=
  outcome ← S3Client.GetObject bucket key range response_file;
  Timer_done env kReadOp
             (match outcome with
              | inr res => S3Client.get_ContentLength res
              | inl _ => 0
              end)
             (IsSuccess outcome)
             (GetObjectRequest bucket key range response_file);;
  mret outcome.

Definition PutObject (env : AwsEnv) (bucket key body : string)
           (metadata : gmap string string) (size_hint : Z)
  : M (AWSError + unit) :=
  outcome ← S3Client.PutObject bucket key body metadata;
  Timer_done env kWriteOp size_hint (IsSuccess outcome)
             (PutObjectRequest bucket key body metadata);;
  mret outcome.

Definition HeadObject (env : AwsEnv) (bucket key : string)
  : M (AWSError + S3Client.HeadObjectResult) :=
  outcome ← S3Client.HeadObject bucket key;
  Timer_done env kInfoOp 0 (IsSuccess outcome)
             (HeadObjectRequest bucket key);;
  mret outcome.

End AwsS3ClientWrapper.

(** ** What a request leaves behind *)

(** The world once the request is in the log. *)
Definition logged (req : S3Request) (w : World) : World :=
  set_s3_log (req :: s3_log w) w.

(** The world once the callback of the wrapper has run. *)
Definition told (env : AwsEnv) (type : CloudRequestOpType) (size micros : Z)
           (success : bool) (w : World) : World :=
  set_s3client_result_
    {| result_type := type; result_size := size; result_micros := micros;
       result_ok := success |}
    (if cloud_request_callback (cloud_env_options env)
     then set_callback_log ((type, size, micros, success) :: callback_log w) w
     else w).

(** [errmsg.find(pat) != std::string::npos] *)
Definition contains (pat s : string) : bool :=
  match String.index 0 pat s with
  | Some _ => true
  | None => false
  end.

(** The error classes the readable file reports as NotFound. *)
Definition is_missing_object (error : AWSError) : bool :=
  bool_decide (GetErrorType error = NO_SUCH_BUCKET)
  || bool_decide (GetErrorType error = NO_SUCH_KEY)
  || bool_decide (GetErrorType error = RESOURCE_NOT_FOUND)
  || contains "Response code: 404" (GetMessage error).

(** ** [S3ReadableFile] *)

Module S3ReadableFile.
Section S3ReadableFile.
Context `{Externals}.

(** The members of the class; [file_number_], [file_type_] and
    [log_type_], which only [GetUniqueId] reads, are left out with
    [ParseFileName]. *)
Record t : Type := {
  env_ : AwsEnv;
  fname_ : string;
  offset_ : Z;
  file_size_ : Z;
  last_mod_time_ : Z;
  is_file_ : bool;
  s3_bucket_ : string;
  s3_object_ : string;
  status_ : Status
}.

Definition with_info (f : t) (size mtime : Z) : t :=
  {| env_ := env_ f; fname_ := fname_ f; offset_ := offset_ f;
     file_size_ := size; last_mod_time_ := mtime; is_file_ := is_file_ f;
     s3_bucket_ := s3_bucket_ f; s3_object_ := s3_object_ f;
     status_ := status_ f |}.

Definition with_status (f : t) (st : Status) : t :=
  {| env_ := env_ f; fname_ := fname_ f; offset_ := offset_ f;
     file_size_ := file_size_ f; last_mod_time_ := last_mod_time_ f;
     is_file_ := is_file_ f; s3_bucket_ := s3_bucket_ f;
     s3_object_ := s3_object_ f; status_ := st |}.

Definition with_offset (f : t) (off : Z) : t :=
  {| env_ := env_ f; fname_ := fname_ f; offset_ := off;
     file_size_ := file_size_ f; last_mod_time_ := last_mod_time_ f;
     is_file_ := is_file_ f; s3_bucket_ := s3_bucket_ f;
     s3_object_ := s3_object_ f; status_ := status_ f |}.

(** Retrieves the metadata of the file by a HeadObject call. *)
Definition GetFileInfo (f : t) : M (Status * t) :=
  outcome ← AwsS3ClientWrapper.HeadObject (env_ f) (s3_bucket_ f) (s3_object_ f);
  match outcome with
  | inl error =>
      if is_missing_object error then mret (NotFound, f)
      else mret (IOError, f)
  | inr res =>
      mret (OK, with_info f (wrap64 (S3Client.head_ContentLength res))
                          (wrap64 (S3Client.head_LastModified_Millis res)))
  end.

(** The constructor. *)
Definition new (env : AwsEnv) (bucket_prefix fname : string) (is_file : bool)
  : M t :=
  assert_ (negb is_file || IsSstFile fname || IsManifestFile fname
           || IsIdentityFile fname);;
  let f := {| env_ := env; fname_ := fname; offset_ := 0; file_size_ := 0;
              last_mod_time_ := 0; is_file_ := is_file;
              s3_bucket_ := GetBucket bucket_prefix; s3_object_ := fname;
              status_ := OK |} in
  '(st, f) ← GetFileInfo f;
  mret (with_status f st).

Definition status (f : t) : Status := status_ f.
Definition GetSize (f : t) : Z := file_size_ f.
Definition GetLastModTime (f : t) : Z := last_mod_time_ f.

(** Random access: [Read(uint64_t offset, size_t n, Slice* result, char*
    scratch)]; [result] is what [*result] holds on entry.  The range is
    kept as a pair of numbers, so the [snprintf] that prints it, and
    its error branch, do not appear. *)
Definition Read_at (f : t) (offset n : Z) (result : string)
  : M (Status * string) :=
  if negb (ok (status_ f)) then mret (status_ f, result)
  else
    let result := "" in
    if file_size_ f <=? offset then mret (OK, result)
    else
      (* trim size if needed *)
      let n := if file_size_ f <? wrap64 (offset + n)
               then wrap64 (file_size_ f - offset) else n in
      (* ranges are inclusive: read 1 byte instead of 0 and drop it *)
      let rangeLen := if negb (n =? 0) then n else 1 in
      let range := {| range_first := offset;
                      range_last := wrap64 (offset + rangeLen - 1) |} in
      outcome ← AwsS3ClientWrapper.GetObject (env_ f) (s3_bucket_ f)
                  (s3_object_ f) (Some range) None;
      match outcome with
      | inl error =>
          if is_missing_object error then mret (NotFound, result)
          else mret (IOError, result)
      | inr res =>
          (* extract data payload *)
          let body := S3Client.get_Body res in
          if negb (n =? 0) then
            let size := Z.min n (Z.of_nat (String.length body)) in
            assert_ (size <=? n);;
            mret (OK, String.substring 0 (Z.to_nat size) body)
          else mret (OK, "")
      end.

(** Sequential access: [Read(size_t n, Slice* result, char* scratch)]. *)
Definition Read (f : t) (n : Z) (result : string)
  : M (Status * string * t) :=
  '(s, result) ← Read_at f (offset_ f) n result;
  (* if the read returned some data, update offset_ *)
  if ok s
  then mret (s, result,
             with_offset f (wrap64 (offset_ f + Z.of_nat (String.length result))))
  else mret (s, result, f).

Definition Skip (f : t) (n : Z) : Status * t :=
  if negb (ok (status_ f)) then (status_ f, f)
  else
    let off := wrap64 (offset_ f + n) in
    (OK, with_offset f (if file_size_ f <? off then file_size_ f else off)).

End S3ReadableFile.
End S3ReadableFile.

(** ** [S3WritableFile] *)

Module S3WritableFile.
Section S3WritableFile.
Context `{Externals}.

Record t : Type := {
  env_ : AwsEnv;
  fname_ : string;
  (** the local file the writes go to; [None] once it is closed *)
  temp_file_ : option BaseEnv.File;
  s3_bucket_ : string;
  s3_object_ : string;
  status_ : Status;
  is_manifest_ : bool;
  manifest_durable_periodicity_millis_ : Z;
  manifest_last_sync_time_ : Z
}.

Definition with_status (f : t) (st : Status) : t :=
  {| env_ := env_ f; fname_ := fname_ f; temp_file_ := temp_file_ f;
     s3_bucket_ := s3_bucket_ f; s3_object_ := s3_object_ f; status_ := st;
     is_manifest_ := is_manifest_ f;
     manifest_durable_periodicity_millis_ := manifest_durable_periodicity_millis_ f;
     manifest_last_sync_time_ := manifest_last_sync_time_ f |}.

Definition with_temp_file (f : t) (tf : option BaseEnv.File) : t :=
  {| env_ := env_ f; fname_ := fname_ f; temp_file_ := tf;
     s3_bucket_ := s3_bucket_ f; s3_object_ := s3_object_ f;
     status_ := status_ f; is_manifest_ := is_manifest_ f;
     manifest_durable_periodicity_millis_ := manifest_durable_periodicity_millis_ f;
     manifest_last_sync_time_ := manifest_last_sync_time_ f |}.

Definition with_last_sync (f : t) (now : Z) : t :=
  {| env_ := env_ f; fname_ := fname_ f; temp_file_ := temp_file_ f;
     s3_bucket_ := s3_bucket_ f; s3_object_ := s3_object_ f;
     status_ := status_ f; is_manifest_ := is_manifest_ f;
     manifest_durable_periodicity_millis_ := manifest_durable_periodicity_millis_ f;
     manifest_last_sync_time_ := now |}.

(** Create the bucket in S3 if it does not already exist. *)
Definition CreateBucketInS3 (env : AwsEnv) (bucket_prefix : string)
           (location : option string) : M Status :=
  outcome ← AwsS3ClientWrapper.CreateBucket env (GetBucket bucket_prefix) location;
  match outcome with
  | inl error =>
      if negb (bool_decide (GetErrorType error = BUCKET_ALREADY_EXISTS))
         && negb (bool_decide (GetErrorType error = BUCKET_ALREADY_OWNED_BY_YOU))
      then mret IOError
      else mret OK
  | inr _ => mret OK
  end.

(** The constructor. *)
Definition new (env : AwsEnv) (local_fname bucket_prefix cloud_fname : string)
           (cloud_env_options : CloudEnvOptions) : M t :=
  assert_ (IsSstFile local_fname || IsManifestFile local_fname);;
  (* a temporary file in the local environment *)
  '(s, temp_file) ← BaseEnv.NewWritableFile local_fname;
  mret {| env_ := env; fname_ := local_fname; temp_file_ := temp_file;
          s3_bucket_ := GetBucket bucket_prefix; s3_object_ := cloud_fname;
          status_ := if negb (ok s) then s else OK;
          is_manifest_ := IsManifestFile local_fname;
          manifest_durable_periodicity_millis_ :=
            manifest_durable_periodicity_millis cloud_env_options;
          manifest_last_sync_time_ := 0 |}.

Definition status (f : t) : Status := status_ f.

(** Sync the file [fname] to the specified S3 object. *)
Definition CopyToS3 (env : AwsEnv) (fname s3_bucket s3_object : string)
           (size_hint : Z) : M Status :=
  (* debugging paranoia: files uploaded to S3 can never be zero size *)
  '(statx, fsize) ← BaseEnv.GetFileSize fname;
  if fsize =? 0 then mret IOError
  else
    (* the body of the request streams the local file *)
    w ← get;
    let input_data := default "" (local_files w !! fname) in
    put_outcome ← AwsS3ClientWrapper.PutObject env s3_bucket s3_object
                    input_data ∅ size_hint;
    match put_outcome with
    | inl error => mret IOError
    | inr _ => mret OK
    end.

(** Copy an S3 object to the specified local file. *)
Definition CopyFromS3 (env : AwsEnv) (s3_bucket source_object
           destination_pathname : string) : M Status :=
  let tmp_destination := destination_pathname +:+ ".tmp" in
  get_outcome ← AwsS3ClientWrapper.GetObject env s3_bucket source_object
                  None (Some tmp_destination);
  match get_outcome with
  | inl error => mret IOError
  | inr _ =>
      (* paranoia: files can never be zero size *)
      '(s, file_size) ← BaseEnv.GetFileSize tmp_destination;
      let s := if file_size =? 0 then IOError else s in
      if ok s then BaseEnv.RenameFile tmp_destination destination_pathname
      else mret s
  end.

(** Copy this file to the MANIFEST object in S3. *)
Definition CopyManifestToS3 (f : t) (size_hint : Z) (force : bool)
  : M (Status * t) :=
  w ← get;
  let now := wrap64 (now_micros w) in
  if is_manifest_ f
     && (force
         || (wrap64 (manifest_last_sync_time_ f
                     + 1000 * manifest_durable_periodicity_millis_ f) <? now))
  then
    stat ← CopyToS3 (env_ f) (fname_ f) (s3_bucket_ f) (s3_object_ f) size_hint;
    if ok stat then
      (* record the manifest write and its latency in millis *)
      modify (fun w =>
        match cloud_statistics w with
        | Some stats =>
            set_cloud_statistics
              (Some (measureTime_MANIFEST_WRITES_TIME
                       (result_micros (s3client_result_ w) / 1000)
                       (recordTick_NUMBER_MANIFEST_WRITES 1 stats))) w
        | None => w
        end);;
      mret (stat, with_last_sync f now)
    else mret (stat, f)
  else mret (OK, f).

Definition Close (f : t) : M (Status * t) :=
  match temp_file_ f with
  | None => mret (status_ f, f) (* already closed *)
  | Some temp_file =>
      assert_ (ok (status_ f));;
      (* close local file *)
      st ← BaseEnv.Close temp_file;
      if negb (ok st) then mret (st, f)
      else
        let f := with_temp_file f None in
        (* find file size of local file to be uploaded *)
        '(st, file_size) ← BaseEnv.GetFileSize (fname_ f);
        let f := with_status f st in
        if negb (ok (status_ f)) then mret (status_ f, f)
        else if is_manifest_ f then
          (* upload the manifest; its local instance stays *)
          '(st, f) ← CopyManifestToS3 f file_size true;
          let f := with_status f st in
          mret (status_ f, f)
        else
          (* upload sst file to S3 *)
          assert_ (IsSstFile (fname_ f));;
          st ← CopyToS3 (env_ f) (fname_ f) (s3_bucket_ f) (s3_object_ f) file_size;
          let f := with_status f st in
          if negb (ok (status_ f)) then mret (status_ f, f)
          else if negb (keep_local_sst_files (cloud_env_options (env_ f))) then
            (* delete local file *)
            st ← BaseEnv.DeleteFile (fname_ f);
            let f := with_status f st in
            if negb (ok (status_ f)) then mret (status_ f, f)
            else mret (OK, f)
          else mret (OK, f)
  end.

(** Sync the file to stable storage. *)
Definition Sync (f : t) : M (Status * t) :=
  match temp_file_ f with
  | None => mret (status_ f, f)
  | Some temp_file =>
      assert_ (ok (status_ f));;
      (* sync local file *)
      stat ← BaseEnv.Sync temp_file;
      (* a manifest can be copied to S3 to make it durable *)
      if is_manifest_ f && ok stat then
        size ← BaseEnv.WritableFile_GetFileSize temp_file;
        CopyManifestToS3 f size force_default
      else mret (stat, f)
  end.

End S3WritableFile.
End S3WritableFile.



(** ** [AwsEnv]: the environment router *)

(** What the [unique_ptr] handed back by an open points to. *)
Inductive FilePtr : Type :=
| LocalFile (f : BaseEnv.File)
| S3File (f : S3ReadableFile.t).

(** The four [bool] variables a caller hands to [GetFileType]; the
    pointers [manifest] and [identity] may be null ([None]). *)
Record FileTypeFlags : Type := {
  sstFile : Slot;
  logFile : Slot;
  manifest : option Slot;
  identity : option Slot
}.

(** [bool logfile; bool sstfile; bool manifest; bool identity;] *)
Definition four_flags : FileTypeFlags :=
  {| sstFile := None; logFile := None; manifest := Some None; identity := Some None |}.

(** [bool logfile; bool sstfile;] with the other two pointers null. *)
Definition two_flags : FileTypeFlags :=
  {| sstFile := None; logFile := None; manifest := None; identity := None |}.

(** The variable a non-null pointer refers to. *)
Definition var (p : option Slot) : Slot :=
  match p with
  | Some s => s
  | None => None
  end.

(** [a || b], which leaves [b] alone when [a] holds. *)
Definition or_else (a b : M bool) : M bool :=
  a ≫= fun x : bool => if x then mret true else b.

Section AwsEnv.
Context `{Externals}.

Definition status (env : AwsEnv) : Status := create_bucket_status_ env.

(** Check if options are compatible with the S3 storage system. *)
Definition CheckOption (env : AwsEnv) (options : EnvOptions) : Status :=
  (* cannot mmap files that reside on S3, unless the file is also local *)
  if use_mmap_reads options && negb (keep_local_sst_files (cloud_env_options env))
  then InvalidArgument
  else OK.

(** Find out whether this is an sst file or a log file. *)
Definition GetFileType (fname : string) (v : FileTypeFlags) : FileTypeFlags :=
  (* *logFile = false; if (manifest) *manifest = false; *)
  let logFile1 : Slot := Some false in
  let manifest1 : option Slot :=
    match manifest v with Some _ => Some (Some false) | None => None end in
  (* *sstFile = IsSstFile(fname); *)
  let sstFile1 : Slot := Some (IsSstFile fname) in
  if negb (IsSstFile fname) then
    {| sstFile := sstFile1;
       logFile := Some (IsLogFile fname);
       manifest :=
         match manifest1 with
         | Some _ => Some (Some (IsManifestFile fname))
         | None => None
         end;
       identity :=
         match identity v with
         | Some _ => Some (Some (IsIdentityFile fname))
         | None => None
         end |}
  else
    {| sstFile := sstFile1; logFile := logFile1; manifest := manifest1;
       identity := identity v |}.

(** The file is kept in the cloud: the test [sstfile || manifest ||
    identity] of the router. *)
Definition is_cloud_file (fname : string) : bool :=
  IsSstFile fname || IsManifestFile fname || IsIdentityFile fname.

(** Prepends the configured src object path name. *)
Definition srcname (env : AwsEnv) (localname : string) : M string :=
  assert_ (negb (bool_decide (src_bucket_prefix_ env = "")));;
  mret (src_object_prefix_ env +:+ "/" +:+ basename localname).

(** Prepends the configured dest object path name. *)
Definition destname (env : AwsEnv) (localname : string) : M string :=
  assert_ (negb (bool_decide (dest_bucket_prefix_ env = "")));;
  mret (dest_object_prefix_ env +:+ "/" +:+ basename localname).

(** [KinesisSystem::Retry]: keep retrying the command until it is
    successful or the timeout has expired.  Each round sleeps 100
    milliseconds, so the loop ends within [fuel] rounds when [fuel]
    exceeds [retry_period_micros / 100000 + 1]. *)
Fixpoint Retry_loop {A : Type} (fuel : nat) (start : Z)
         (func : M (Status * A)) : M (Status * A) :=
  match fuel with
  | O => abort OutOfFuel
  | S fuel =>
      '(stat, a) ← func;
      if ok stat then mret (stat, a)
      else
        (* sleep for some time *)
        modify (fun w => set_now_micros (now_micros w + 100000) w);;
        w ← get;
        let now := wrap64 (now_micros w) in
        if wrap64 (start + retry_period_micros) <? now
        then mret (TimedOut, a)
        else Retry_loop fuel start func
  end.

Definition Retry {A : Type} (func : M (Status * A)) : M (Status * A) :=
  w ← get;
  Retry_loop (Z.to_nat (retry_period_micros / 100000) + 2)
             (wrap64 (now_micros w)) func.

Definition tailer_status_ok (env : AwsEnv) : bool :=
  match tailer_ env with
  | Some st => ok st
  | None => false
  end.

Definition local_ptr (r : Status * option BaseEnv.File)
  : Status * option FilePtr :=
  (r.1, LocalFile <$> r.2).

(** Ability to read a file directly from cloud storage. *)
Definition NewSequentialFileCloud (env : AwsEnv) (bucket_prefix fname : string)
           (options : EnvOptions) : M (Status * option FilePtr) :=
  assert_ (ok (status env));;
  f ← S3ReadableFile.new env bucket_prefix fname is_file_default;
  let st := S3ReadableFile.status f in
  if negb (ok st) then mret (st, None)
  else mret (st, Some (S3File f)).

(** The two attempts on the buckets that both opens end with:
    [f] is the readable object built last, [st] its status. *)
Definition open_in_buckets (env : AwsEnv) (fname : string) (st : Status)
  : M (Status * option S3ReadableFile.t) :=
  '(st, f) ←
    (if negb (ok st) && has_dest_bucket_ env then
       (* read from destination S3 *)
       cloud_name ← destname env fname;
       f ← S3ReadableFile.new env (GetDestBucketPrefix env) cloud_name
             is_file_default;
       mret (S3ReadableFile.status f, Some f)
     else mret (st, None));
  (if negb (ok st) && has_src_bucket_ env then
     (* read from src bucket *)
     cloud_name ← srcname env fname;
     f ← S3ReadableFile.new env (GetSrcBucketPrefix env) cloud_name
           is_file_default;
     mret (S3ReadableFile.status f, Some f)
   else mret (st, f)).

(** The two downloads [NewRandomAccessFile] tries when the files are
    kept locally: from the destination bucket, then from the source
    bucket; [st] is the status so far. *)
Definition copy_from_buckets (env : AwsEnv) (fname : string) (st : Status)
  : M Status :=
  st ← (if has_dest_bucket_ env then
          cloud_name ← destname env fname;
          S3WritableFile.CopyFromS3 env (GetBucket (GetDestBucketPrefix env))
            cloud_name fname
        else mret st);
  (if negb (ok st) && has_src_bucket_ env then
     cloud_name ← srcname env fname;
     S3WritableFile.CopyFromS3 env (GetBucket (GetSrcBucketPrefix env))
       cloud_name fname
   else mret st).

(** Open a file for sequential reading. *)
Definition NewSequentialFile (env : AwsEnv) (fname : string)
           (options : EnvOptions) : M (Status * option FilePtr) :=
  assert_ (ok (status env));;
  (* get file type *)
  let v := GetFileType fname four_flags in
  let st := CheckOption env options in
  if negb (ok st) then mret (st, None)
  else
    c ← or_else (rd (sstFile v))
                (or_else (rd (var (manifest v))) (rd (var (identity v))));
    if (c : bool) then
      (* we read first from local storage and then from cloud storage *)
      '(st, result) ← local_ptr <$> BaseEnv.NewSequentialFile fname;
      if negb (ok st) then
        '(st, f) ← open_in_buckets env fname st;
        if ok st then mret (st, S3File <$> f)
        else mret (st, result)
      else mret (st, result)
    else
      c ← (l ← rd (logFile v);
           mret (l && negb (keep_local_log_files (cloud_env_options env))));
      if (c : bool) then
        (* read from Kinesis *)
        assert_ (tailer_status_ok env);;
        (* map pathname to cache dir *)
        let pathname := GetCachePath fname in
        Retry (local_ptr <$> BaseEnv.NewSequentialFile pathname)
      else
        (* neither a sst file nor a log file: read from default env *)
        local_ptr <$> BaseEnv.NewSequentialFile fname.

(** Open a file for random reading. *)
Definition NewRandomAccessFile (env : AwsEnv) (fname : string)
           (options : EnvOptions) : M (Status * option FilePtr) :=
  assert_ (ok (status env));;
  (* get file type *)
  let v := GetFileType fname four_flags in
  (* validate options *)
  let st := CheckOption env options in
  if negb (ok st) then mret (st, None)
  else
    c ← or_else (rd (sstFile v))
                (or_else (rd (var (manifest v))) (rd (var (identity v))));
    if (c : bool) then
      (* read from local storage and then from cloud storage *)
      '(st, result) ← local_ptr <$> BaseEnv.NewRandomAccessFile fname;
      exists_st ← (if negb (ok st) then BaseEnv.FileExists fname else mret OK);
      if negb (ok st) && negb (IsNotFound exists_st) then
        (* status is not OK, but the file does exist locally *)
        mret (st, result)
      else
        '(st, result) ←
          (if negb (ok st) && keep_local_sst_files (cloud_env_options env) then
             (* copy the file to the local storage *)
             st ← copy_from_buckets env fname st;
             if ok st then
               (* the file was copied: try opening it locally now *)
               local_ptr <$> BaseEnv.NewRandomAccessFile fname
             else mret (st, result)
           else mret (st, result));
        if negb (ok st) then
          '(st, f) ← open_in_buckets env fname st;
          if negb (ok st) then mret (st, result)
          else mret (st, S3File <$> f)
        else mret (st, result)
    else
      c ← (l ← rd (logFile v);
           mret (l && negb (keep_local_log_files (cloud_env_options env))));
      if (c : bool) then
        (* read from Kinesis *)
        assert_ (tailer_status_ok env);;
        let pathname := GetCachePath fname in
        Retry (local_ptr <$> BaseEnv.NewRandomAccessFile pathname)
      else
        (* neither a sst file nor a log file: read from default env *)
        local_ptr <$> BaseEnv.NewRandomAccessFile fname.


(** Check if the specified pathname exists as a file or directory in S3. *)
Definition PathExistsInS3 (env : AwsEnv) (fname bucket : string)
           (isfile : bool) : M Status :=
  assert_ (ok (status env));;
  (* only a Get is consistent with Puts: try to read 0 bytes *)
  f ← S3ReadableFile.new env bucket fname isfile;
  '(ret, _, _) ← S3ReadableFile.Read f 0 "";
  mret ret.

(** Check if the specified filename exists. *)
Definition FileExists (env : AwsEnv) (fname : string) : M Status :=
  assert_ (ok (status env));;
  let v := GetFileType fname four_flags in
  c ← or_else (rd (sstFile v))
              (or_else (rd (var (manifest v))) (rd (var (identity v))));
  if (c : bool) then
    (* we read first from local storage and then from cloud storage *)
    st ← BaseEnv.FileExists fname;
    st ← (if IsNotFound st && has_dest_bucket_ env then
            cloud_name ← destname env fname;
            PathExistsInS3 env cloud_name (GetDestBucketPrefix env) true
          else mret st);
    (if negb (ok st) && has_src_bucket_ env then
       cloud_name ← srcname env fname;
       PathExistsInS3 env cloud_name (GetSrcBucketPrefix env) true
     else mret st)
  else
    c ← (l ← rd (logFile v);
         mret (l && negb (keep_local_log_files (cloud_env_options env))));
    if (c : bool) then
      (* read from Kinesis *)
      assert_ (tailer_status_ok env);;
      let pathname := GetCachePath fname in
      fst <$> Retry ((fun st => (st, tt)) <$> BaseEnv.FileExists pathname)
    else BaseEnv.FileExists fname.

(** The body of the [for] loop of [GetChildrenFromS3]; the flag is
    [loop], cleared when a key does not start with the path. *)
Fixpoint push_children (path : string) (objs : list string)
         (result : list string) : M (list string * bool) :=
  match objs with
  | [] => mret (result, true)
  | keystr :: objs =>
      (* our path should be a prefix of the fetched value *)
      assert_ (String.prefix path keystr);;
      if negb (String.prefix path keystr) then mret (result, false)
      else push_children path objs (result ++ [keystr])
  end.

Fixpoint GetChildrenFromS3_loop (fuel : nat) (env : AwsEnv)
         (path bucket marker : string) (result : list string)
  : M (Status * list string) :=
  match fuel with
  | O => abort OutOfFuel
  | S fuel =>
      outcome ← AwsS3ClientWrapper.ListObjects env bucket path marker 50;
      match outcome with
      | inl error =>
          if bool_decide (GetErrorType error = NO_SUCH_BUCKET)
             || bool_decide (GetErrorType error = NO_SUCH_KEY)
             || bool_decide (GetErrorType error = RESOURCE_NOT_FOUND)
          then mret (NotFound, result)
          else mret (IOError, result)
      | inr res =>
          let objs := S3Client.list_Contents res in
          '(result, loop) ← push_children path objs result;
          (* if there are no more entries, then we are done *)
          if negb (S3Client.list_IsTruncated res) then mret (OK, result)
          else
            (* the new starting point *)
            marker ← (if bool_decide (S3Client.list_NextMarker res = "") then
                        match last objs with
                        | Some key => mret key
                        | None => abort Undefined
                        end
                      else mret (S3Client.list_NextMarker res));
            if (loop : bool)
            then GetChildrenFromS3_loop fuel env path bucket marker result
            else mret (OK, result)
      end
  end.

(** Appends the names of all children of the specified path from S3
    into the result set.  A truncated page holds 50 keys beyond the
    marker, so the pages are fewer than the objects of the store. *)
Definition GetChildrenFromS3 (env : AwsEnv) (path bucket_prefix : string)
           (result : list string) : M (Status * list string) :=
  assert_ (ok (status env));;
  w ← get;
  GetChildrenFromS3_loop (S (size (s3_objects w))) env path
                         (GetBucket bucket_prefix) "" result.

(** Delete the specified path from S3. *)
Definition DeletePathInS3 (env : AwsEnv) (bucket_prefix fname : string)
  : M Status :=
  assert_ (ok (status env));;
  outcome ← AwsS3ClientWrapper.DeleteObject env (GetBucket bucket_prefix) fname;
  match outcome with
  | inl error =>
      if bool_decide (GetErrorType error = NO_SUCH_BUCKET)
         || bool_decide (GetErrorType error = NO_SUCH_KEY)
         || bool_decide (GetErrorType error = RESOURCE_NOT_FOUND)
      then mret NotFound
      else mret IOError
  | inr _ => mret OK
  end.

Definition DeleteFile (env : AwsEnv) (fname : string) : M Status :=
  assert_ (ok (status env));;
  let v := GetFileType fname four_flags in
  (* delete from destination bucket and local dir *)
  c ← (if has_dest_bucket_ env
       then or_else (rd (sstFile v))
                    (or_else (rd (var (manifest v))) (rd (var (identity v))))
       else mret false);
  if (c : bool) then
    (* add the remote file deletion to the queue *)
    modify (fun w =>
      set_files_to_delete_ (files_to_delete_ w ++ [(steady_now w, fname)]) w);;
    (* delete from local *)
    BaseEnv.DeleteFile fname
  else
    c ← (l ← rd (logFile v);
         mret (l && negb (keep_local_log_files (cloud_env_options env))));
    if (c : bool) then
      assert_ (tailer_status_ok env);;
      (* log a Delete record to the kinesis stream *)
      if negb (ok (KinesisWritableFile_status fname)) then mret IOError
      else mret (KinesisWritableFile_LogDelete fname)
    else BaseEnv.DeleteFile fname.

(** Create a new entry in the destination bucket and a directory in
    the local environment. *)
Definition CreateDir (env : AwsEnv) (dirname : string) : M Status :=
  assert_ (ok (status env));;
  st ← (if has_dest_bucket_ env then
          dname ← destname env dirname;
          (* create an empty object *)
          put_outcome ← AwsS3ClientWrapper.PutObject env
                          (GetBucket (GetDestBucketPrefix env)) dname "" ∅ 0;
          match put_outcome with
          | inl error => mret IOError
          | inr _ => mret OK
          end
        else mret OK);
  if negb (ok st) then mret st
  else
    (* create local dir as well *)
    BaseEnv.CreateDir dirname.

Definition DeleteDir (env : AwsEnv) (dirname : string) : M Status :=
  assert_ (ok (status env));;
  assert_ (negb (IsSstFile dirname));;
  r ← (if has_dest_bucket_ env then
         (* verify that the S3 directory has no children *)
         cloud_name ← destname env dirname;
         '(st, results) ← GetChildrenFromS3 env cloud_name
                            (GetDestBucketPrefix env) [];
         if ok st && negb (length results =? 0)%nat then
           mret (inl IOError)
         else
           (* delete directory from S3 *)
           cloud_name ← destname env dirname;
           st ← DeletePathInS3 env (GetDestBucketPrefix env) cloud_name;
           mret (inr st)
       else mret (inr OK));
  match r : Status + Status with
  | inl st => mret st   (* return from inside the block *)
  | inr st =>
      (* delete the same directory in the posix filesystem as well *)
      if ok st then BaseEnv.DeleteDir dirname else mret st
  end.

(** All db in a bucket are stored under [dbid_registry_]; the
    metadata of the object names the path where the db resides. *)
Definition SaveDbid (env : AwsEnv) (dbid dirname : string) : M Status :=
  assert_ (ok (status env));;
  let dbidkey := dbid_registry_ +:+ dbid in
  let metadata : gmap string string := <["dirname" := dirname]> ∅ in
  put_outcome ← AwsS3ClientWrapper.PutObject env
                  (GetBucket (GetDestBucketPrefix env)) dbidkey "" metadata 0;
  match put_outcome with
  | inl error => mret IOError
  | inr _ => mret OK
  end.

(** Given a dbid, retrieves its pathname; [dirname] is what the
    caller's string holds on entry. *)
Definition GetPathForDbid (env : AwsEnv) (bucket_prefix dbid dirname : string)
  : M (Status * string) :=
  let dbidkey := dbid_registry_ +:+ dbid in
  outcome ← AwsS3ClientWrapper.HeadObject env (GetBucket bucket_prefix) dbidkey;
  match outcome with
  | inl error =>
      if bool_decide (GetErrorType error = NO_SUCH_BUCKET)
         || bool_decide (GetErrorType error = NO_SUCH_KEY)
         || bool_decide (GetErrorType error = RESOURCE_NOT_FOUND)
         || bool_decide (GetErrorType error = UNKNOWN)
      then mret (NotFound, dirname)
      else mret (IOError, dirname)
  | inr res =>
      (* find the "dirname" metadata that stores the pathname of the db *)
      match S3Client.head_Metadata res !! "dirname" with
      | Some as_ => mret (OK, as_)
      | None => mret (NotFound, dirname)
      end
  end.

(** Deletes the specified dbid from the registry. *)
Definition DeleteDbid (env : AwsEnv) (bucket_prefix dbid : string) : M Status :=
  let dbidkey := dbid_registry_ +:+ dbid in
  DeletePathInS3 env bucket_prefix dbidkey.

(** Copy my IDENTITY file to cloud storage.  Update dbid registry. *)
Definition SaveIdentitytoS3 (env : AwsEnv) (localfile idfile : string)
  : M Status :=
  assert_ (bool_decide (basename idfile = "IDENTITY"));;
  let bucket := GetBucket (GetDestBucketPrefix env) in
  (* read id into string *)
  '(st, dbid) ← BaseEnv.ReadFileIntoString localfile;
  let dbid := trim dbid in
  (* upload ID file to S3 *)
  st ← (if ok st
        then S3WritableFile.CopyToS3 env localfile bucket idfile
               (Z.of_nat (String.length dbid))
        else mret st);
  (* save mapping from ID to cloud pathname *)
  if ok st && negb (bool_decide (GetDestObjectPrefix env = ""))
  then SaveDbid env dbid (GetDestObjectPrefix env)
  else mret st.

(** The rename is not atomic; S3 does not support renaming natively. *)
Definition RenameFile (env : AwsEnv) (src target : string) : M Status :=
  assert_ (ok (status env));;
  (* get file type of target *)
  let v := GetFileType target four_flags in
  sstfile ← rd (sstFile v);
  if (sstfile : bool) then
    (* rename should never be called on sst files *)
    assert_ false;;
    mret NotSupported
  else
    logfile ← rd (logFile v);
    if (logfile : bool) then
      (* rename should never be called on log files as well *)
      assert_ false;;
      mret NotSupported
    else
      manifestfile ← rd (var (manifest v));
      if (manifestfile : bool) then
        (* rename should never be called on manifest files as well *)
        assert_ false;;
        mret NotSupported
      else
        c ← or_else (negb <$> rd (var (identity v)))
                    (mret (negb (has_dest_bucket_ env)));
        if (c : bool) then BaseEnv.RenameFile src target
        else
          (* only ID file should come here *)
          assert_var (var (identity v));;
          assert_ (has_dest_bucket_ env);;
          assert_ (bool_decide (basename target = "IDENTITY"));;
          (* save Identity to S3 *)
          cloud_name ← destname env target;
          st ← SaveIdentitytoS3 env src cloud_name;
          (* do the rename on local filesystem too *)
          if ok st then BaseEnv.RenameFile src target
          else mret st.

(** What a [unique_ptr<WritableFile>] handed back by the environment
    points to. *)
Inductive WritablePtr : Type :=
| LocalWritable (f : BaseEnv.File)
| S3Writable (f : S3WritableFile.t)
| KinesisWritable (fname : string).

(** Create a new file for writing. *)
Definition NewWritableFile (env : AwsEnv) (fname : string) (options : EnvOptions)
  : M (Status * option WritablePtr) :=
  assert_ (ok (status env));;
  let v := GetFileType fname four_flags in
  c ← (if has_dest_bucket_ env
       then or_else (rd (sstFile v))
              (or_else (rd (var (identity v)))
                 (rd (var (manifest v)) ≫= fun m : bool =>
                    mret (m && (0 <? manifest_durable_periodicity_millis
                                       (cloud_env_options env)))))
       else mret false);
  if (c : bool) then
    is_manifest ← rd (var (manifest v));
    cloud_file ← (if (is_manifest : bool)
                  then (fun d => d +:+ "/MANIFEST") <$> destname env (dirname fname)
                  else destname env fname);
    f ← S3WritableFile.new env fname (GetDestBucketPrefix env) cloud_file
          (cloud_env_options env);
    let s := S3WritableFile.status f in
    if negb (ok s) then mret (s, None)
    else mret (s, Some (S3Writable f))
  else
    c ← (l ← rd (logFile v);
         mret (l && negb (keep_local_log_files (cloud_env_options env))));
    if (c : bool) then
      if negb (ok (KinesisWritableFile_status fname)) then mret (IOError, None)
      else mret (OK, Some (KinesisWritable fname))
    else
      '(s, f) ← BaseEnv.NewWritableFile fname;
      mret (s, LocalWritable <$> f).

(** Returns success only if the local directory exists.  When the
    directory object failed to build, the code deletes it and then
    returns its status: a read of freed memory. *)
Definition NewDirectory (env : AwsEnv) (name : string) : M Status :=
  assert_ (ok (status env));;
  (* the S3Directory asks the local environment *)
  st ← BaseEnv.NewDirectory name;
  if negb (ok st) then abort Undefined
  else mret OK.

Definition GetChildren (env : AwsEnv) (path : string)
  : M (Status * list string) :=
  assert_ (ok (status env));;
  assert_ (negb (IsSstFile path));;
  (* fetch the list of children from both buckets in S3 *)
  r ← (if has_src_bucket_ env then
         cloud_name ← srcname env path;
         GetChildrenFromS3 env cloud_name (GetSrcBucketPrefix env) []
       else mret (OK, []));
  if negb (ok r.1) then mret r
  else
    r ← (if has_dest_bucket_ env && two_unique_buckets env then
           cloud_name ← srcname env path;
           GetChildrenFromS3 env cloud_name (GetDestBucketPrefix env) r.2
         else mret r);
    if negb (ok r.1) then mret r
    else
      (* fetch all files that exist in the local posix directory *)
      '(st, local_names) ← BaseEnv.GetChildren path;
      if negb (ok st) then mret (st, r.2)
      else mret (OK, (r.2 ++ local_names)%list).

Definition CreateDirIfMissing (env : AwsEnv) (dirname : string) : M Status :=
  assert_ (ok (status env));;
  st ← (if has_dest_bucket_ env then
          dname ← destname env dirname;
          put_outcome ← AwsS3ClientWrapper.PutObject env
                          (GetBucket (GetDestBucketPrefix env)) dname "" ∅ 0;
          match put_outcome with
          | inl error => mret IOError
          | inr _ => mret OK
          end
        else mret OK);
  if negb (ok st) then mret st
  else
    (* create the same directory in the posix filesystem as well *)
    BaseEnv.CreateDirIfMissing dirname.

(** Size and modification time of an object, each wanted only when
    its pointer is not null. *)
Definition GetFileInfoInS3 (env : AwsEnv) (bucket_prefix fname : string)
           (size modtime : option Z) : M (Status * option Z * option Z) :=
  let size := (fun _ : Z => 0) <$> size in
  let modtime := (fun _ : Z => 0) <$> modtime in
  f ← S3ReadableFile.new env bucket_prefix fname is_file_default;
  '(ret, _, f) ← S3ReadableFile.Read f 0 "";
  if negb (ok ret) then mret (ret, size, modtime)
  else mret (ret, (fun _ : Z => S3ReadableFile.GetSize f) <$> size,
             (fun _ : Z => S3ReadableFile.GetLastModTime f) <$> modtime).

Definition GetFileSize (env : AwsEnv) (fname : string) : M (Status * Z) :=
  assert_ (ok (status env));;
  let v := GetFileType fname two_flags in
  sstfile ← rd (sstFile v);
  if (sstfile : bool) then
    exists_st ← BaseEnv.FileExists fname;
    if ok exists_st then BaseEnv.GetFileSize fname
    else
      (* get file length from S3 *)
      '(st, size) ←
        (if has_dest_bucket_ env then
           cloud_name ← destname env fname;
           '(st, size, _) ← GetFileInfoInS3 env (GetDestBucketPrefix env)
                              cloud_name (Some 0) None;
           mret (st, default 0 size)
         else mret (NotFound, 0));
      if IsNotFound st && has_src_bucket_ env then
        cloud_name ← srcname env fname;
        '(st, size, _) ← GetFileInfoInS3 env (GetSrcBucketPrefix env)
                           cloud_name (Some size) None;
        mret (st, default 0 size)
      else mret (st, size)
  else
    c ← (l ← rd (logFile v);
         mret (l && negb (keep_local_log_files (cloud_env_options env))));
    if (c : bool) then
      assert_ (tailer_status_ok env);;
      Retry (BaseEnv.GetFileSize (GetCachePath fname))
    else BaseEnv.GetFileSize fname.

(** [time] is what [*time] holds on entry. *)
Definition GetFileModificationTime (env : AwsEnv) (fname : string) (time : Z)
  : M (Status * Z) :=
  assert_ (ok (status env));;
  let v := GetFileType fname two_flags in
  sstfile ← rd (sstFile v);
  if (sstfile : bool) then
    exists_st ← BaseEnv.FileExists fname;
    if ok exists_st then BaseEnv.GetFileModificationTime fname
    else
      '(st, time) ←
        (if has_dest_bucket_ env then
           cloud_name ← destname env fname;
           '(st, _, time) ← GetFileInfoInS3 env (GetDestBucketPrefix env)
                              cloud_name None (Some time);
           mret (st, default 0 time)
         else mret (NotFound, time));
      if IsNotFound st && has_src_bucket_ env then
        cloud_name ← srcname env fname;
        '(st, _, time) ← GetFileInfoInS3 env (GetSrcBucketPrefix env)
                           cloud_name None (Some time);
        mret (st, default 0 time)
      else mret (st, time)
  else
    c ← (l ← rd (logFile v);
         mret (l && negb (keep_local_log_files (cloud_env_options env))));
    if (c : bool) then
      assert_ (tailer_status_ok env);;
      Retry (BaseEnv.GetFileModificationTime (GetCachePath fname))
    else BaseEnv.GetFileModificationTime fname.

(** There is no good way to atomically check and create a file in S3. *)
Definition LockFile (env : AwsEnv) (fname : string) : M Status := mret OK.

Definition UnlockFile (env : AwsEnv) : M Status := mret OK.

(** The [for] loop of [EmptyBucket]: [st] is overwritten by every
    deletion. *)
Fixpoint EmptyBucket_loop (env : AwsEnv) (bucket_prefix : string)
         (results : list string) (st : Status) : M Status :=
  match results with
  | [] => mret st
  | path :: results =>
      st ← DeletePathInS3 env bucket_prefix path;
      EmptyBucket_loop env bucket_prefix results st
  end.

(** Deletes all the objects in our bucket. *)
Definition EmptyBucket (env : AwsEnv) (bucket_prefix : string) : M Status :=
  (* get all the objects in the bucket *)
  '(st, results) ← GetChildrenFromS3 env "" bucket_prefix [];
  if negb (ok st) then mret st
  else
    (* delete all objects from bucket *)
    EmptyBucket_loop env bucket_prefix results st.

(** The [for] loop of [GetDbidList]; [DbidList] is a [std::map]. *)
Fixpoint GetDbidList_loop (env : AwsEnv) (bucket_prefix : string)
         (dbid_list : list string) (st : Status) (dblist : gmap string string)
  : M (Status * gmap string string) :=
  match dbid_list with
  | [] => mret (st, dblist)
  | dbid :: dbid_list =>
      (* fetch the db directory where the db data should reside *)
      '(st, dirname) ← GetPathForDbid env bucket_prefix dbid "";
      if negb (ok st) then mret (st, dblist)
      else
        (* insert item into result set *)
        GetDbidList_loop env bucket_prefix dbid_list st (<[dbid := dirname]> dblist)
  end.

(** Retrieves the list of all registered dbids and their paths. *)
Definition GetDbidList (env : AwsEnv) (bucket_prefix : string)
           (dblist : gmap string string) : M (Status * gmap string string) :=
  (* fetch the list of all dbids *)
  '(st, dbid_list) ← GetChildrenFromS3 env dbid_registry_ bucket_prefix [];
  if negb (ok st) then mret (st, dblist)
  else GetDbidList_loop env bucket_prefix dbid_list st dblist.

(** Returns a list of all objects that start with the specified prefix
    and are stored in the bucket; [pathnames] is [meta->pathnames]. *)
Definition ListObjects (env : AwsEnv) (bucket_name_prefix
           bucket_object_prefix : string) (pathnames : list string)
  : M (Status * list string) :=
  GetChildrenFromS3 env bucket_object_prefix bucket_name_prefix pathnames.

(** Deletes the specified object from cloud storage. *)
Definition DeleteObject (env : AwsEnv) (bucket_name_prefix
           bucket_object_path : string) : M Status :=
  DeletePathInS3 env bucket_name_prefix bucket_object_path.

Definition ExistsObject (env : AwsEnv) (bucket_name_prefix
           bucket_object_path : string) : M Status :=
  PathExistsInS3 env bucket_object_path bucket_name_prefix true.

(** Return size of cloud object; [filesize] is what [*filesize] holds
    on entry. *)
Definition GetObjectSize (env : AwsEnv) (bucket_name_prefix
           bucket_object_path : string) (filesize : Z) : M (Status * Z) :=
  '(st, size, _) ← GetFileInfoInS3 env bucket_name_prefix bucket_object_path
                     (Some filesize) None;
  mret (st, default 0 size).

(** Retrieves the AWS credentials from the environment variables
    [getenv] reads; the three strings are what the caller's strings
    hold on entry. *)
Definition GetTestCredentials (getenv : string -> option string)
           (aws_access_key_id aws_secret_access_key region : string)
  : Status * string * string * string :=
  let id := match getenv "AWS_ACCESS_KEY_ID" with
            | Some id => Some id
            | None => getenv "aws_access_key_id"
            end in
  let secret := match getenv "AWS_SECRET_ACCESS_KEY" with
                | Some secret => Some secret
                | None => getenv "aws_secret_access_key"
                end in
  match id, secret with
  | Some id, Some secret =>
      let reg := match getenv "AWS_DEFAULT_REGION" with
                 | Some reg => Some reg
                 | None => getenv "aws_default_region"
                 end in
      (OK, id, secret,
       match reg with
       | Some reg => reg
       | None => "us-west-2"
       end)
  | _, _ => (IOError, aws_access_key_id, aws_secret_access_key, region)
  end.


(** The constructor.  The members are trimmed, the two buckets are
    compared, and unless the regions of two unique buckets differ the
    destination bucket is created, the Kinesis tier is set up when
    the log files are not kept locally, and the deletion thread is
    started. *)
Definition new_AwsEnv (src_bucket_prefix src_object_prefix src_bucket_region
           dest_bucket_prefix dest_object_prefix dest_bucket_region : string)
           (_cloud_env_options : CloudEnvOptions) : M AwsEnv :=
  modify (set_running_ true);;
  let src_bucket_prefix_ := trim src_bucket_prefix in
  let src_object_prefix_ := trim src_object_prefix in
  let src_bucket_region_ := trim src_bucket_region in
  let dest_bucket_prefix_ := trim dest_bucket_prefix in
  let dest_object_prefix_ := trim dest_object_prefix in
  let dest_bucket_region_ := trim dest_bucket_region in
  let has_src_bucket_ := negb (bool_decide (src_bucket_prefix_ = "")) in
  let has_dest_bucket_ := negb (bool_decide (dest_bucket_prefix_ = "")) in
  (* do we have two unique buckets? *)
  let has_two_unique_buckets_ :=
    has_src_bucket_ && has_dest_bucket_
    && (negb (bool_decide (src_bucket_prefix_ = dest_bucket_prefix_))
        || negb (bool_decide (src_object_prefix_ = dest_object_prefix_))) in
  let this (st : Status) (tailer : option Status) (thread : bool) : AwsEnv :=
    {| cloud_env_options := _cloud_env_options;
       src_bucket_prefix_ := src_bucket_prefix_;
       src_object_prefix_ := src_object_prefix_;
       src_bucket_region_ := src_bucket_region_;
       dest_bucket_prefix_ := dest_bucket_prefix_;
       dest_object_prefix_ := dest_object_prefix_;
       dest_bucket_region_ := dest_bucket_region_;
       has_src_bucket_ := has_src_bucket_;
       has_dest_bucket_ := has_dest_bucket_;
       has_two_unique_buckets_ := has_two_unique_buckets_;
       create_bucket_status_ := st;
       tailer_ := tailer;
       file_deletion_thread_ := thread |} in
  if has_two_unique_buckets_
     && negb (bool_decide (src_bucket_region_ = dest_bucket_region_))
  then
    (* two different regions are not supported *)
    mret (this InvalidArgument None false)
  else
    (* use the specified region if any *)
    let region := if bool_decide (src_bucket_region_ = "")
                  then default_region else src_bucket_region_ in
    let bucket_location_ := Some region in
    (* create dest bucket if specified *)
    st ← (if has_dest_bucket_
          then S3WritableFile.CreateBucketInS3 (this OK None false)
                 dest_bucket_prefix_ bucket_location_
          else mret OK);
    (* create the Kinesis client, the stream and the tailer *)
    let '(st, tailer) :=
      if ok st && negb (keep_local_log_files _cloud_env_options) then
        let st := Kinesis_CreateStream src_bucket_prefix_ in
        if ok st then (Kinesis_tailer_status, Some Kinesis_tailer_status)
        else (st, None)
      else (st, None) in
    mret (this st tailer true).

(** The destructor: stop the deletion thread and join it.  The join is
    not guarded by [joinable()]: on a thread that the constructor never
    started it throws [std::system_error], and the exception leaves the
    destructor. *)
Definition delete_AwsEnv (env : AwsEnv) : M unit :=
  modify (set_running_ false);;
  if file_deletion_thread_ env then mret tt else abort Terminated.

(** The factory method for creating an S3 Env. *)
Definition NewAwsEnv (src_bucket_prefix src_object_prefix src_bucket_region
           dest_bucket_prefix dest_object_prefix dest_bucket_region : string)
           (cloud_options : CloudEnvOptions) : M (Status * option AwsEnv) :=
  aenv ← new_AwsEnv src_bucket_prefix src_object_prefix src_bucket_region
           dest_bucket_prefix dest_object_prefix dest_bucket_region
           cloud_options;
  if negb (ok (status aenv)) then
    delete_AwsEnv aenv;;
    mret (status aenv, None)
  else mret (OK, Some aenv).

(** Every operation of the environment that starts with
    [assert(status().ok())] stops there. *)
Definition stops_on_status (env : AwsEnv) : Prop :=
  forall (w : World) (fname target bucket : string) (options : EnvOptions)
         (isfile : bool) (names : list string) (time : Z),
    NewSequentialFileCloud env bucket fname options w = Aborts AssertionFailed
    /\ NewSequentialFile env fname options w = Aborts AssertionFailed
    /\ NewRandomAccessFile env fname options w = Aborts AssertionFailed
    /\ NewWritableFile env fname options w = Aborts AssertionFailed
    /\ NewDirectory env fname w = Aborts AssertionFailed
    /\ FileExists env fname w = Aborts AssertionFailed
    /\ PathExistsInS3 env fname bucket isfile w = Aborts AssertionFailed
    /\ GetChildrenFromS3 env fname bucket names w = Aborts AssertionFailed
    /\ GetChildren env fname w = Aborts AssertionFailed
    /\ DeleteFile env fname w = Aborts AssertionFailed
    /\ DeletePathInS3 env bucket fname w = Aborts AssertionFailed
    /\ CreateDir env fname w = Aborts AssertionFailed
    /\ CreateDirIfMissing env fname w = Aborts AssertionFailed
    /\ DeleteDir env fname w = Aborts AssertionFailed
    /\ GetFileSize env fname w = Aborts AssertionFailed
    /\ GetFileModificationTime env fname time w = Aborts AssertionFailed
    /\ RenameFile env fname target w = Aborts AssertionFailed
    /\ SaveDbid env fname target w = Aborts AssertionFailed.

(** *** The deletion thread

    The body of [file_deletion_thread_], cut at the points where the
    thread waits or calls the service.  The thread holds
    [file_deletion_lock_] but while it waits; the calls of the other
    threads are interleaved here with every step of it, which the
    lock allows for fewer: the runs of the code are among the runs
    below. *)

Inductive WorkerPc : Type :=
| AtWait                                  (* [file_deletion_cv_.wait] *)
| AtWaitUntil (deleting_file : Z * string) (* [file_deletion_cv_.wait_until] *)
| AtDelete (deleting_file : Z * string)    (* [DeletePathInS3] *)
| Exited.

(** One step of the thread; [None] when it stays blocked.  The wait
    with a predicate returns once the predicate holds; the timed wait
    returns the predicate, at the latest when the deadline has passed.
    [s3client_result_] is thread local, so the caller's slot is kept. *)
Definition worker_step (env : AwsEnv) (pc : WorkerPc) : M (option WorkerPc) :=
  match pc with
  | AtWait =>
      w ← get;
      if negb (running_ w) then
        (* we're shutting down *)
        mret (Some Exited)
      else
        match files_to_delete_ w with
        | [] => mret None
        | deleting_file :: rest =>
            modify (set_files_to_delete_ rest);;
            mret (Some (AtWaitUntil deleting_file))
        end
  | AtWaitUntil deleting_file =>
      w ← get;
      if negb (running_ w) then mret (Some Exited)
      else if deleting_file.1 + file_deletion_delay_ <=? steady_now w
           then mret (Some (AtDelete deleting_file))
           else mret None
  | AtDelete deleting_file =>
      (* we are ready to delete the file! *)
      w ← get;
      cloud_name ← destname env deleting_file.2;
      st ← DeletePathInS3 env (GetDestBucketPrefix env) cloud_name;
      modify (set_s3client_result_ (s3client_result_ w));;
      mret (Some AtWait)
  | Exited => mret None
  end.

(** The environment with its deletion thread: the world, the place
    of the thread, and a record of what has happened so far. *)
Record Sys : Type := {
  world : World;
  pc : WorkerPc;
  (** entries pushed on the queue, oldest first *)
  enqueued : list (Z * string);
  (** entries the thread took off the queue, oldest first *)
  popped : list (Z * string);
  (** deletions the thread sent, with the time of sending, oldest first *)
  deleted : list (Z * (Z * string))
}.

Definition initial (w : World) : Sys :=
  {| world := set_files_to_delete_ [] (set_running_ true w);
     pc := AtWait; enqueued := []; popped := []; deleted := [] |}.

Definition newly_popped (pc pc' : WorkerPc) : list (Z * string) :=
  match pc, pc' with
  | AtWait, AtWaitUntil e => [e]
  | _, _ => []
  end.

Definition newly_deleted (now : Z) (pc : WorkerPc) : list (Z * (Z * string)) :=
  match pc with
  | AtDelete e => [(now, e)]
  | _ => []
  end.

Inductive sys_step (env : AwsEnv) : Sys -> Sys -> Prop :=
| step_clock (s : Sys) (d : Z) :
    0 <= d ->
    sys_step env s
      {| world := set_steady_now (steady_now (world s) + d) (world s);
         pc := pc s; enqueued := enqueued s; popped := popped s;
         deleted := deleted s |}
| step_DeleteFile (s : Sys) (fname : string) (st : Status) (w' : World) :
    DeleteFile env fname (world s) = Returns st w' ->
    sys_step env s
      {| world := w'; pc := pc s;
         enqueued := enqueued s
                     ++ drop (length (files_to_delete_ (world s)))
                             (files_to_delete_ w');
         popped := popped s; deleted := deleted s |}
| step_other (s : Sys) (w' : World) :
    files_to_delete_ w' = files_to_delete_ (world s) ->
    running_ w' = running_ (world s) ->
    steady_now w' = steady_now (world s) ->
    sys_step env s
      {| world := w'; pc := pc s; enqueued := enqueued s;
         popped := popped s; deleted := deleted s |}
| step_shutdown (s : Sys) (w' : World) :
    delete_AwsEnv env (world s) = Returns tt w' ->
    sys_step env s
      {| world := w'; pc := pc s; enqueued := enqueued s;
         popped := popped s; deleted := deleted s |}
| step_worker (s : Sys) (pc' : WorkerPc) (w' : World) :
    worker_step env (pc s) (world s) = Returns (Some pc') w' ->
    sys_step env s
      {| world := w'; pc := pc';
         enqueued := enqueued s;
         popped := popped s ++ newly_popped (pc s) pc';
         deleted := deleted s ++ newly_deleted (steady_now (world s)) (pc s) |}.

Inductive reachable (env : AwsEnv) (w0 : World) : Sys -> Prop :=
| reachable_initial : reachable env w0 (initial w0)
| reachable_step (s s' : Sys) :
    reachable env w0 s -> sys_step env s s' -> reachable env w0 s'.

(** The steps as functions, to run a schedule: the state after the
    step, or the state itself where the step cannot be taken. *)
Definition after_clock (d : Z) (s : Sys) : Sys :=
  if 0 <=? d then
    {| world := set_steady_now (steady_now (world s) + d) (world s);
       pc := pc s; enqueued := enqueued s; popped := popped s;
       deleted := deleted s |}
  else s.

Definition after_DeleteFile (env : AwsEnv) (fname : string) (s : Sys) : Sys :=
  match DeleteFile env fname (world s) with
  | Returns _ w' =>
      {| world := w'; pc := pc s;
         enqueued := enqueued s
                     ++ drop (length (files_to_delete_ (world s)))
                             (files_to_delete_ w');
         popped := popped s; deleted := deleted s |}
  | Aborts _ => s
  end.

Definition after_shutdown (env : AwsEnv) (s : Sys) : Sys :=
  match delete_AwsEnv env (world s) with
  | Returns _ w' =>
      {| world := w'; pc := pc s; enqueued := enqueued s;
         popped := popped s; deleted := deleted s |}
  | Aborts _ => s
  end.

Definition after_worker (env : AwsEnv) (s : Sys) : Sys :=
  match worker_step env (pc s) (world s) with
  | Returns (Some pc') w' =>
      {| world := w'; pc := pc';
         enqueued := enqueued s;
         popped := popped s ++ newly_popped (pc s) pc';
         deleted := deleted s ++ newly_deleted (steady_now (world s)) (pc s) |}
  | _ => s
  end.

End AwsEnv.

(** ** The fallback order *)

Inductive Tier : Type := LocalTier | DestTier | SrcTier.

Section Fallback.
Context `{Externals}.

Definition dest_key (env : AwsEnv) (fname : string) : string :=
  dest_object_prefix_ env +:+ "/" +:+ basename fname.

Definition src_key (env : AwsEnv) (fname : string) : string :=
  src_object_prefix_ env +:+ "/" +:+ basename fname.

(** The object a file name stands for in the destination bucket, and
    in the source bucket, when that bucket is configured. *)
Definition dest_object (env : AwsEnv) (fname : string) (w : World)
  : option S3Object :=
  if has_dest_bucket_ env
  then s3_objects w !! (GetBucket (GetDestBucketPrefix env), dest_key env fname)
  else None.

Definition src_object (env : AwsEnv) (fname : string) (w : World)
  : option S3Object :=
  if has_src_bucket_ env
  then s3_objects w !! (GetBucket (GetSrcBucketPrefix env), src_key env fname)
  else None.

(** The fallback order in the words of the specification: the local
    file system, then the destination bucket, then the source bucket. *)
Definition resolve (env : AwsEnv) (fname : string) (w : World) : option Tier :=
  match local_files w !! fname with
  | Some _ => Some LocalTier
  | None =>
      match dest_object env fname w with
      | Some _ => Some DestTier
      | None =>
          match src_object env fname w with
          | Some _ => Some SrcTier
          | None => None
          end
      end
  end.

(** How an open serves object [o] of a bucket: through a readable
    object on it, or, when the file is first copied to local storage,
    through the local file that now holds its bytes. *)
Definition served (copies : bool) (bucket_prefix key : string) (o : S3Object)
           (fname : string) (r : option FilePtr) (w' : World) : Prop :=
  if copies then
    r = Some (LocalFile fname) /\ local_files w' !! fname = Some (obj_body o)
  else
    exists f,
      r = Some (S3File f)
      /\ S3ReadableFile.s3_bucket_ f = GetBucket bucket_prefix
      /\ S3ReadableFile.s3_object_ f = key
      /\ S3ReadableFile.file_size_ f = wrap64 (Z.of_nat (String.length (obj_body o)))
      /\ S3ReadableFile.status_ f = OK.

(** An open that ended with status [st], handle [r] and world [w']
    followed the fallback order. *)
Definition resolved (copies : bool) (env : AwsEnv) (fname : string) (w : World)
           (st : Status) (r : option FilePtr) (w' : World) : Prop :=
  match resolve env fname w with
  | Some LocalTier => st = OK /\ r = Some (LocalFile fname) /\ w' = w
  | Some DestTier =>
      st = OK
      /\ exists o, dest_object env fname w = Some o
                   /\ served copies (GetDestBucketPrefix env) (dest_key env fname)
                        o fname r w'
  | Some SrcTier =>
      st = OK
      /\ exists o, src_object env fname w = Some o
                   /\ served copies (GetSrcBucketPrefix env) (src_key env fname)
                        o fname r w'
  | None =>
      r = None
      /\ (has_dest_bucket_ env || has_src_bucket_ env = true -> st = NotFound)
  end.

(** The objects a file name stands for are not empty, as every
    uploaded object is. *)
Definition nonempty_objects (env : AwsEnv) (fname : string) (w : World) : Prop :=
  forall o, dest_object env fname w = Some o \/ src_object env fname w = Some o ->
            obj_body o <> "".

(** The assertions on the way of an open hold: the build has NDEBUG,
    or the environment was initialised and the names of the objects are
    classified as the name of the file is. *)
Definition opens_cleanly (env : AwsEnv) (fname : string) : Prop :=
  NDEBUG = true
  \/ (status env = OK
      /\ (has_dest_bucket_ env = true ->
          dest_bucket_prefix_ env <> ""
          /\ negb is_file_default || is_cloud_file (dest_key env fname) = true)
      /\ (has_src_bucket_ env = true ->
          src_bucket_prefix_ env <> ""
          /\ negb is_file_default || is_cloud_file (src_key env fname) = true)).

(** The assertions on the way of a probe hold: the build has NDEBUG,
    or the environment was initialised and the names of the objects are
    names of files kept in the cloud. *)
Definition probes_cleanly (env : AwsEnv) (fname : string) : Prop :=
  NDEBUG = true
  \/ (status env = OK
      /\ (has_dest_bucket_ env = true ->
          dest_bucket_prefix_ env <> "" /\ is_cloud_file (dest_key env fname) = true)
      /\ (has_src_bucket_ env = true ->
          src_bucket_prefix_ env <> "" /\ is_cloud_file (src_key env fname) = true)).

(** The readable file stands for object [o] of world [w]: it was
    opened with success and the object is as the HEAD request of the
    constructor found it. *)
Definition stands_for (f : S3ReadableFile.t) (o : S3Object) (w : World) : Prop :=
  S3ReadableFile.status_ f = OK
  /\ s3_objects w !! (S3ReadableFile.s3_bucket_ f, S3ReadableFile.s3_object_ f)
     = Some o
  /\ S3ReadableFile.file_size_ f = Z.of_nat (String.length (obj_body o))
  /\ S3ReadableFile.file_size_ f < 2 ^ 64.

End Fallback.

(** ** A concrete choice of the header names

    The examples run the environment with these: a release or a debug
    build, bucket names "rockset." + prefix, file names classified by
    their extension or leaf name, and a deletion delay of one hour on a
    steady clock that counts microseconds. *)

Module Sample.

Definition ends_with (suffix s : string) : bool :=
  let n := String.length s in
  let m := String.length suffix in
  (m <=? n)%nat && String.eqb (String.substring (n - m) m s) suffix.

Fixpoint leaf_go (s leaf : string) : string :=
  match s with
  | EmptyString => String.rev leaf
  | String c s =>
      if Ascii.eqb c "/"%char then leaf_go s "" else leaf_go s (String c leaf)
  end.

Definition leaf_name (s : string) : string := leaf_go s "".

Fixpoint dir_go (s dir cur : string) : string :=
  match s with
  | EmptyString => String.rev dir
  | String c s =>
      if Ascii.eqb c "/"%char then dir_go s (cur +:+ dir) (String c "")
      else dir_go s dir (String c cur)
  end.

Definition dir_name (s : string) : string := dir_go s "" "".

Fixpoint trim_left (s : string) : string :=
  match s with
  | EmptyString => ""
  | String c s' => if Ascii.is_space c then trim_left s' else s
  end.

Definition strip (s : string) : string :=
  String.rev (trim_left (String.rev (trim_left s))).

Definition externals (ndebug : bool) : Externals :=
  {| NDEBUG := ndebug;
     GetBucket := fun bucket_prefix => "rockset." +:+ bucket_prefix;
     basename := leaf_name;
     dirname := dir_name;
     trim := strip;
     IsSstFile := ends_with ".sst";
     IsLogFile := ends_with ".log";
     IsManifestFile := fun s => String.prefix "MANIFEST" (leaf_name s);
     IsIdentityFile := fun s => String.eqb (leaf_name s) "IDENTITY";
     is_file_default := true;
     force_default := false;
     default_region := "us-west-2";
     file_deletion_delay_ := 3600000000;
     retry_period_micros := 30000000;
     GetCachePath := fun fname => "/tmp/ROCKSET/" +:+ leaf_name fname;
     Kinesis_CreateStream := fun _ => OK;
     Kinesis_tailer_status := OK;
     KinesisWritableFile_status := fun _ => OK;
     KinesisWritableFile_LogDelete := fun _ => OK |}.

Definition release : Externals := externals true.
Definition debug : Externals := externals false.

(** A world with nothing in it, at time 0, where no request fails
    and every request takes 2500 microseconds. *)
Definition empty_world : World :=
  {| local_files := ∅; local_dirs := ∅; s3_objects := ∅;
     s3_fault := fun _ => None; s3_latency := fun _ => 2500;
     s3_log := []; callback_log := [];
     now_micros := 0; steady_now := 0;
     s3client_result_ := {| result_type := kInfoOp; result_size := 0;
                            result_micros := 0; result_ok := false |};
     cloud_statistics := None; files_to_delete_ := []; running_ := true |}.

Definition options (keep_sst : bool) (periodicity : Z) : CloudEnvOptions :=
  {| cloud_type := kAws; keep_local_sst_files := keep_sst;
     keep_local_log_files := true;
     manifest_durable_periodicity_millis := periodicity;
     purger_periodicity_millis := 600000;
     cloud_request_callback := false |}.

Definition object (body : string) : S3Object :=
  {| obj_body := body; obj_metadata := ∅; obj_last_modified := 0 |}.


(** An environment as the constructor leaves it when all went well. *)
Definition env (src dest : string * string * string) (o : CloudEnvOptions)
  : AwsEnv :=
  {| cloud_env_options := o;
     src_bucket_prefix_ := src.1.1; src_object_prefix_ := src.1.2;
     src_bucket_region_ := src.2;
     dest_bucket_prefix_ := dest.1.1; dest_object_prefix_ := dest.1.2;
     dest_bucket_region_ := dest.2;
     has_src_bucket_ := negb (bool_decide (src.1.1 = ""));
     has_dest_bucket_ := negb (bool_decide (dest.1.1 = ""));
     has_two_unique_buckets_ :=
       negb (bool_decide (src.1.1 = "")) && negb (bool_decide (dest.1.1 = ""))
       && (negb (bool_decide (src.1.1 = dest.1.1))
           || negb (bool_decide (src.1.2 = dest.1.2)));
     create_bucket_status_ := OK;
     tailer_ := None;
     file_deletion_thread_ := true |}.

Definition no_bucket : string * string * string := ("", "", "").
Definition acme_db1 : string * string * string := ("acme", "db1", "us-west-2").
Definition acme_db2 : string * string * string := ("acme", "db2", "us-west-2").

Definition no_mmap : EnvOptions := {| use_mmap_reads := false |}.
Definition mmap : EnvOptions := {| use_mmap_reads := true |}.

(** Only the source bucket holds "000123.sst", 16 bytes long. *)
Definition src_only_env : AwsEnv := env acme_db1 no_bucket (options false 0).

Definition src_only_world : World :=
  set_s3_objects
    (<[("rockset.acme", "db1/000123.sst") := object "0123456789abcdef"]> ∅)
    empty_world.

(** The readable file opened on that object, with the cursor at 12. *)
Definition readable : S3ReadableFile.t :=
  {| S3ReadableFile.env_ := src_only_env;
     S3ReadableFile.fname_ := "db1/000123.sst";
     S3ReadableFile.offset_ := 12;
     S3ReadableFile.file_size_ := 16;
     S3ReadableFile.last_mod_time_ := 0;
     S3ReadableFile.is_file_ := true;
     S3ReadableFile.s3_bucket_ := "rockset.acme";
     S3ReadableFile.s3_object_ := "db1/000123.sst";
     S3ReadableFile.status_ := OK |}.


(** Only a destination bucket. *)
Definition dest_only_env (keep_sst : bool) (periodicity : Z) : AwsEnv :=
  env no_bucket acme_db1 (options keep_sst periodicity).

(** An open manifest, never uploaded, with a periodicity of a minute. *)
Definition manifest_file : S3WritableFile.t :=
  {| S3WritableFile.env_ := dest_only_env false 60000;
     S3WritableFile.fname_ := "/data/MANIFEST-000001";
     S3WritableFile.temp_file_ := Some "/data/MANIFEST-000001";
     S3WritableFile.s3_bucket_ := "rockset.acme";
     S3WritableFile.s3_object_ := "db1/MANIFEST";
     S3WritableFile.status_ := OK;
     S3WritableFile.is_manifest_ := true;
     S3WritableFile.manifest_durable_periodicity_millis_ := 60000;
     S3WritableFile.manifest_last_sync_time_ := 0 |}.

(** The local manifest holds [content], the clock shows [now], and
    statistics are collected. *)
Definition manifest_world (content : string) (now : Z) : World :=
  set_now_micros now
    (set_cloud_statistics
       (Some {| NUMBER_MANIFEST_WRITES := 0; MANIFEST_WRITES_TIME := [] |})
       (set_local_files (<["/data/MANIFEST-000001" := content]> ∅) empty_world)).

(** An empty local file and an empty object. *)
Definition empty_file_world : World :=
  set_local_files (<["/data/000042.sst" := ""]> ∅)
    (set_s3_objects (<[("rockset.acme", "db1/000007.sst") := object ""]> ∅)
       empty_world).


(** A destination bucket with the given object prefix, and the file
    the engine wrote its id "X7" to before renaming it to IDENTITY. *)
Definition identity_env (object_prefix : string) : AwsEnv :=
  env no_bucket ("acme", object_prefix, "us-west-2") (options false 0).

Definition identity_world : World :=
  set_local_files (<["/data/000001.dbtmp" := "X7"]> ∅) empty_world.


(** The service is out of reach for listings. *)
Definition network_down : AWSError :=
  {| GetErrorType := NETWORK_CONNECTION;
     GetMessage := "curlCode: 28, Timeout was reached" |}.

Definition listing_fails (req : S3Request) : option AWSError :=
  match req with
  | ListObjectsRequest _ _ _ _ => Some network_down
  | _ => None
  end.

(** The local directory "/data/dir1" and, in the bucket "rockset.acme",
    empty objects at the given keys. *)
Definition dir_world (keys : list string) : World :=
  set_local_dirs {["/data/dir1"]}
    (set_s3_objects
       (list_to_map ((fun k => (("rockset.acme", k), object "")) <$> keys))
       empty_world).


(** Two sst files on the local disk and in the destination bucket. *)
Definition two_files_world : World :=
  set_local_files
    (<["/data/000041.sst" := "first"]> (<["/data/000042.sst" := "second"]> ∅))
    (set_s3_objects
       (<[("rockset.acme", "db1/000041.sst") := object "first"]>
          (<[("rockset.acme", "db1/000042.sst") := object "second"]> ∅))
       empty_world).

(** The bucket has no object at the key of a delete request. *)
Definition no_such_key : AWSError :=
  {| GetErrorType := NO_SUCH_KEY;
     GetMessage := "The specified key does not exist." |}.

Definition delete_finds_nothing (req : S3Request) : option AWSError :=
  match req with
  | DeleteObjectRequest _ _ => Some no_such_key
  | _ => None
  end.

(** What the constructor leaves for the source "acme"/"db1" in
    us-west-2 and the destination "acme"/"db2" in us-east-1. *)
Definition two_regions_env : AwsEnv :=
  {| cloud_env_options := options false 0;
     src_bucket_prefix_ := "acme"; src_object_prefix_ := "db1";
     src_bucket_region_ := "us-west-2";
     dest_bucket_prefix_ := "acme"; dest_object_prefix_ := "db2";
     dest_bucket_region_ := "us-east-1";
     has_src_bucket_ := true; has_dest_bucket_ := true;
     has_two_unique_buckets_ := true;
     create_bucket_status_ := InvalidArgument;
     tailer_ := None;
     file_deletion_thread_ := false |}.

(** The destination bucket holds the manifest of the database, and
    the local disk holds nothing. *)
Definition manifest_object_world : World :=
  set_s3_objects
    (<[("rockset.acme", "db1/MANIFEST-000001") := object "manifest"]> ∅)
    empty_world.

(** An open sst file of the destination bucket, not yet closed. *)
Definition sst_file : S3WritableFile.t :=
  {| S3WritableFile.env_ := dest_only_env false 0;
     S3WritableFile.fname_ := "/data/000041.sst";
     S3WritableFile.temp_file_ := Some "/data/000041.sst";
     S3WritableFile.s3_bucket_ := "rockset.acme";
     S3WritableFile.s3_object_ := "db1/000041.sst";
     S3WritableFile.status_ := OK;
     S3WritableFile.is_manifest_ := false;
     S3WritableFile.manifest_durable_periodicity_millis_ := 0;
     S3WritableFile.manifest_last_sync_time_ := 0 |}.

(** The registry of the bucket holds the id "X7". *)
Definition registry_world : World :=
  set_s3_objects
    (<[("rockset.acme", ".rockset/dbid/X7") :=
         {| obj_body := ""; obj_metadata := <["dirname" := "/paths/x"]> ∅;
            obj_last_modified := 0 |}]> ∅)
    empty_world.

(** A source and a destination under two object prefixes of one bucket. *)
Definition two_buckets_env : AwsEnv :=
  env acme_db1 acme_db2 (options false 0).


Section Schedules.
#[local] Existing Instance debug.

(** Two files are deleted at time 0 and the thread takes the first
    entry off the queue. *)
Definition first_taken (w : World) : Sys :=
  let env := dest_only_env false 0 in
  after_worker env
    (after_DeleteFile env "/data/000042.sst"
       (after_DeleteFile env "/data/000041.sst" (initial w))).

(** Then an hour passes and the thread sends the deletion. *)
Definition hour_later (w : World) : Sys :=
  let env := dest_only_env false 0 in
  after_worker env (after_worker env (after_clock 3600000000 (first_taken w))).

(** Or the environment is destroyed within the hour. *)
Definition stopped_early (w : World) : Sys :=
  let env := dest_only_env false 0 in
  after_worker env
    (after_shutdown env (after_clock 1800000000 (first_taken w))).

End Schedules.

End Sample.

(** * Verification *)

(** ** Running the monad *)

Lemma bind_run {A B : Type} (m : M A) (f : A -> M B) (w : World) :
  (m ≫= f) w = match m w with
               | Returns a w' => f a w'
               | Aborts why => Aborts why
               end.
Proof. reflexivity. Qed.

Lemma fmap_run {A B : Type} (g : A -> B) (m : M A) (w : World) :
  (g <$> m) w = match m w with
                | Returns a w' => Returns (g a) w'
                | Aborts why => Aborts why
                end.
Proof. reflexivity. Qed.

Lemma ret_run {A : Type} (a : A) (w : World) : (mret a : M A) w = Returns a w.
Proof. reflexivity. Qed.

Lemma assert_true_run `{Externals} (w : World) : assert_ true w = Returns tt w.
Proof. unfold assert_. rewrite orb_true_r. reflexivity. Qed.

Lemma assert_run `{Externals} (c : bool) (w : World) :
  NDEBUG = true \/ c = true -> assert_ c w = Returns tt w.
Proof. unfold assert_. intros [-> | ->]; rewrite ?orb_true_r; reflexivity. Qed.

Lemma assert_fails `{Externals} (w : World) :
  NDEBUG = false -> assert_ false w = Aborts AssertionFailed.
Proof. unfold assert_. intros ->. reflexivity. Qed.

Lemma rd_run (b : bool) (w : World) : rd (Some b) w = Returns b w.
Proof. reflexivity. Qed.

Ltac run :=
  repeat (rewrite ?bind_run, ?fmap_run, ?ret_run, ?rd_run;
          unfold get, modify, abort; cbn beta iota).

(** Evaluation of a closed conjunction, conjunct by conjunct. *)
Ltac split_all := repeat match goal with |- _ /\ _ => split end.

Ltac evaluate := split_all; vm_compute; try reflexivity.

Lemma wrap64_small (z : Z) : 0 <= z < 2 ^ 64 -> wrap64 z = z.
Proof. intros Hz. unfold wrap64. apply Z.mod_small. exact Hz. Qed.

Lemma wrap64_range (z : Z) : 0 <= wrap64 z < 2 ^ 64.
Proof. unfold wrap64. apply Z.mod_pos_bound. lia. Qed.

Lemma substring_length_le (n : nat) (s : string) :
  (String.length (String.substring 0 n s) <= n)%nat.
Proof.
  revert s. induction n as [| n IH]; intros [| c s]; simpl; try lia.
  specialize (IH s). lia.
Qed.

(** ** What the wrapper does to the world *)

Lemma S3ClientCallback_run (env : AwsEnv) (type : CloudRequestOpType)
      (size micros : Z) (success : bool) (w : World) :
  AwsS3ClientWrapper.S3ClientCallback env type size micros success w
  = Returns tt (told env type size micros success w).
Proof.
  unfold AwsS3ClientWrapper.S3ClientCallback, told.
  destruct (cloud_request_callback _); reflexivity.
Qed.

Section told_frame.
Variables (env : AwsEnv) (type : CloudRequestOpType) (size micros : Z)
          (success : bool) (w : World).
Let w' := told env type size micros success w.

Lemma told_local_files : local_files w' = local_files w.
Proof. unfold w', told. destruct (cloud_request_callback _); reflexivity. Qed.
Lemma told_local_dirs : local_dirs w' = local_dirs w.
Proof. unfold w', told. destruct (cloud_request_callback _); reflexivity. Qed.
Lemma told_s3_objects : s3_objects w' = s3_objects w.
Proof. unfold w', told. destruct (cloud_request_callback _); reflexivity. Qed.
Lemma told_s3_fault : s3_fault w' = s3_fault w.
Proof. unfold w', told. destruct (cloud_request_callback _); reflexivity. Qed.
Lemma told_s3_latency : s3_latency w' = s3_latency w.
Proof. unfold w', told. destruct (cloud_request_callback _); reflexivity. Qed.
Lemma told_s3_log : s3_log w' = s3_log w.
Proof. unfold w', told. destruct (cloud_request_callback _); reflexivity. Qed.
Lemma told_now_micros : now_micros w' = now_micros w.
Proof. unfold w', told. destruct (cloud_request_callback _); reflexivity. Qed.
Lemma told_steady_now : steady_now w' = steady_now w.
Proof. unfold w', told. destruct (cloud_request_callback _); reflexivity. Qed.
Lemma told_cloud_statistics : cloud_statistics w' = cloud_statistics w.
Proof. unfold w', told. destruct (cloud_request_callback _); reflexivity. Qed.
Lemma told_files_to_delete_ : files_to_delete_ w' = files_to_delete_ w.
Proof. unfold w', told. destruct (cloud_request_callback _); reflexivity. Qed.
Lemma told_running_ : running_ w' = running_ w.
Proof. unfold w', told. destruct (cloud_request_callback _); reflexivity. Qed.
Lemma told_result_micros : result_micros (s3client_result_ w') = micros.
Proof. reflexivity. Qed.
End told_frame.

Create Rewrite HintDb world.
#[global] Hint Rewrite told_local_files told_local_dirs told_s3_objects
  told_s3_fault told_s3_latency told_s3_log told_now_micros told_steady_now
  told_cloud_statistics told_files_to_delete_ told_running_
  told_result_micros : world.

Section logged_frame.
Variables (req : S3Request) (w : World).

Lemma logged_local_files : local_files (logged req w) = local_files w.
Proof. reflexivity. Qed.
Lemma logged_local_dirs : local_dirs (logged req w) = local_dirs w.
Proof. reflexivity. Qed.
Lemma logged_s3_objects : s3_objects (logged req w) = s3_objects w.
Proof. reflexivity. Qed.
Lemma logged_s3_fault : s3_fault (logged req w) = s3_fault w.
Proof. reflexivity. Qed.
Lemma logged_s3_latency : s3_latency (logged req w) = s3_latency w.
Proof. reflexivity. Qed.
Lemma logged_callback_log : callback_log (logged req w) = callback_log w.
Proof. reflexivity. Qed.
Lemma logged_now_micros : now_micros (logged req w) = now_micros w.
Proof. reflexivity. Qed.
Lemma logged_steady_now : steady_now (logged req w) = steady_now w.
Proof. reflexivity. Qed.
Lemma logged_s3client_result_ : s3client_result_ (logged req w) = s3client_result_ w.
Proof. reflexivity. Qed.
Lemma logged_cloud_statistics : cloud_statistics (logged req w) = cloud_statistics w.
Proof. reflexivity. Qed.
Lemma logged_files_to_delete_ : files_to_delete_ (logged req w) = files_to_delete_ w.
Proof. reflexivity. Qed.
Lemma logged_running_ : running_ (logged req w) = running_ w.
Proof. reflexivity. Qed.
Lemma logged_s3_log : s3_log (logged req w) = req :: s3_log w.
Proof. reflexivity. Qed.
End logged_frame.

#[global] Hint Rewrite logged_local_files logged_local_dirs logged_s3_objects logged_s3_fault logged_s3_latency logged_callback_log logged_now_micros logged_steady_now logged_s3client_result_ logged_cloud_statistics logged_files_to_delete_ logged_running_ logged_s3_log : world.

#[global] Arguments told : simpl never.
#[global] Arguments logged : simpl never.

Lemma PutObject_run (env : AwsEnv) (b k body : string)
      (md : gmap string string) (hint : Z) (w : World) :
  let req := PutObjectRequest b k body md in
  AwsS3ClientWrapper.PutObject env b k body md hint w
  = match s3_fault w req with
    | Some e =>
        Returns (inl e) (told env kWriteOp hint (s3_latency w req) false (logged req w))
    | None =>
        Returns (inr tt)
          (told env kWriteOp hint (s3_latency w req) true
             (set_s3_objects
                (<[(b, k) := {| obj_body := body; obj_metadata := md;
                                obj_last_modified := now_micros w / 1000 |}]>
                   (s3_objects w))
                (logged req w)))
    end.
Proof.
  intros req.
  unfold AwsS3ClientWrapper.PutObject, S3Client.PutObject, S3Client.send,
    AwsS3ClientWrapper.Timer_done.
  run. cbn. fold req.
  destruct (s3_fault w req); run; rewrite S3ClientCallback_run; reflexivity.
Qed.

Lemma HeadObject_run (env : AwsEnv) (b k : string) (w : World) :
  let req := HeadObjectRequest b k in
  AwsS3ClientWrapper.HeadObject env b k w
  = let outcome :=
      match s3_fault w req with
      | Some e => inl e
      | None =>
          match s3_objects w !! (b, k) with
          | Some o =>
              inr {| S3Client.head_ContentLength := Z.of_nat (String.length (obj_body o));
                     S3Client.head_LastModified_Millis := obj_last_modified o;
                     S3Client.head_Metadata := obj_metadata o |}
          | None => inl S3Client.no_such_key
          end
      end in
    Returns outcome
      (told env kInfoOp 0 (s3_latency w req)
         (AwsS3ClientWrapper.IsSuccess outcome) (logged req w)).
Proof.
  intros req.
  unfold AwsS3ClientWrapper.HeadObject, S3Client.HeadObject, S3Client.send,
    AwsS3ClientWrapper.Timer_done.
  run. cbn. fold req. rewrite S3ClientCallback_run. reflexivity.
Qed.

Lemma DeleteObject_run (env : AwsEnv) (b k : string) (w : World) :
  let req := DeleteObjectRequest b k in
  AwsS3ClientWrapper.DeleteObject env b k w
  = match s3_fault w req with
    | Some e =>
        Returns (inl e) (told env kDeleteOp 0 (s3_latency w req) false (logged req w))
    | None =>
        Returns (inr tt)
          (told env kDeleteOp 0 (s3_latency w req) true
             (set_s3_objects (delete (b, k) (s3_objects w)) (logged req w)))
    end.
Proof.
  intros req.
  unfold AwsS3ClientWrapper.DeleteObject, S3Client.DeleteObject, S3Client.send,
    AwsS3ClientWrapper.Timer_done.
  run. cbn. fold req.
  destruct (s3_fault w req); run; rewrite S3ClientCallback_run; reflexivity.
Qed.

(** A download into a local file. *)
Lemma GetObject_to_file_run (env : AwsEnv) (b k path : string) (w : World) :
  let req := GetObjectRequest b k None (Some path) in
  AwsS3ClientWrapper.GetObject env b k None (Some path) w
  = match s3_fault w req with
    | Some e =>
        Returns (inl e) (told env kReadOp 0 (s3_latency w req) false (logged req w))
    | None =>
        match s3_objects w !! (b, k) with
        | None =>
            Returns (inl S3Client.no_such_key)
              (told env kReadOp 0 (s3_latency w req) false (logged req w))
        | Some o =>
            Returns (inr {| S3Client.get_ContentLength :=
                              Z.of_nat (String.length (obj_body o));
                            S3Client.get_Body := "" |})
              (told env kReadOp (Z.of_nat (String.length (obj_body o)))
                 (s3_latency w req) true
                 (set_local_files (<[path := obj_body o]> (local_files w))
                    (logged req w)))
        end
    end.
Proof.
  intros req.
  unfold AwsS3ClientWrapper.GetObject, S3Client.GetObject, S3Client.send,
    AwsS3ClientWrapper.Timer_done.
  run. cbn. fold req.
  destruct (s3_fault w req); run; [rewrite S3ClientCallback_run; reflexivity |].
  cbn. destruct (s3_objects w !! (b, k)); run; cbn;
    rewrite S3ClientCallback_run; reflexivity.
Qed.

(** ** The readable file *)

Lemma wrapper_GetObject_run (env : AwsEnv) (b k : string) (r : option ByteRange)
      (w : World) :
  exists outcome w',
    AwsS3ClientWrapper.GetObject env b k r None w = Returns outcome w'
    /\ s3_log w' = GetObjectRequest b k r None :: s3_log w
    /\ s3_objects w' = s3_objects w
    /\ local_files w' = local_files w.
Proof.
  unfold AwsS3ClientWrapper.GetObject, S3Client.GetObject, S3Client.send,
    AwsS3ClientWrapper.Timer_done, AwsS3ClientWrapper.S3ClientCallback.
  run. cbn.
  destruct (s3_fault w _) as [e |]; run; cbn.
  - destruct (cloud_request_callback _); run; cbn; eauto 10.
  - destruct (s3_objects w !! (b, k)) as [o |]; run; cbn.
    + destruct (S3Client.slice r (obj_body o)); run; cbn;
        destruct (cloud_request_callback _); run; cbn; eauto 10.
    + destruct (cloud_request_callback _); run; cbn; eauto 10.
Qed.

Section ReadableFileRead.
Context `{Externals}.
Import S3ReadableFile.

(** C8.  For a successfully opened readable-object file: a random-access
  read beyond the end returns an empty slice with success and sends
  nothing; a read inside the file sends one range request, for the
  requested length clamped to [file_size - offset], or for one byte
  when that length is 0, and returns at most the clamped number of
  bytes, none when [n = 0]; the sequential read advances the cursor
  by exactly the number of bytes it returns.  The sums [offset + n]
  are taken to fit 64 bits, as they do whenever [scratch] has room
  for [n] bytes. *)
Theorem S3ReadableFile_Read_clamps (f : S3ReadableFile.t) (offset n : Z)
      (result0 : string) (w : World) :
status_ f = OK ->
0 <= offset -> 0 <= n -> offset + n < 2 ^ 64 ->
0 <= offset_ f -> offset_ f + n < 2 ^ 64 ->
0 <= file_size_ f < 2 ^ 64 ->
let clamped := Z.min n (file_size_ f - offset) in
(file_size_ f <= offset ->
   Read_at f offset n result0 w = Returns (OK, "") w)
/\ (offset < file_size_ f ->
    exists st result w',
      Read_at f offset n result0 w = Returns (st, result) w'
      /\ s3_log w' =
           GetObjectRequest (s3_bucket_ f) (s3_object_ f)
             (Some {| range_first := offset;
                      range_last := offset + Z.max clamped 1 - 1 |}) None
           :: s3_log w
      /\ Z.of_nat (String.length result) <= clamped
      /\ (n = 0 -> result = ""))
/\ (exists st result f' w',
      Read f n result0 w = Returns (st, result, f') w'
      /\ offset_ f' = offset_ f + Z.of_nat (String.length result)).
Proof.
intros Hst Hoff Hn Hsum Hcur Hcursum Hsize clamped.
assert (Hat : forall off, 0 <= off -> off + n < 2 ^ 64 ->
          (file_size_ f <= off -> Read_at f off n result0 w = Returns (OK, "") w)
          /\ (off < file_size_ f ->
              exists st result w',
                Read_at f off n result0 w = Returns (st, result) w'
                /\ s3_log w' =
                     GetObjectRequest (s3_bucket_ f) (s3_object_ f)
                       (Some {| range_first := off;
                                range_last := off + Z.max (Z.min n (file_size_ f - off)) 1 - 1 |}) None
                     :: s3_log w
                /\ Z.of_nat (String.length result) <= Z.min n (file_size_ f - off)
                /\ (n = 0 -> result = "")
                /\ (ok st = false -> result = ""))).
{ intros off Hoff' Hsum'. unfold Read_at. rewrite Hst. cbn [ok negb].
  split.
  - intros Hge. destruct (Z.leb_spec (file_size_ f) off); [reflexivity | lia].
  - intros Hlt. destruct (Z.leb_spec (file_size_ f) off); [lia |].
    rewrite (wrap64_small (off + n)) by lia.
    set (n1 := if file_size_ f <? off + n then wrap64 (file_size_ f - off) else n).
    assert (Hn1 : n1 = Z.min n (file_size_ f - off)).
    { subst n1. destruct (Z.ltb_spec (file_size_ f) (off + n)).
      - rewrite wrap64_small by lia. lia.
      - lia. }
    set (len := if negb (n1 =? 0) then n1 else 1).
    assert (Hlen : len = Z.max (Z.min n (file_size_ f - off)) 1).
    { subst len. destruct (Z.eqb_spec n1 0); cbn [negb]; lia. }
    rewrite (wrap64_small (off + len - 1)) by lia.
    run.
    destruct (wrapper_GetObject_run (env_ f) (s3_bucket_ f) (s3_object_ f)
                (Some {| range_first := off; range_last := off + len - 1 |}) w)
      as (outcome & w' & -> & Hlog & _ & _).
    rewrite Hlen in Hlog.
    destruct outcome as [error | res].
    + destruct (is_missing_object error); run; do 3 eexists;
        (split; [reflexivity |]); (split; [exact Hlog |]);
        cbn; (split; [lia |]); split; reflexivity.
    + destruct (Z.eqb_spec n1 0) as [Hz | Hnz]; cbn [negb].
      * run. do 3 eexists. split; [reflexivity |]. split; [exact Hlog |].
        cbn. split; [lia |]. split; reflexivity.
      * rewrite bind_run. rewrite assert_run.
        2:{ right. apply Z.leb_le. lia. }
        run. do 3 eexists. split; [reflexivity |]. split; [exact Hlog |].
        split; [| split].
        -- pose proof (substring_length_le
               (Z.to_nat (Z.min n1 (Z.of_nat (String.length (S3Client.get_Body res)))))
               (S3Client.get_Body res)). lia.
        -- intros ->. lia.
        -- cbn. discriminate. }
assert (Hat' := Hat offset Hoff Hsum).
split; [apply Hat' |].
split; [intros Hlt; destruct (proj2 Hat' Hlt) as (st & result & w' & ? & ? & ? & ? & _);
        eauto 10 |].
unfold Read. rewrite bind_run.
destruct (Hat (offset_ f) Hcur Hcursum) as [Hge Hlt].
destruct (Z.le_gt_cases (file_size_ f) (offset_ f)) as [Hc | Hc].
- rewrite (Hge Hc). cbn. do 4 eexists. split; [reflexivity |].
  cbn. rewrite Z.add_0_r. apply wrap64_small. lia.
- destruct (Hlt Hc) as (st & result & w' & -> & _ & Hle & _ & Hfail).
  destruct (ok st) eqn:Hok; run; do 4 eexists; (split; [reflexivity |]); cbn.
  + apply wrap64_small. lia.
  + rewrite (Hfail eq_refl). cbn. lia.
Qed.
End ReadableFileRead.

Lemma S3ReadableFile_Read_clamps_witness :
  exists st result f' w',
    @S3ReadableFile.Read Sample.debug Sample.readable 8 "" Sample.src_only_world
    = Returns (st, result, f') w'
    /\ S3ReadableFile.offset_ f' = 12 + Z.of_nat (String.length result).
Proof.
  exact (proj2 (proj2
    (@S3ReadableFile_Read_clamps Sample.debug Sample.readable 12 8 ""
       Sample.src_only_world eq_refl ltac:(cbn; lia) ltac:(lia) ltac:(lia)
       ltac:(cbn; lia) ltac:(cbn; lia) ltac:(cbn; lia)))).
Defined.

(** The last four bytes are what a read of eight bytes at offset 12 of a
    16-byte object returns, and the cursor ends at 16. *)
Example S3ReadableFile_Read_tail :
  exists w',
    @S3ReadableFile.Read Sample.debug Sample.readable 8 "" Sample.src_only_world
    = Returns (OK, "cdef", S3ReadableFile.with_offset Sample.readable 16) w'
    /\ s3_log w' = [GetObjectRequest "rockset.acme" "db1/000123.sst"
                      (Some {| range_first := 12; range_last := 15 |}) None].
Proof. eexists. evaluate. Qed.

(** A probe of zero bytes asks for the one byte at the offset and
    returns nothing. *)
Example S3ReadableFile_Read_probe :
  exists w',
    @S3ReadableFile.Read_at Sample.debug Sample.readable 3 0 "" Sample.src_only_world
    = Returns (OK, "") w'
    /\ s3_log w' = [GetObjectRequest "rockset.acme" "db1/000123.sst"
                      (Some {| range_first := 3; range_last := 3 |}) None].
Proof. eexists. evaluate. Qed.

(** ** The writable file *)

Lemma length_append (s t : string) :
  String.length (s +:+ t) = (String.length s + String.length t)%nat.
Proof.
  induction s as [| c s IH]; [reflexivity |].
  change (S (String.length (s +:+ t)) = S (String.length s + String.length t)).
  rewrite IH. reflexivity.
Qed.

Lemma tmp_name_differs (s : string) : s +:+ ".tmp" <> s.
Proof.
  intros Heq. apply (f_equal String.length) in Heq.
  rewrite length_append in Heq. cbn in Heq. lia.
Qed.

Lemma length_zero (c : string) : Z.of_nat (String.length c) = 0 <-> c = "".
Proof. destruct c; cbn; split; intros; (reflexivity || lia || discriminate). Qed.

Section WritableFile.
Context `{Externals}.
Import S3WritableFile.

(** The upload, by what the local file holds. *)
Lemma CopyToS3_run (env : AwsEnv) (fname b k : string) (hint : Z) (w : World) :
  CopyToS3 env fname b k hint w
  = match local_files w !! fname with
    | None => Returns IOError w
    | Some c =>
        if Z.of_nat (String.length c) =? 0 then Returns IOError w
        else
          let req := PutObjectRequest b k c ∅ in
          match s3_fault w req with
          | Some e =>
              Returns IOError
                (told env kWriteOp hint (s3_latency w req) false (logged req w))
          | None =>
              Returns OK
                (told env kWriteOp hint (s3_latency w req) true
                   (set_s3_objects
                      (<[(b, k) := {| obj_body := c; obj_metadata := ∅;
                                      obj_last_modified := now_micros w / 1000 |}]>
                         (s3_objects w))
                      (logged req w)))
          end
    end.
Proof.
  unfold CopyToS3, BaseEnv.GetFileSize. run.
  destruct (local_files w !! fname) as [c |] eqn:Hc; cbn; [| reflexivity].
  destruct (Z.of_nat (String.length c) =? 0); [reflexivity |].
  run. rewrite Hc. cbn. rewrite PutObject_run. cbn.
  destruct (s3_fault w _); reflexivity.
Qed.







End WritableFile.


(** The refused download leaves its temporary file behind. *)
Example CopyFromS3_leaves_tmp :
  exists w',
    S3WritableFile.CopyFromS3 (Sample.dest_only_env false 0)
       "rockset.acme" "db1/000007.sst" "/data/000007.sst" Sample.empty_file_world
    = Returns IOError w'
    /\ local_files w' !! "/data/000007.sst" = None
    /\ local_files w' !! "/data/000007.sst.tmp" = Some "".
Proof. eexists. evaluate. Qed.



(** With a periodicity of 60000 ms and no upload so far, a [Sync] at
    1000000 us uploads nothing; a [Sync] at 60000001 us uploads the
    manifest, counts one manifest write and records the 2500 us the PUT
    took as 2 ms. *)
Example manifest_sync_early :
  @S3WritableFile.Sync Sample.debug Sample.manifest_file
     (Sample.manifest_world "edit" 1000000)
  = Returns (OK, Sample.manifest_file) (Sample.manifest_world "edit" 1000000).
Proof. vm_compute. reflexivity. Qed.

Example manifest_sync_late :
  exists w',
    @S3WritableFile.Sync Sample.debug Sample.manifest_file
       (Sample.manifest_world "edit" 60000001)
    = Returns (OK, S3WritableFile.with_last_sync Sample.manifest_file 60000001) w'
    /\ s3_log w' = [PutObjectRequest "rockset.acme" "db1/MANIFEST" "edit" ∅]
    /\ cloud_statistics w'
       = Some {| NUMBER_MANIFEST_WRITES := 1; MANIFEST_WRITES_TIME := [2] |}.
Proof. eexists. evaluate. Qed.

(** ** The dbid registry *)

Section DbidRegistry.
Context `{Externals}.

Lemma DeletePathInS3_run (env : AwsEnv) (bucket_prefix fname : string) (w : World) :
  NDEBUG = true \/ status env = OK ->
  let req := DeleteObjectRequest (GetBucket bucket_prefix) fname in
  DeletePathInS3 env bucket_prefix fname w
  = match s3_fault w req with
    | Some error =>
        Returns
          (if bool_decide (GetErrorType error = NO_SUCH_BUCKET)
              || bool_decide (GetErrorType error = NO_SUCH_KEY)
              || bool_decide (GetErrorType error = RESOURCE_NOT_FOUND)
           then NotFound else IOError)
          (told env kDeleteOp 0 (s3_latency w req) false (logged req w))
    | None =>
        Returns OK
          (told env kDeleteOp 0 (s3_latency w req) true
             (set_s3_objects (delete (GetBucket bucket_prefix, fname) (s3_objects w))
                (logged req w)))
    end.
Proof.
  intros Hst req. unfold DeletePathInS3. rewrite bind_run, assert_run.
  2:{ destruct Hst as [? | ->]; auto. }
  rewrite bind_run, DeleteObject_run. cbn zeta. fold req.
  destruct (s3_fault w req) as [error |]; [| reflexivity].
  destruct (_ || _); reflexivity.
Qed.

Lemma SaveDbid_run (env : AwsEnv) (dbid dirname : string) (w : World) :
  NDEBUG = true \/ status env = OK ->
  let bucket := GetBucket (GetDestBucketPrefix env) in
  let metadata : gmap string string := <["dirname" := dirname]> ∅ in
  let req := PutObjectRequest bucket (dbid_registry_ +:+ dbid) "" metadata in
  SaveDbid env dbid dirname w
  = match s3_fault w req with
    | Some error =>
        Returns IOError (told env kWriteOp 0 (s3_latency w req) false (logged req w))
    | None =>
        Returns OK
          (told env kWriteOp 0 (s3_latency w req) true
             (set_s3_objects
                (<[(bucket, dbid_registry_ +:+ dbid) :=
                     {| obj_body := ""; obj_metadata := metadata;
                        obj_last_modified := now_micros w / 1000 |}]>
                   (s3_objects w))
                (logged req w)))
    end.
Proof.
  intros Hst bucket metadata req. unfold SaveDbid.
  rewrite bind_run, assert_run.
  2:{ destruct Hst as [? | ->]; auto. }
  rewrite bind_run, PutObject_run. cbn zeta. fold bucket metadata req.
  destruct (s3_fault w req); reflexivity.
Qed.

Lemma GetPathForDbid_run (env : AwsEnv) (bucket_prefix dbid dirname0 : string)
      (w : World) :
  let req := HeadObjectRequest (GetBucket bucket_prefix) (dbid_registry_ +:+ dbid) in
  exists w',
    GetPathForDbid env bucket_prefix dbid dirname0 w
    = Returns
        match s3_fault w req with
        | Some error =>
            (if bool_decide (GetErrorType error = NO_SUCH_BUCKET)
                || bool_decide (GetErrorType error = NO_SUCH_KEY)
                || bool_decide (GetErrorType error = RESOURCE_NOT_FOUND)
                || bool_decide (GetErrorType error = UNKNOWN)
             then NotFound else IOError, dirname0)
        | None =>
            match s3_objects w !! (GetBucket bucket_prefix, dbid_registry_ +:+ dbid) with
            | Some o =>
                match obj_metadata o !! "dirname" with
                | Some dir => (OK, dir)
                | None => (NotFound, dirname0)
                end
            | None => (NotFound, dirname0)
            end
        end w'.
Proof.
  intros req. unfold GetPathForDbid. rewrite bind_run, HeadObject_run.
  cbn zeta. fold req.
  destruct (s3_fault w req) as [error |].
  - destruct (_ || _); eexists; reflexivity.
  - destruct (s3_objects w !! _) as [o |]; cbn; [| eexists; reflexivity].
    destruct (obj_metadata o !! "dirname"); eexists; reflexivity.
Qed.

(** C9.  When [SaveDbid d p] succeeds, the destination bucket holds an
    object at key [dbid_registry_ + d] whose metadata maps "dirname" to
    [p], and [GetPathForDbid] asked for [d] in the destination bucket
    returns [p].  When [DeleteDbid d] succeeds on a bucket,
    [GetPathForDbid] asked for [d] in that bucket returns NotFound.
    The HEAD request of [GetPathForDbid] is taken to get through. *)
Theorem dbid_round_trip (env : AwsEnv) (dbid dirname dirname0 bucket_prefix : string)
        (wa wa' wb wb' : World) :
  NDEBUG = true \/ status env = OK ->
  SaveDbid env dbid dirname wa = Returns OK wa' ->
  s3_fault wa (HeadObjectRequest (GetBucket (GetDestBucketPrefix env))
                 (dbid_registry_ +:+ dbid)) = None ->
  DeleteDbid env bucket_prefix dbid wb = Returns OK wb' ->
  s3_fault wb (HeadObjectRequest (GetBucket bucket_prefix)
                 (dbid_registry_ +:+ dbid)) = None ->
  (obj_metadata <$> s3_objects wa' !! (GetBucket (GetDestBucketPrefix env),
                                        ".rockset/dbid/" +:+ dbid)
   = Some (<["dirname" := dirname]> ∅)
   /\ exists w2,
        GetPathForDbid env (GetDestBucketPrefix env) dbid dirname0 wa'
        = Returns (OK, dirname) w2)
  /\ exists w2,
       GetPathForDbid env bucket_prefix dbid dirname0 wb'
       = Returns (NotFound, dirname0) w2.
Proof.
  intros Hst Hsave Hheada Hdel Hheadb. split.
  - rewrite SaveDbid_run in Hsave by exact Hst. cbn zeta in Hsave.
    destruct (s3_fault wa (PutObjectRequest _ _ _ _)); [discriminate |].
    injection Hsave as <-.
    match goal with
    | |- context [told ?e ?t ?s ?m ?b ?w] => set (wa' := told e t s m b w)
    end.
    assert (Hobj : s3_objects wa'
                   !! (GetBucket (GetDestBucketPrefix env), dbid_registry_ +:+ dbid)
                   = Some {| obj_body := "";
                             obj_metadata := <["dirname" := dirname]> ∅;
                             obj_last_modified := now_micros wa / 1000 |}).
    { subst wa'. autorewrite with world. cbn. apply lookup_insert_eq. }
    assert (Hfault : s3_fault wa' = s3_fault wa).
    { subst wa'. autorewrite with world. reflexivity. }
    clearbody wa'. split.
    + change (".rockset/dbid/" +:+ dbid) with (dbid_registry_ +:+ dbid).
      rewrite Hobj. reflexivity.
    + destruct (GetPathForDbid_run env (GetDestBucketPrefix env) dbid dirname0 wa')
        as [w2 Hrun].
      cbn zeta in Hrun. rewrite Hfault, Hheada, Hobj in Hrun. cbn in Hrun.
      rewrite lookup_insert_eq in Hrun. eauto.
  - unfold DeleteDbid in Hdel.
    rewrite DeletePathInS3_run in Hdel by exact Hst. cbn zeta in Hdel.
    destruct (s3_fault wb (DeleteObjectRequest _ _)) as [error |].
    { destruct (_ || _); discriminate. }
    injection Hdel as <-.
    match goal with
    | |- context [told ?e ?t ?s ?m ?b ?w] => set (wb' := told e t s m b w)
    end.
    assert (Hobj : s3_objects wb'
                   !! (GetBucket bucket_prefix, dbid_registry_ +:+ dbid) = None).
    { subst wb'. autorewrite with world. cbn. apply lookup_delete_eq. }
    assert (Hfault : s3_fault wb' = s3_fault wb).
    { subst wb'. autorewrite with world. reflexivity. }
    clearbody wb'.
    destruct (GetPathForDbid_run env bucket_prefix dbid dirname0 wb') as [w2 Hrun].
    cbn zeta in Hrun. rewrite Hfault, Hheadb, Hobj in Hrun. eauto.
Qed.

End DbidRegistry.

Lemma dbid_round_trip_witness :
  let env := Sample.dest_only_env false 0 in
  let saved := world_after (@SaveDbid Sample.debug env "X7" "/paths/x")
                           Sample.empty_world in
  let deleted := world_after (@DeleteDbid Sample.debug env "acme" "X7") saved in
  (obj_metadata <$> s3_objects saved !! ("rockset.acme", ".rockset/dbid/X7")
   = Some (<["dirname" := "/paths/x"]> ∅)
   /\ exists w2,
        @GetPathForDbid Sample.debug env "acme" "X7" "" saved
        = Returns (OK, "/paths/x") w2)
  /\ exists w2,
       @GetPathForDbid Sample.debug env "acme" "X7" "" deleted
       = Returns (NotFound, "") w2.
Proof.
  intros env saved deleted.
  exact (@dbid_round_trip Sample.debug env "X7" "/paths/x" "" "acme"
           Sample.empty_world saved saved deleted
           (or_intror eq_refl) eq_refl eq_refl eq_refl eq_refl).
Defined.

(** ** File types and renames *)

Section FileType.
Context `{Externals}.

(** What [GetFileType] assigns: [sstFile] and [logFile] always, a
    non-null [manifest] always, a non-null [identity] only when the
    name is not that of an sst file. *)
Lemma GetFileType_assigns (fname : string) (v : FileTypeFlags) :
  sstFile (GetFileType fname v) = Some (IsSstFile fname)
  /\ logFile (GetFileType fname v)
     = Some (if IsSstFile fname then false else IsLogFile fname)
  /\ manifest (GetFileType fname v)
     = (fun _ => Some (if IsSstFile fname then false else IsManifestFile fname))
         <$> manifest v
  /\ identity (GetFileType fname v)
     = if IsSstFile fname then identity v
       else (fun _ => Some (IsIdentityFile fname)) <$> identity v.
Proof.
  unfold GetFileType.
  destruct (IsSstFile fname), (manifest v), (identity v); cbn; auto.
Qed.

(** The router reads [identity] only after [sstfile] was found false,
    so it never reads it unassigned. *)
Lemma cloud_file_test_run (fname : string) (w : World) :
  let v := GetFileType fname four_flags in
  or_else (rd (sstFile v)) (or_else (rd (var (manifest v))) (rd (var (identity v)))) w
  = Returns (is_cloud_file fname) w.
Proof.
  unfold is_cloud_file, GetFileType, four_flags, or_else. cbn.
  destruct (IsSstFile fname); cbn; [reflexivity |].
  destruct (IsManifestFile fname); cbn; reflexivity.
Qed.

Lemma log_file_test_run (fname : string) (v0 : FileTypeFlags) (w : World) :
  rd (logFile (GetFileType fname v0)) w
  = Returns (if IsSstFile fname then false else IsLogFile fname) w.
Proof. unfold GetFileType. destruct (IsSstFile fname); reflexivity. Qed.

End FileType.

(** C10.  [GetFileType] leaves [*identity] without a value for the
    name of an sst file: of the four variables handed in unassigned,
    three come back assigned and [identity] comes back as it was. *)
Theorem GetFileType_leaves_identity_unassigned :
  @GetFileType Sample.debug "/data/000123.sst" four_flags
  = {| sstFile := Some true; logFile := Some false;
       manifest := Some (Some false); identity := Some None |}.
Proof. vm_compute. reflexivity. Qed.

Section Rename.
Context `{Externals}.

Lemma CopyToS3_preserves (env : AwsEnv) (fname b k : string) (hint : Z)
      (w : World) :
  exists st w',
    S3WritableFile.CopyToS3 env fname b k hint w = Returns st w'
    /\ local_files w' = local_files w
    /\ s3_fault w' = s3_fault w.
Proof.
  rewrite CopyToS3_run.
  destruct (local_files w !! fname) as [c |]; [| eauto].
  destruct (_ =? 0); [eauto |]. cbn zeta.
  destruct (s3_fault w _); do 2 eexists; (split; [reflexivity |]);
    autorewrite with world; cbn; autorewrite with world; auto.
Qed.

Lemma assert_var_true_run (w : World) : assert_var (Some true) w = Returns tt w.
Proof. unfold assert_var. destruct NDEBUG; reflexivity. Qed.

(** The upload of the IDENTITY file, step by step. *)
Lemma SaveIdentitytoS3_run (env : AwsEnv) (localfile idfile : string) (w : World) :
  NDEBUG = true \/ (status env = OK /\ basename idfile = "IDENTITY") ->
  SaveIdentitytoS3 env localfile idfile w
  = match local_files w !! localfile with
    | None => Returns IOError w
    | Some dbid =>
        match S3WritableFile.CopyToS3 env localfile
                (GetBucket (GetDestBucketPrefix env)) idfile
                (Z.of_nat (String.length (trim dbid))) w with
        | Returns st w' =>
            if ok st && negb (bool_decide (GetDestObjectPrefix env = ""))
            then SaveDbid env (trim dbid) (GetDestObjectPrefix env) w'
            else Returns st w'
        | Aborts why => Aborts why
        end
    end.
Proof.
  intros Hst. unfold SaveIdentitytoS3. rewrite bind_run, assert_run.
  2:{ destruct Hst as [? | [_ ->]]; [auto |]. right. apply bool_decide_eq_true. reflexivity. }
  unfold BaseEnv.ReadFileIntoString. run.
  destruct (local_files w !! localfile) as [dbid |]; cbn; [| reflexivity].
  run. destruct (S3WritableFile.CopyToS3 _ _ _ _ _ _) as [st w' |]; [| reflexivity].
  destruct (ok st && _); reflexivity.
Qed.

(** [RenameFile] by the kind of the target.  The assertions of the
    last branch are looked at only there. *)
Lemma RenameFile_run (env : AwsEnv) (src target : string) (w : World) :
  NDEBUG = true \/ status env = OK ->
  (IsSstFile target || IsLogFile target || IsManifestFile target = false ->
   IsIdentityFile target && has_dest_bucket_ env = true ->
   NDEBUG = true
   \/ (basename target = "IDENTITY" /\ dest_bucket_prefix_ env <> "")) ->
  RenameFile env src target w
  = if IsSstFile target || IsLogFile target || IsManifestFile target then
      if NDEBUG then Returns NotSupported w else Aborts AssertionFailed
    else if IsIdentityFile target && has_dest_bucket_ env then
      match SaveIdentitytoS3 env src
              (dest_object_prefix_ env +:+ "/" +:+ basename target) w with
      | Returns st w' =>
          if ok st then BaseEnv.RenameFile src target w' else Returns st w'
      | Aborts why => Aborts why
      end
    else BaseEnv.RenameFile src target w.
Proof.
  intros Hst Hid.
  assert (Hassert : forall w0, assert_ (ok (status env)) w0 = Returns tt w0).
  { intros w0. apply assert_run. destruct Hst as [? | ->]; auto. }
  assert (Hrefuse : (assert_ false ≫= fun _ : () => mret NotSupported) w
                    = if NDEBUG then Returns NotSupported w
                      else Aborts AssertionFailed).
  { unfold assert_. rewrite bind_run, orb_false_r. destruct NDEBUG; reflexivity. }
  unfold RenameFile. rewrite bind_run, Hassert.
  destruct (GetFileType_assigns target four_flags) as (Hs & Hl & Hm & Hi).
  rewrite Hs, Hl, Hm, Hi.
  cbn [four_flags manifest identity fmap option_fmap option_map var].
  destruct (IsSstFile target) eqn:Hsst; cbn [orb]; run; [exact Hrefuse |].
  destruct (IsLogFile target) eqn:Hlog; cbn [orb]; run; [exact Hrefuse |].
  destruct (IsManifestFile target) eqn:Hman; cbn [orb]; run; [exact Hrefuse |].
  unfold or_else.
  destruct (IsIdentityFile target) eqn:Hidf; cbn [negb andb var]; run;
    [| reflexivity].
  destruct (has_dest_bucket_ env) eqn:Hdest; cbn [negb]; run; [| reflexivity].
  specialize (Hid eq_refl eq_refl).
  unfold destname.
  rewrite assert_var_true_run. run.
  rewrite assert_true_run. run.
  rewrite assert_run.
  2:{ destruct Hid as [? | (-> & _)]; [auto |]. right.
      apply bool_decide_eq_true. reflexivity. }
  run. rewrite assert_run.
  2:{ destruct Hid as [? | (_ & Hne)]; [auto |]. right.
      rewrite bool_decide_eq_false_2 by exact Hne. reflexivity. }
  run.
  destruct (SaveIdentitytoS3 _ _ _ _) as [st w' |]; [| reflexivity].
  destruct (ok st); reflexivity.
Qed.

(** The upload of the IDENTITY file followed by the local rename, by
    the contents of the source file and the answers of the service to
    the two PUTs. *)
Lemma identity_upload_then_rename (env : AwsEnv) (src target idfile : string)
      (w : World) :
  NDEBUG = true \/ (status env = OK /\ basename idfile = "IDENTITY") ->
  let bucket := GetBucket (GetDestBucketPrefix env) in
  let renamed := match SaveIdentitytoS3 env src idfile w with
                 | Returns st w' =>
                     if ok st then BaseEnv.RenameFile src target w'
                     else Returns st w'
                 | Aborts why => Aborts why
                 end in
  match local_files w !! src with
  | None => renamed = Returns IOError w
  | Some c =>
      let upload := PutObjectRequest bucket idfile c ∅ in
      let register := PutObjectRequest bucket (dbid_registry_ +:+ trim c) ""
                        (<["dirname" := dest_object_prefix_ env]> ∅) in
      (c = "" -> renamed = Returns IOError w)
      /\ (c <> "" ->
          (is_Some (s3_fault w upload) ->
           exists w',
             renamed = Returns IOError w'
             /\ s3_log w' = upload :: s3_log w
             /\ local_files w' = local_files w
             /\ s3_objects w' = s3_objects w)
          /\ (s3_fault w upload = None ->
              dest_object_prefix_ env <> "" ->
              is_Some (s3_fault w register) ->
              exists w',
                renamed = Returns IOError w'
                /\ s3_log w' = register :: upload :: s3_log w
                /\ local_files w' = local_files w
                /\ obj_body <$> s3_objects w' !! (bucket, idfile) = Some c)
          /\ (s3_fault w upload = None ->
              dest_object_prefix_ env = "" \/ s3_fault w register = None ->
              exists w',
                renamed = Returns OK w'
                /\ s3_log w'
                   = ((if bool_decide (dest_object_prefix_ env = "") then []
                       else [register]) ++ upload :: s3_log w)%list
                /\ local_files w' = <[target := c]> (delete src (local_files w))))
  end.
Proof.
  intros Hst bucket renamed. subst renamed.
  rewrite SaveIdentitytoS3_run by exact Hst.
  destruct (local_files w !! src) as [c |] eqn:Hc; [| reflexivity].
  cbn zeta. rewrite CopyToS3_run, Hc. split.
  { intros ->. reflexivity. }
  intros Hne.
  assert (Hlen : (Z.of_nat (String.length c) =? 0) = false).
  { apply Z.eqb_neq. rewrite length_zero. exact Hne. }
  rewrite Hlen. cbn zeta. fold bucket.
  set (upload := PutObjectRequest bucket idfile c ∅).
  set (register := PutObjectRequest bucket (dbid_registry_ +:+ trim c) ""
                     (<["dirname" := dest_object_prefix_ env]> ∅)).
  assert (Hstatus : NDEBUG = true \/ status env = OK).
  { destruct Hst as [? | (? & _)]; auto. }
  split_all.
  - intros [e He]. rewrite He. cbn. eexists. split; [reflexivity |].
    autorewrite with world. auto.
  - intros Hup Hprefix [e He]. rewrite Hup. cbn [ok andb].
    unfold GetDestObjectPrefix.
    rewrite (bool_decide_eq_false_2 _ Hprefix). cbn [negb].
    rewrite SaveDbid_run by exact Hstatus.
    cbn zeta. autorewrite with world. cbn [s3_fault set_s3_objects].
    autorewrite with world. fold bucket register. rewrite He. cbn [ok].
    eexists. split; [reflexivity |].
    repeat (progress (cbn; autorewrite with world)).
    split_all; [reflexivity | reflexivity |].
    rewrite lookup_insert_eq. reflexivity.
  - intros Hup Hreg. rewrite Hup. cbn [ok andb].
    unfold GetDestObjectPrefix.
    destruct (bool_decide (dest_object_prefix_ env = "")) eqn:Hprefix; cbn [negb].
    + unfold BaseEnv.RenameFile. run.
      repeat (progress (cbn; autorewrite with world)).
      rewrite Hc. run. eexists. split; [reflexivity |].
      repeat (progress (cbn; autorewrite with world)). auto.
    + destruct Hreg as [Hempty | Hreg].
      { apply bool_decide_eq_false in Hprefix. contradiction. }
      rewrite SaveDbid_run by exact Hstatus.
      cbn zeta. autorewrite with world. cbn [s3_fault set_s3_objects].
      autorewrite with world. fold bucket register. rewrite Hreg. cbn [ok].
      unfold BaseEnv.RenameFile. run.
      repeat (progress (cbn; autorewrite with world)).
      rewrite Hc. run. eexists. split; [reflexivity |].
      repeat (progress (cbn; autorewrite with world)). auto.
Qed.

(** C6, amended.  [RenameFile] looks at the target.  For the name of an
    sst, log or manifest file it returns NotSupported in a build with
    NDEBUG and stops on [assert(0)] otherwise.  For any other name that
    is not an IDENTITY file, or when there is no destination bucket, it
    is the rename of the local environment.  For an IDENTITY file with
    a destination bucket it first uploads the source file to the
    destination object of the target, then, only when the destination
    object prefix is not empty, saves the trimmed contents as a dbid in
    the registry, and only when all of that succeeded renames the
    local file: when the source file is missing or empty, when the
    upload fails, or when the upload succeeds and the registry is not
    updated, it returns IOError and the local file is not renamed. *)
Theorem rename_policy (env : AwsEnv) (src target : string) (w : World) :
  NDEBUG = true \/ status env = OK ->
  let refused := IsSstFile target || IsLogFile target || IsManifestFile target in
  let bucket := GetBucket (GetDestBucketPrefix env) in
  let idfile := dest_object_prefix_ env +:+ "/" +:+ basename target in
  (refused = true ->
     RenameFile env src target w
     = if NDEBUG then Returns NotSupported w else Aborts AssertionFailed)
  /\ (refused = false ->
      IsIdentityFile target && has_dest_bucket_ env = false ->
      RenameFile env src target w = BaseEnv.RenameFile src target w)
  /\ (refused = false ->
      IsIdentityFile target && has_dest_bucket_ env = true ->
      NDEBUG = true
      \/ (basename target = "IDENTITY" /\ basename idfile = "IDENTITY"
          /\ dest_bucket_prefix_ env <> "") ->
      match local_files w !! src with
      | None => RenameFile env src target w = Returns IOError w
      | Some c =>
          let upload := PutObjectRequest bucket idfile c ∅ in
          let register := PutObjectRequest bucket (dbid_registry_ +:+ trim c) ""
                            (<["dirname" := dest_object_prefix_ env]> ∅) in
          (c = "" -> RenameFile env src target w = Returns IOError w)
          /\ (c <> "" ->
              (is_Some (s3_fault w upload) ->
               exists w',
                 RenameFile env src target w = Returns IOError w'
                 /\ s3_log w' = upload :: s3_log w
                 /\ local_files w' = local_files w
                 /\ s3_objects w' = s3_objects w)
              /\ (s3_fault w upload = None ->
                  dest_object_prefix_ env <> "" ->
                  is_Some (s3_fault w register) ->
                  exists w',
                    RenameFile env src target w = Returns IOError w'
                    /\ s3_log w' = register :: upload :: s3_log w
                    /\ local_files w' = local_files w
                    /\ obj_body <$> s3_objects w' !! (bucket, idfile) = Some c)
              /\ (s3_fault w upload = None ->
                  dest_object_prefix_ env = "" \/ s3_fault w register = None ->
                  exists w',
                    RenameFile env src target w = Returns OK w'
                    /\ s3_log w'
                       = ((if bool_decide (dest_object_prefix_ env = "") then []
                           else [register]) ++ upload :: s3_log w)%list
                    /\ local_files w'
                       = <[target := c]> (delete src (local_files w))))
      end).
Proof.
  intros Hst refused bucket idfile. split_all.
  - intros Hrefused. rewrite RenameFile_run; [| exact Hst |].
    + fold refused. rewrite Hrefused. reflexivity.
    + fold refused. rewrite Hrefused. discriminate.
  - intros Hrefused Hlocal. rewrite RenameFile_run; [| exact Hst |].
    + fold refused. rewrite Hrefused, Hlocal. reflexivity.
    + rewrite Hlocal. discriminate.
  - intros Hrefused Hidentity Hassert. rewrite RenameFile_run; [| exact Hst |].
    + fold refused. rewrite Hrefused, Hidentity. fold idfile.
      apply (identity_upload_then_rename env src target idfile w).
      destruct Hst as [? | Hstatus]; [auto |].
      destruct Hassert as [? | (_ & ? & _)]; auto.
    + intros _ _. destruct Hassert as [? | (? & _ & ?)]; auto.
Qed.

End Rename.

(** C6 as stated fails twice.  With an empty destination object prefix
    the rename of the IDENTITY file uploads it and renames it, and the
    registry is not touched; and in a build without NDEBUG the rename
    of an sst file stops on [assert(0)] instead of returning. *)
Lemma rename_identity_without_registry :
  (exists w',
     @RenameFile Sample.release (Sample.identity_env "") "/data/000001.dbtmp"
        "/data/IDENTITY" Sample.identity_world
     = Returns OK w'
     /\ s3_log w' = [PutObjectRequest "rockset.acme" "/IDENTITY" "X7" ∅]
     /\ s3_objects w' !! ("rockset.acme", ".rockset/dbid/X7") = None
     /\ local_files w' !! "/data/IDENTITY" = Some "X7")
  /\ @RenameFile Sample.debug (Sample.identity_env "db1") "/data/000123.tmp"
        "/data/000123.sst" Sample.identity_world
     = Aborts AssertionFailed.
Proof. split; [eexists |]; evaluate. Qed.

Lemma rename_policy_witness :
  let env := Sample.identity_env "db1" in
  let w := Sample.identity_world in
  (exists w',
     @RenameFile Sample.debug env "/data/000001.dbtmp" "/data/IDENTITY" w
     = Returns OK w'
     /\ s3_log w'
        = [PutObjectRequest "rockset.acme" ".rockset/dbid/X7" ""
             (<["dirname" := "db1"]> ∅);
           PutObjectRequest "rockset.acme" "db1/IDENTITY" "X7" ∅]
     /\ local_files w'
        = <["/data/IDENTITY" := "X7"]>
            (delete "/data/000001.dbtmp" (local_files w)))
  /\ @RenameFile Sample.debug env "/data/000123.tmp" "/data/000123.sst" w
     = Aborts AssertionFailed
  /\ @RenameFile Sample.debug env "/data/LOCK.tmp" "/data/LOCK" w
     = BaseEnv.RenameFile "/data/LOCK.tmp" "/data/LOCK" w.
Proof.
  intros env w.
  destruct (@rename_policy Sample.debug env "/data/000001.dbtmp" "/data/IDENTITY"
              w (or_intror eq_refl))
    as (_ & _ & Hidentity).
  specialize (Hidentity ltac:(vm_compute; reflexivity)
                ltac:(vm_compute; reflexivity)
                ltac:(right; split_all; [vm_compute; reflexivity ..
                                         | discriminate])).
  replace (local_files w !! "/data/000001.dbtmp") with (Some "X7") in Hidentity
    by (vm_compute; reflexivity).
  destruct Hidentity as (_ & Hfull).
  destruct (Hfull ltac:(discriminate)) as (_ & _ & Hok).
  destruct (Hok eq_refl (or_intror eq_refl)) as (w' & Hrun & Hlog & Hfiles).
  split_all.
  - exists w'. split; [exact Hrun |]. split; [| exact Hfiles].
    rewrite Hlog. vm_compute. reflexivity.
  - exact (proj1 (@rename_policy Sample.debug env "/data/000123.tmp"
                    "/data/000123.sst" w (or_intror eq_refl))
             ltac:(vm_compute; reflexivity)).
  - exact (proj1 (proj2 (@rename_policy Sample.debug env "/data/LOCK.tmp"
                           "/data/LOCK" w (or_intror eq_refl)))
             ltac:(vm_compute; reflexivity) ltac:(vm_compute; reflexivity)).
Defined.

(** The rename of a manifest in a build with NDEBUG. *)
Example rename_manifest_not_supported :
  @RenameFile Sample.release (Sample.identity_env "db1") "/data/MANIFEST-000001"
     "/data/MANIFEST-000002" Sample.identity_world
  = Returns NotSupported Sample.identity_world.
Proof. vm_compute. reflexivity. Qed.

(** ** Directories *)

Section DeleteDir.
Context `{Externals}.

(** [DeleteDir] with a destination bucket, by the outcome of the listing:
    only a listing that succeeded and returned children stops it. *)
Lemma DeleteDir_run (env : AwsEnv) (dirname : string) (st : Status)
      (results : list string) (w w1 : World) :
  NDEBUG = true \/ (status env = OK /\ IsSstFile dirname = false
                    /\ dest_bucket_prefix_ env <> "") ->
  has_dest_bucket_ env = true ->
  let marker := dest_object_prefix_ env +:+ "/" +:+ basename dirname in
  GetChildrenFromS3 env marker (GetDestBucketPrefix env) [] w
  = Returns (st, results) w1 ->
  DeleteDir env dirname w
  = if ok st && negb (length results =? 0)%nat then Returns IOError w1
    else match DeletePathInS3 env (GetDestBucketPrefix env) marker w1 with
         | Returns st' w2 =>
             if ok st' then BaseEnv.DeleteDir dirname w2 else Returns st' w2
         | Aborts why => Aborts why
         end.
Proof.
  intros Hst Hdest marker Hlist. unfold DeleteDir.
  rewrite bind_run, assert_run.
  2:{ destruct Hst as [? | (-> & _)]; auto. }
  rewrite bind_run, assert_run.
  2:{ destruct Hst as [? | (_ & -> & _)]; auto. }
  assert (Hname : forall w0, destname env dirname w0 = Returns marker w0).
  { intros w0. unfold destname. rewrite bind_run, assert_run; [reflexivity |].
    destruct Hst as [? | (_ & _ & Hne)]; [auto |]. right.
    rewrite bool_decide_eq_false_2 by exact Hne. reflexivity. }
  rewrite Hdest. run. rewrite Hname. run. rewrite Hlist. run.
  destruct (ok st && negb (length results =? 0)%nat); [reflexivity |].
  run. rewrite Hname. run.
  destruct (DeletePathInS3 _ _ _ _) as [st' w2 |]; [| reflexivity].
  run. destruct (ok st'); reflexivity.
Qed.

End DeleteDir.

(** C7.  With a destination bucket whose listing fails, [DeleteDir]
    goes on: it deletes the directory marker although a child is still
    stored under it, deletes the local directory and returns OK; the
    error of the listing is lost. *)
Theorem DeleteDir_deletes_after_failed_listing :
  exists w',
    @DeleteDir Sample.debug (Sample.dest_only_env false 0) "/data/dir1"
       (set_s3_fault Sample.listing_fails (Sample.dir_world ["db1/dir1"; "db1/dir1/000001.sst"]))
    = Returns OK w'
    /\ s3_log w' = [DeleteObjectRequest "rockset.acme" "db1/dir1";
                    ListObjectsRequest "rockset.acme" "db1/dir1" "" 50]
    /\ S3Client.keys_after (s3_objects w') "rockset.acme" "" ""
       = ["db1/dir1/000001.sst"]
    /\ elements (local_dirs w') = [].
Proof. eexists. evaluate. Qed.

(** The same directory when the listing gets through: the children
    stop the deletion with IOError and nothing is deleted. *)
Example DeleteDir_refuses_children :
  exists w',
    @DeleteDir Sample.debug (Sample.dest_only_env false 0) "/data/dir1"
       (Sample.dir_world ["db1/dir1"; "db1/dir1/000001.sst"])
    = Returns IOError w'
    /\ s3_log w' = [ListObjectsRequest "rockset.acme" "db1/dir1" "" 50]
    /\ S3Client.keys_after (s3_objects w') "rockset.acme" "" ""
       = ["db1/dir1"; "db1/dir1/000001.sst"]
    /\ elements (local_dirs w') = ["/data/dir1"].
Proof. eexists. evaluate. Qed.

(** With nothing stored under the prefix the marker is deleted, then
    the local directory. *)
Example DeleteDir_of_empty_directory :
  exists w',
    @DeleteDir Sample.debug (Sample.dest_only_env false 0) "/data/dir1" (Sample.dir_world [])
    = Returns OK w'
    /\ s3_log w' = [DeleteObjectRequest "rockset.acme" "db1/dir1";
                    ListObjectsRequest "rockset.acme" "db1/dir1" "" 50]
    /\ elements (local_dirs w') = [].
Proof. eexists. evaluate. Qed.

(** ** Construction *)

Section RegionCheck.
Context `{Externals}.

Lemma failed_status_stops (env : AwsEnv) :
  NDEBUG = false -> ok (status env) = false -> stops_on_status env.
Proof.
  intros Hdebug Hfailed w fname target bucket options isfile names time.
  assert (Hassert : forall w0, assert_ (ok (status env)) w0 = Aborts AssertionFailed).
  { intros w0. unfold assert_. rewrite Hdebug, Hfailed. reflexivity. }
  unfold NewSequentialFileCloud, NewSequentialFile, NewRandomAccessFile,
    NewWritableFile, NewDirectory, FileExists, PathExistsInS3,
    GetChildrenFromS3, GetChildren, DeleteFile, DeletePathInS3, CreateDir,
    CreateDirIfMissing, DeleteDir, GetFileSize, GetFileModificationTime,
    RenameFile, SaveDbid.
  rewrite !bind_run, !Hassert. repeat split.
Qed.

(** C5.  Constructing the environment with two unique buckets (both
    bucket prefixes non-empty once trimmed, and the bucket prefixes or
    the object prefixes different) whose trimmed regions differ: the
    constructor stores InvalidArgument as the status and returns
    before it starts the deletion thread.  In a build without NDEBUG
    every operation that starts with [assert(status().ok())] stops on
    an environment with that status.  But no caller of [NewAwsEnv]
    gets that environment or that status: [NewAwsEnv] destroys the
    failed environment, the destructor joins the thread that was
    never started, and the process is terminated. *)
Theorem region_check (src_bucket_prefix src_object_prefix src_bucket_region
          dest_bucket_prefix dest_object_prefix dest_bucket_region : string)
        (cloud_options : CloudEnvOptions) (w : World) :
  trim src_bucket_prefix <> "" ->
  trim dest_bucket_prefix <> "" ->
  trim src_bucket_prefix <> trim dest_bucket_prefix
  \/ trim src_object_prefix <> trim dest_object_prefix ->
  trim src_bucket_region <> trim dest_bucket_region ->
  exists env,
    new_AwsEnv src_bucket_prefix src_object_prefix src_bucket_region
      dest_bucket_prefix dest_object_prefix dest_bucket_region cloud_options w
    = Returns env (set_running_ true w)
    /\ status env = InvalidArgument
    /\ file_deletion_thread_ env = false
    /\ (forall w0, delete_AwsEnv env w0 = Aborts Terminated)
    /\ NewAwsEnv src_bucket_prefix src_object_prefix src_bucket_region
         dest_bucket_prefix dest_object_prefix dest_bucket_region cloud_options w
       = Aborts Terminated
    /\ (NDEBUG = false -> stops_on_status env).
Proof.
  intros Hsrc Hdest Hunique Hregion.
  assert (Hnew : exists env,
            new_AwsEnv src_bucket_prefix src_object_prefix src_bucket_region
              dest_bucket_prefix dest_object_prefix dest_bucket_region
              cloud_options w
            = Returns env (set_running_ true w)
            /\ status env = InvalidArgument
            /\ file_deletion_thread_ env = false).
  { unfold new_AwsEnv. run.
    rewrite (bool_decide_eq_false_2 _ Hsrc), (bool_decide_eq_false_2 _ Hdest),
      (bool_decide_eq_false_2 _ Hregion).
    assert (Hu : negb (bool_decide (trim src_bucket_prefix = trim dest_bucket_prefix))
                 || negb (bool_decide (trim src_object_prefix = trim dest_object_prefix))
                 = true).
    { destruct Hunique as [Hne | Hne]; rewrite (bool_decide_eq_false_2 _ Hne);
        cbn; [reflexivity | apply orb_true_r]. }
    rewrite Hu. cbn. eexists. split_all; reflexivity. }
  destruct Hnew as (env & Hnew & Hstatus & Hthread). exists env.
  assert (Hjoin : forall w0, delete_AwsEnv env w0 = Aborts Terminated).
  { intros w0. unfold delete_AwsEnv. run. rewrite Hthread. reflexivity. }
  split_all; [exact Hnew | exact Hstatus | exact Hthread | exact Hjoin | |].
  - unfold NewAwsEnv. rewrite bind_run, Hnew, Hstatus. cbn [ok negb].
    rewrite bind_run, Hjoin. reflexivity.
  - intros Hdebug. apply failed_status_stops; [exact Hdebug |].
    rewrite Hstatus. reflexivity.
Qed.

End RegionCheck.

(** The regions are compared for two unique buckets only.  A source
    and a destination that name the same bucket prefix and the same
    object prefix are not two unique buckets: with different regions
    the constructor goes on, creates the bucket and ends with status
    OK.  And [LockFile] returns OK on an environment whose status is
    InvalidArgument, without looking at the status. *)
Lemma same_bucket_two_regions :
  (exists env w',
     @new_AwsEnv Sample.debug "acme" "db1" "us-west-2" "acme" "db1" "us-east-1"
        (Sample.options false 0) Sample.empty_world
     = Returns env w'
     /\ has_src_bucket_ env = true
     /\ has_dest_bucket_ env = true
     /\ src_bucket_region_ env = "us-west-2"
     /\ dest_bucket_region_ env = "us-east-1"
     /\ status env = OK)
  /\ status Sample.two_regions_env = InvalidArgument
  /\ LockFile Sample.two_regions_env "/data/LOCK" Sample.empty_world
     = Returns OK Sample.empty_world.
Proof. split; [do 2 eexists |]; evaluate. Qed.

Lemma region_check_witness :
  @new_AwsEnv Sample.debug "acme" "db1" "us-west-2" "acme" "db2" "us-east-1"
     (Sample.options false 0) Sample.empty_world
  = Returns Sample.two_regions_env (set_running_ true Sample.empty_world)
  /\ @NewAwsEnv Sample.debug "acme" "db1" "us-west-2" "acme" "db2" "us-east-1"
       (Sample.options false 0) Sample.empty_world
     = Aborts Terminated
  /\ @NewAwsEnv Sample.release "acme" "db1" "us-west-2" "acme" "db2" "us-east-1"
       (Sample.options false 0) Sample.empty_world
     = Aborts Terminated
  /\ @NewWritableFile Sample.debug Sample.two_regions_env "/data/000042.sst"
       Sample.no_mmap Sample.empty_world
     = Aborts AssertionFailed.
Proof.
  destruct (@region_check Sample.debug "acme" "db1" "us-west-2" "acme" "db2"
              "us-east-1" (Sample.options false 0) Sample.empty_world
              ltac:(vm_compute; discriminate) ltac:(vm_compute; discriminate)
              ltac:(right; vm_compute; discriminate)
              ltac:(vm_compute; discriminate))
    as (env & Hnew & _ & _ & _ & Hfactory & Hstops).
  destruct (@region_check Sample.release "acme" "db1" "us-west-2" "acme" "db2"
              "us-east-1" (Sample.options false 0) Sample.empty_world
              ltac:(vm_compute; discriminate) ltac:(vm_compute; discriminate)
              ltac:(right; vm_compute; discriminate)
              ltac:(vm_compute; discriminate))
    as (_ & _ & _ & _ & _ & Hrelease & _).
  assert (Henv : env = Sample.two_regions_env).
  { assert (Hrun : @new_AwsEnv Sample.debug "acme" "db1" "us-west-2" "acme" "db2"
                     "us-east-1" (Sample.options false 0) Sample.empty_world
                   = Returns Sample.two_regions_env
                       (set_running_ true Sample.empty_world))
      by (vm_compute; reflexivity).
    rewrite Hrun in Hnew. injection Hnew as <-. reflexivity. }
  subst env. split; [exact Hnew |]. split; [exact Hfactory |].
  split; [exact Hrelease |].
  apply (Hstops eq_refl Sample.empty_world "/data/000042.sst" "" "" Sample.no_mmap
           true [] 0).
Defined.

(** ** The fallback order of the opens *)

Section FallbackProofs.
Context `{Externals}.

(** The readable object a constructor call builds. *)
Lemma S3ReadableFile_new_run (env : AwsEnv) (bucket_prefix key : string)
      (w : World) :
  NDEBUG = true \/ negb is_file_default || is_cloud_file key = true ->
  s3_fault w (HeadObjectRequest (GetBucket bucket_prefix) key) = None ->
  exists w',
    S3ReadableFile.new env bucket_prefix key is_file_default w
    = Returns
        {| S3ReadableFile.env_ := env;
           S3ReadableFile.fname_ := key;
           S3ReadableFile.offset_ := 0;
           S3ReadableFile.file_size_ :=
             match s3_objects w !! (GetBucket bucket_prefix, key) with
             | Some o => wrap64 (Z.of_nat (String.length (obj_body o)))
             | None => 0
             end;
           S3ReadableFile.last_mod_time_ :=
             match s3_objects w !! (GetBucket bucket_prefix, key) with
             | Some o => wrap64 (obj_last_modified o)
             | None => 0
             end;
           S3ReadableFile.is_file_ := is_file_default;
           S3ReadableFile.s3_bucket_ := GetBucket bucket_prefix;
           S3ReadableFile.s3_object_ := key;
           S3ReadableFile.status_ :=
             match s3_objects w !! (GetBucket bucket_prefix, key) with
             | Some _ => OK
             | None => NotFound
             end |} w'
    /\ local_files w' = local_files w
    /\ s3_objects w' = s3_objects w
    /\ s3_fault w' = s3_fault w.
Proof.
  intros Hassert Hfault. unfold S3ReadableFile.new.
  rewrite bind_run, assert_run.
  2:{ destruct Hassert as [? | Hc]; [auto |]. right.
      unfold is_cloud_file in Hc.
      destruct is_file_default, (IsSstFile key), (IsManifestFile key),
        (IsIdentityFile key); cbn in *; auto. }
  unfold S3ReadableFile.GetFileInfo. run. cbn [S3ReadableFile.env_
    S3ReadableFile.s3_bucket_ S3ReadableFile.s3_object_].
  rewrite HeadObject_run. cbn zeta. rewrite Hfault.
  destruct (s3_objects w !! (GetBucket bucket_prefix, key)) as [o |]; cbn;
    eexists; (split; [reflexivity |]); autorewrite with world; auto.
Qed.


Lemma destname_run (env : AwsEnv) (fname : string) (w : World) :
  NDEBUG = true \/ dest_bucket_prefix_ env <> "" ->
  destname env fname w = Returns (dest_key env fname) w.
Proof.
  intros Hne. unfold destname. rewrite bind_run, assert_run; [reflexivity |].
  destruct Hne as [? | Hne]; [auto |]. right.
  rewrite bool_decide_eq_false_2 by exact Hne. reflexivity.
Qed.

Lemma srcname_run (env : AwsEnv) (fname : string) (w : World) :
  NDEBUG = true \/ src_bucket_prefix_ env <> "" ->
  srcname env fname w = Returns (src_key env fname) w.
Proof.
  intros Hne. unfold srcname. rewrite bind_run, assert_run; [reflexivity |].
  destruct Hne as [? | Hne]; [auto |]. right.
  rewrite bool_decide_eq_false_2 by exact Hne. reflexivity.
Qed.

Lemma opens_cleanly_dest (env : AwsEnv) (fname : string) :
  opens_cleanly env fname -> has_dest_bucket_ env = true ->
  (NDEBUG = true \/ dest_bucket_prefix_ env <> "")
  /\ (NDEBUG = true
      \/ negb is_file_default || is_cloud_file (dest_key env fname) = true).
Proof.
  intros [? | (_ & Hd & _)] Hhas; [auto |].
  destruct (Hd Hhas). auto.
Qed.

Lemma opens_cleanly_src (env : AwsEnv) (fname : string) :
  opens_cleanly env fname -> has_src_bucket_ env = true ->
  (NDEBUG = true \/ src_bucket_prefix_ env <> "")
  /\ (NDEBUG = true
      \/ negb is_file_default || is_cloud_file (src_key env fname) = true).
Proof.
  intros [? | (_ & _ & Hs)] Hhas; [auto |].
  destruct (Hs Hhas). auto.
Qed.

Lemma opens_cleanly_status (env : AwsEnv) (fname : string) (w : World) :
  opens_cleanly env fname -> assert_ (ok (status env)) w = Returns tt w.
Proof. intros [? | (-> & _)]; apply assert_run; auto. Qed.

(** The two attempts on the buckets find the destination object first. *)
Lemma open_in_buckets_resolves (env : AwsEnv) (fname : string) (st0 : Status)
      (w : World) :
  opens_cleanly env fname ->
  (forall req, s3_fault w req = None) ->
  ok st0 = false ->
  exists st f w',
    open_in_buckets env fname st0 w = Returns (st, f) w'
    /\ local_files w' = local_files w
    /\ match dest_object env fname w with
       | Some o =>
           st = OK
           /\ served false (GetDestBucketPrefix env) (dest_key env fname) o fname
                (S3File <$> f) w'
       | None =>
           match src_object env fname w with
           | Some o =>
               st = OK
               /\ served false (GetSrcBucketPrefix env) (src_key env fname) o fname
                    (S3File <$> f) w'
           | None =>
               ok st = false
               /\ (has_dest_bucket_ env || has_src_bucket_ env = true ->
                   st = NotFound)
           end
       end.
Proof.
  intros Hclean Hfault Hst0. unfold open_in_buckets, dest_object, src_object.
  rewrite Hst0. cbn [negb andb].
  assert (Hsrc : forall w1,
            has_src_bucket_ env = true ->
            s3_objects w1 = s3_objects w -> s3_fault w1 = s3_fault w ->
            exists w',
              (srcname env fname ≫= fun cloud_name =>
               S3ReadableFile.new env (GetSrcBucketPrefix env) cloud_name
                 is_file_default ≫= fun f =>
               mret (S3ReadableFile.status f, Some f)) w1
              = Returns
                  (match s3_objects w !! (GetBucket (GetSrcBucketPrefix env),
                                          src_key env fname) with
                   | Some _ => OK
                   | None => NotFound
                   end,
                   Some
                     {| S3ReadableFile.env_ := env;
                        S3ReadableFile.fname_ := src_key env fname;
                        S3ReadableFile.offset_ := 0;
                        S3ReadableFile.file_size_ :=
                          match s3_objects w !! (GetBucket (GetSrcBucketPrefix env),
                                                 src_key env fname) with
                          | Some o => wrap64 (Z.of_nat (String.length (obj_body o)))
                          | None => 0
                          end;
                        S3ReadableFile.last_mod_time_ :=
                          match s3_objects w !! (GetBucket (GetSrcBucketPrefix env),
                                                 src_key env fname) with
                          | Some o => wrap64 (obj_last_modified o)
                          | None => 0
                          end;
                        S3ReadableFile.is_file_ := is_file_default;
                        S3ReadableFile.s3_bucket_ := GetBucket (GetSrcBucketPrefix env);
                        S3ReadableFile.s3_object_ := src_key env fname;
                        S3ReadableFile.status_ :=
                          match s3_objects w !! (GetBucket (GetSrcBucketPrefix env),
                                                 src_key env fname) with
                          | Some _ => OK
                          | None => NotFound
                          end |}) w'
              /\ local_files w' = local_files w1).
  { intros w1 Hhas Hobjs Hfaults.
    destruct (opens_cleanly_src env fname Hclean Hhas) as [Hname Hclass].
    rewrite bind_run, srcname_run by exact Hname.
    destruct (S3ReadableFile_new_run env (GetSrcBucketPrefix env)
                (src_key env fname) w1) as (w' & Hnew & Hlocal & _ & _).
    { exact Hclass. }
    { rewrite Hfaults. apply Hfault. }
    rewrite bind_run, Hnew, Hobjs. exists w'. split; [| exact Hlocal].
    cbn. destruct (s3_objects w !! _); reflexivity. }
  destruct (has_dest_bucket_ env) eqn:Hdest.
  - destruct (opens_cleanly_dest env fname Hclean Hdest) as [Hname Hclass].
    rewrite !bind_run, destname_run by exact Hname.
    destruct (S3ReadableFile_new_run env (GetDestBucketPrefix env)
                (dest_key env fname) w) as (w1 & Hnew & Hlocal & Hobjs & Hfaults).
    { exact Hclass. }
    { apply Hfault. }
    rewrite bind_run, Hnew. run. cbn [S3ReadableFile.status S3ReadableFile.status_].
    destruct (s3_objects w !! (GetBucket (GetDestBucketPrefix env), dest_key env fname))
      as [o |] eqn:Hobj.
    + cbn [ok negb andb]. run. do 3 eexists. split; [reflexivity |].
      split; [exact Hlocal |]. split; [reflexivity |].
      cbn. eexists. split; [reflexivity |]. cbn. auto.
    + cbn [ok negb andb]. destruct (has_src_bucket_ env) eqn:Hhas.
      * destruct (Hsrc w1 eq_refl Hobjs Hfaults) as (w' & -> & Hlocal').
        do 3 eexists. split; [reflexivity |].
        split; [congruence |].
        destruct (s3_objects w !! (GetBucket (GetSrcBucketPrefix env), src_key env fname))
          as [o |].
        -- split; [reflexivity |]. cbn. eexists. split; [reflexivity |]. cbn. auto.
        -- cbn. auto.
      * run. do 3 eexists. split; [reflexivity |]. split; [exact Hlocal |].
        cbn. auto.
  - run. rewrite Hst0. cbn [negb andb]. destruct (has_src_bucket_ env) eqn:Hhas.
    + destruct (Hsrc w eq_refl eq_refl eq_refl) as (w' & -> & Hlocal').
      do 3 eexists. split; [reflexivity |]. split; [exact Hlocal' |].
      destruct (s3_objects w !! (GetBucket (GetSrcBucketPrefix env), src_key env fname))
        as [o |].
      * split; [reflexivity |]. cbn. eexists. split; [reflexivity |]. cbn. auto.
      * cbn. auto.
    + run. do 3 eexists. split; [reflexivity |]. split; [reflexivity |].
      split; [exact Hst0 | discriminate].
Qed.


Lemma CopyFromS3_run (env : AwsEnv) (bucket key fname : string) (w : World) :
  s3_fault w (GetObjectRequest bucket key None (Some (fname +:+ ".tmp"))) = None ->
  exists st w',
    S3WritableFile.CopyFromS3 env bucket key fname w = Returns st w'
    /\ s3_objects w' = s3_objects w
    /\ s3_fault w' = s3_fault w
    /\ match s3_objects w !! (bucket, key) with
       | Some o =>
           obj_body o <> "" ->
           st = OK /\ local_files w' !! fname = Some (obj_body o)
       | None => st = IOError /\ local_files w' = local_files w
       end.
Proof.
  intros Hfault. unfold S3WritableFile.CopyFromS3.
  rewrite bind_run, GetObject_to_file_run. cbn zeta. rewrite Hfault.
  destruct (s3_objects w !! (bucket, key)) as [o |].
  - unfold BaseEnv.GetFileSize, BaseEnv.RenameFile. run.
    repeat (progress (cbn; autorewrite with world)).
    rewrite lookup_insert_eq. cbn.
    destruct (Z.of_nat (String.length (obj_body o)) =? 0) eqn:Hlen.
    + run. do 2 eexists. split; [reflexivity |].
      repeat (progress (cbn; autorewrite with world)).
      split; [reflexivity |]. split; [reflexivity |].
      intros Hne. apply Z.eqb_eq, length_zero in Hlen. contradiction.
    + cbn. run. repeat (progress (cbn; autorewrite with world)).
      rewrite lookup_insert_eq. run.
      do 2 eexists. split; [reflexivity |].
      repeat (progress (cbn; autorewrite with world)).
      split; [reflexivity |]. split; [reflexivity |].
      intros _. split; [reflexivity |]. apply lookup_insert_eq.
  - run. do 2 eexists. split; [reflexivity |].
    autorewrite with world. auto.
Qed.

(** The two downloads copy the destination object first. *)
Lemma copy_from_buckets_resolves (env : AwsEnv) (fname : string) (st0 : Status)
      (w : World) :
  opens_cleanly env fname ->
  (forall req, s3_fault w req = None) ->
  nonempty_objects env fname w ->
  local_files w !! fname = None ->
  ok st0 = false ->
  exists st w',
    copy_from_buckets env fname st0 w = Returns st w'
    /\ s3_objects w' = s3_objects w
    /\ s3_fault w' = s3_fault w
    /\ match dest_object env fname w with
       | Some o => st = OK /\ local_files w' !! fname = Some (obj_body o)
       | None =>
           match src_object env fname w with
           | Some o => st = OK /\ local_files w' !! fname = Some (obj_body o)
           | None => ok st = false /\ local_files w' !! fname = None
           end
       end.
Proof.
  intros Hclean Hfault Hnonempty Hlocal Hst0.
  unfold copy_from_buckets. unfold nonempty_objects in Hnonempty.
  unfold dest_object, src_object in *.
  assert (Hsrc : forall w1,
            has_src_bucket_ env = true ->
            s3_objects w1 = s3_objects w -> s3_fault w1 = s3_fault w ->
            local_files w1 = local_files w ->
            exists st w',
              (srcname env fname ≫= fun cloud_name =>
               S3WritableFile.CopyFromS3 env (GetBucket (GetSrcBucketPrefix env))
                 cloud_name fname) w1 = Returns st w'
              /\ s3_objects w' = s3_objects w
              /\ s3_fault w' = s3_fault w
              /\ match s3_objects w !! (GetBucket (GetSrcBucketPrefix env),
                                        src_key env fname) with
                 | Some o => st = OK /\ local_files w' !! fname = Some (obj_body o)
                 | None => ok st = false /\ local_files w' !! fname = None
                 end).
  { intros w1 Hhas Hobjs Hfaults Hlocals.
    destruct (opens_cleanly_src env fname Hclean Hhas) as [Hname _].
    rewrite bind_run, srcname_run by exact Hname.
    destruct (CopyFromS3_run env (GetBucket (GetSrcBucketPrefix env))
                (src_key env fname) fname w1) as (st & w' & Hrun & Ho & Hf & Hcase).
    { rewrite Hfaults. apply Hfault. }
    exists st, w'. split; [exact Hrun |]. split; [congruence |].
    split; [congruence |]. rewrite Hobjs in Hcase. rewrite Hhas in Hnonempty.
    destruct (s3_objects w !! (GetBucket (GetSrcBucketPrefix env), src_key env fname))
      as [o |].
    - apply Hcase, Hnonempty. auto.
    - destruct Hcase as [-> ->]. rewrite Hlocals. auto. }
  destruct (has_dest_bucket_ env) eqn:Hdest.
  - destruct (opens_cleanly_dest env fname Hclean Hdest) as [Hname _].
    rewrite !bind_run, destname_run by exact Hname.
    destruct (CopyFromS3_run env (GetBucket (GetDestBucketPrefix env))
                (dest_key env fname) fname w) as (st & w1 & Hrun & Ho & Hf & Hcase).
    { apply Hfault. }
    rewrite Hrun.
    destruct (s3_objects w !! (GetBucket (GetDestBucketPrefix env), dest_key env fname))
      as [o |].
    + destruct Hcase as [-> Hfile]; [apply Hnonempty; auto |].
      cbn [ok negb andb]. run. exists OK, w1. auto.
    + destruct Hcase as [-> Hlocals]. cbn [ok negb andb].
      destruct (has_src_bucket_ env) eqn:Hhas.
      * apply (Hsrc w1 eq_refl Ho Hf Hlocals).
      * run. exists IOError, w1. rewrite Hlocals. auto.
  - run. rewrite Hst0. cbn [negb andb].
    destruct (has_src_bucket_ env) eqn:Hhas.
    + apply (Hsrc w eq_refl eq_refl eq_refl eq_refl).
    + run. exists st0, w. auto.
Qed.


(** C1, amended.  For the name of an sst, manifest or identity file,
    options that pass [CheckOption], a service that answers, and
    objects that are not empty, [NewSequentialFile] and
    [NewRandomAccessFile] resolve the file in the order local file
    system, destination bucket, source bucket: a local file is opened
    locally and nothing is asked of the service; otherwise the
    destination object, and failing that the source object, is opened
    through a readable object on it (or, by [NewRandomAccessFile] when
    the sst files are kept locally, copied to the local path and
    opened there); and when the name is in none of the three and a
    bucket is configured, the status is NotFound and no handle is
    returned. *)
Theorem fallback_order (env : AwsEnv) (fname : string) (options : EnvOptions)
        (w : World) :
  opens_cleanly env fname ->
  CheckOption env options = OK ->
  is_cloud_file fname = true ->
  (forall req, s3_fault w req = None) ->
  nonempty_objects env fname w ->
  (exists st r w',
     NewSequentialFile env fname options w = Returns (st, r) w'
     /\ resolved false env fname w st r w')
  /\ (exists st r w',
        NewRandomAccessFile env fname options w = Returns (st, r) w'
        /\ resolved (keep_local_sst_files (cloud_env_options env))
             env fname w st r w').
Proof.
  intros Hclean Hopt Hcloud Hfault Hnonempty. split.
  - unfold NewSequentialFile.
    rewrite bind_run, (opens_cleanly_status env fname w Hclean).
    rewrite Hopt. cbn [ok negb].
    rewrite bind_run, cloud_file_test_run, Hcloud.
    unfold BaseEnv.NewSequentialFile, resolved, resolve, local_ptr. run.
    destruct (local_files w !! fname) as [c |] eqn:Hlocal; cbn [fst snd ok negb].
    + run. do 3 eexists. split; [reflexivity |]. cbn. auto.
    + destruct (open_in_buckets_resolves env fname IOError w Hclean Hfault eq_refl)
        as (st & f & w' & Hrun & _ & Hcase).
      rewrite bind_run, Hrun.
      destruct (dest_object env fname w) as [o |].
      * destruct Hcase as [-> Hserved]. run. do 3 eexists.
        split; [reflexivity |]. split; [reflexivity |]. eauto.
      * destruct (src_object env fname w) as [o |].
        -- destruct Hcase as [-> Hserved]. run. do 3 eexists.
           split; [reflexivity |]. split; [reflexivity |]. eauto.
        -- destruct Hcase as [Hfailed Hnotfound]. rewrite Hfailed. run.
           do 3 eexists. split; [reflexivity |]. cbn. auto.
  - unfold NewRandomAccessFile.
    rewrite bind_run, (opens_cleanly_status env fname w Hclean).
    rewrite Hopt. cbn [ok negb].
    rewrite bind_run, cloud_file_test_run, Hcloud.
    unfold BaseEnv.NewRandomAccessFile, BaseEnv.FileExists, resolved, resolve,
      local_ptr. run.
    destruct (local_files w !! fname) as [c |] eqn:Hlocal;
      cbn [fst snd ok negb andb IsNotFound]; run.
    + do 3 eexists. split; [reflexivity |]. cbn. auto.
    + rewrite Hlocal. cbn [IsNotFound negb andb]. run.
      destruct (keep_local_sst_files (cloud_env_options env)).
      * destruct (copy_from_buckets_resolves env fname IOError w Hclean Hfault
                    Hnonempty Hlocal eq_refl)
          as (st & w1 & Hcopy & Hobjs & Hfaults & Hcase).
        rewrite bind_run, Hcopy.
        destruct (dest_object env fname w) as [o |] eqn:Hdest.
        { destruct Hcase as [-> Hfile]. cbn [ok]. run. rewrite Hfile.
          cbn [fst snd fmap option_fmap option_map ok negb]. run.
          do 3 eexists. split; [reflexivity |]. split; [reflexivity |].
          exists o. cbn. auto. }
        destruct (src_object env fname w) as [o |] eqn:Hsrc.
        { destruct Hcase as [-> Hfile]. cbn [ok]. run. rewrite Hfile.
          cbn [fst snd fmap option_fmap option_map ok negb]. run.
          do 3 eexists. split; [reflexivity |]. split; [reflexivity |].
          exists o. cbn. auto. }
        destruct Hcase as [Hfailed Hfile]. rewrite Hfailed. run.
        rewrite Hfailed. cbn [negb].
        assert (Hfault1 : forall req, s3_fault w1 req = None).
        { intros req. rewrite Hfaults. apply Hfault. }
        destruct (open_in_buckets_resolves env fname st w1 Hclean Hfault1 Hfailed)
          as (st' & f & w' & Hrun & _ & Hcase).
        unfold dest_object, src_object in Hdest, Hsrc, Hcase.
        rewrite Hobjs, Hdest, Hsrc in Hcase.
        destruct Hcase as [Hfailed' Hnotfound].
        rewrite bind_run, Hrun. run. rewrite Hfailed'. cbn [negb]. run.
        do 3 eexists. split; [reflexivity |]. cbn. auto.
      * destruct (open_in_buckets_resolves env fname IOError w Hclean Hfault eq_refl)
          as (st & f & w' & Hrun & _ & Hcase).
        run. cbn [ok negb]. rewrite bind_run, Hrun.
        destruct (dest_object env fname w) as [o |].
        -- destruct Hcase as [-> Hserved]. run. do 3 eexists.
           split; [reflexivity |]. split; [reflexivity |]. eauto.
        -- destruct (src_object env fname w) as [o |].
           ++ destruct Hcase as [-> Hserved]. run. do 3 eexists.
              split; [reflexivity |]. split; [reflexivity |]. eauto.
           ++ destruct Hcase as [Hfailed Hnotfound]. rewrite Hfailed. run.
              do 3 eexists. split; [reflexivity |]. cbn. auto.
Qed.

End FallbackProofs.

(** C1 as stated fails: "000123.sst" is absent from the local disk and
    present in the source bucket, and with options that ask for mmap
    reads while the sst files are not kept locally both opens return
    InvalidArgument from [CheckOption], before anything is looked up. *)
Lemma open_refused_by_CheckOption :
  @resolve Sample.release Sample.src_only_env "/data/000123.sst"
     Sample.src_only_world = Some SrcTier
  /\ (exists w',
        @NewRandomAccessFile Sample.release Sample.src_only_env "/data/000123.sst"
           Sample.mmap Sample.src_only_world
        = Returns (InvalidArgument, None) w'
        /\ s3_log w' = [])
  /\ (exists w',
        @NewSequentialFile Sample.release Sample.src_only_env "/data/000123.sst"
           Sample.mmap Sample.src_only_world
        = Returns (InvalidArgument, None) w'
        /\ s3_log w' = []).
Proof. split; [| split; eexists]; evaluate. Qed.

Lemma fallback_order_witness :
  (exists st r w',
     @NewSequentialFile Sample.debug Sample.src_only_env "/data/000123.sst"
        Sample.no_mmap Sample.src_only_world = Returns (st, r) w'
     /\ @resolved Sample.debug false Sample.src_only_env "/data/000123.sst"
          Sample.src_only_world st r w')
  /\ (exists st r w',
        @NewRandomAccessFile Sample.debug Sample.src_only_env "/data/000123.sst"
           Sample.no_mmap Sample.src_only_world = Returns (st, r) w'
        /\ @resolved Sample.debug false Sample.src_only_env "/data/000123.sst"
             Sample.src_only_world st r w').
Proof.
  apply (@fallback_order Sample.debug Sample.src_only_env "/data/000123.sst"
           Sample.no_mmap Sample.src_only_world).
  - right. split; [reflexivity |]. split.
    + intros Hdest. vm_compute in Hdest. discriminate Hdest.
    + intros _. split; [discriminate | vm_compute; reflexivity].
  - reflexivity.
  - vm_compute. reflexivity.
  - intros req. reflexivity.
  - intros o [Ho | Ho]; vm_compute in Ho; [discriminate Ho |].
    injection Ho as <-. discriminate.
Defined.

(** Present only in the source bucket and kept locally: the random
    open downloads the object and opens the local copy. *)
Example open_source_object_kept_locally :
  exists w',
    @NewRandomAccessFile Sample.debug
       (Sample.env Sample.acme_db1 Sample.no_bucket (Sample.options true 0))
       "/data/000123.sst" Sample.no_mmap Sample.src_only_world
    = Returns (OK, Some (LocalFile "/data/000123.sst")) w'
    /\ local_files w' !! "/data/000123.sst" = Some "0123456789abcdef"
    /\ s3_log w' = [GetObjectRequest "rockset.acme" "db1/000123.sst" None
                      (Some "/data/000123.sst.tmp")].
Proof. eexists. evaluate. Qed.

(** In none of the tiers: NotFound, after the source bucket was asked. *)
Example open_missing_file :
  exists w',
    @NewRandomAccessFile Sample.debug Sample.src_only_env "/data/000124.sst"
       Sample.no_mmap Sample.src_only_world
    = Returns (NotFound, None) w'
    /\ s3_log w' = [HeadObjectRequest "rockset.acme" "db1/000124.sst"].
Proof. eexists. evaluate. Qed.

(** ** The deletion thread *)

Section DeletionThread.
Context `{Externals}.










Lemma reachable_after_shutdown (env : AwsEnv) (w0 : World) (s : Sys) :
  reachable env w0 s -> reachable env w0 (after_shutdown env s).
Proof.
  intros Hs. unfold after_shutdown.
  destruct (delete_AwsEnv env (world s)) as [[] w' | why] eqn:Hrun;
    [| exact Hs].
  eapply reachable_step; [exact Hs | eapply step_shutdown; exact Hrun].
Qed.




End DeletionThread.


(** The thread ignores the status of the request: with nothing at
    the key the request comes back [NotFound], and the thread goes
    on to the next entry. *)
Example deletion_of_missing_object :
  let env := Sample.dest_only_env false 0 in
  let w := set_s3_fault Sample.delete_finds_nothing Sample.empty_world in
  let s := Sample.hour_later w in
  @DeletePathInS3 Sample.debug env "acme" "db1/000041.sst" w
  = Returns NotFound
      (told env kDeleteOp 0 2500 false
         (logged (DeleteObjectRequest "rockset.acme" "db1/000041.sst") w))
  /\ deleted s = [(3600000000, (0, "/data/000041.sst"))]
  /\ pc s = AtWait
  /\ pc (@after_worker Sample.debug env s) = AtWaitUntil (0, "/data/000042.sst").
Proof. cbv zeta. evaluate. Qed.

(** The environment is destroyed half an hour after the two calls:
    the thread leaves, nothing was sent, the second entry is still
    queued and both objects are still in the bucket. *)
Example shutdown_leaves_the_queue :
  let s := Sample.stopped_early Sample.two_files_world in
  pc s = Exited
  /\ deleted s = []
  /\ popped s = [(0, "/data/000041.sst")]
  /\ files_to_delete_ (world s) = [(0, "/data/000042.sst")]
  /\ S3Client.keys_after (s3_objects (world s)) "rockset.acme" "" ""
     = ["db1/000041.sst"; "db1/000042.sst"]
  /\ elements (dom (local_files (world s))) = [].
Proof. cbv zeta. evaluate. Qed.

(** Within the hour the thread stays blocked in the timed wait. *)
Example deletion_waits :
  let env := Sample.dest_only_env false 0 in
  let s := after_clock 3599999999 (Sample.first_taken Sample.two_files_world) in
  pc s = AtWaitUntil (0, "/data/000041.sst")
  /\ @worker_step Sample.debug env (pc s) (world s) = Returns None (world s)
  /\ @after_worker Sample.debug env s = s.
Proof. cbv zeta. evaluate. Qed.

(** * Further properties of the code *)

(** ** Reading objects and asking for them *)

(** ** Substrings *)

Lemma substring_length (a n : nat) (s : string) :
  String.length (String.substring a n s) = Nat.min n (String.length s - a).
Proof.
  revert a n. induction s as [| c s IH]; intros [| a] [| n]; cbn; try lia.
  - rewrite IH. lia.
  - rewrite IH. reflexivity.
  - rewrite IH. reflexivity.
Qed.

Lemma substring_all (n : nat) (s : string) :
  (String.length s <= n)%nat -> String.substring 0 n s = s.
Proof.
  revert n. induction s as [| c s IH]; intros [| n] Hle; cbn in *;
    try reflexivity; try lia.
  rewrite IH by lia. reflexivity.
Qed.

Lemma substring_substring (a n m : nat) (s : string) :
  String.substring 0 n (String.substring a m s)
  = String.substring a (Nat.min n m) s.
Proof.
  revert a n m. induction s as [| c s IH]; intros a n m.
  - destruct a, n, m; reflexivity.
  - destruct a as [| a].
    + destruct n as [| n], m as [| m]; cbn; try reflexivity.
      specialize (IH 0%nat n m). rewrite IH. reflexivity.
    + cbn. apply IH.
Qed.

Lemma substring_append (a n m : nat) (s : string) :
  String.substring a n s +:+ String.substring (a + n) m s
  = String.substring a (n + m) s.
Proof.
  revert a n m. induction s as [| c s IH]; intros a n m.
  - destruct a, n, m; reflexivity.
  - destruct a as [| a].
    + destruct n as [| n].
      * reflexivity.
      * cbn [String.substring Nat.add].
        change (String c (String.substring 0 n s +:+ String.substring (0 + n) m s)
                = String c (String.substring 0 (n + m) s)).
        rewrite IH. reflexivity.
    + cbn [String.substring Nat.add]. apply IH.
Qed.

(** ** Reading an object through a readable file *)

(** A ranged download that the service serves. *)
Lemma GetObject_range_run (env : AwsEnv) (b k : string) (r : ByteRange)
      (o : S3Object) (w : World) :
  let req := GetObjectRequest b k (Some r) None in
  s3_fault w req = None ->
  s3_objects w !! (b, k) = Some o ->
  0 <= range_first r <= range_last r ->
  range_first r < Z.of_nat (String.length (obj_body o)) ->
  let data := String.substring (Z.to_nat (range_first r))
                (Z.to_nat (range_last r - range_first r + 1)) (obj_body o) in
  AwsS3ClientWrapper.GetObject env b k (Some r) None w
  = Returns (inr {| S3Client.get_ContentLength := Z.of_nat (String.length data);
                    S3Client.get_Body := data |})
      (told env kReadOp (Z.of_nat (String.length data)) (s3_latency w req) true
         (logged req w)).
Proof.
  intros req Hfault Ho Hrange Hfirst data.
  unfold AwsS3ClientWrapper.GetObject, S3Client.GetObject, S3Client.send,
    AwsS3ClientWrapper.Timer_done.
  run. cbn. fold req. rewrite Hfault. run. cbn. rewrite Ho.
  unfold S3Client.slice.
  destruct (Z.ltb_spec (range_first r) 0); [lia |].
  destruct (Z.ltb_spec (range_last r) (range_first r)); [lia |].
  destruct (Z.leb_spec (Z.of_nat (String.length (obj_body o))) (range_first r));
    [lia |].
  cbn. run. cbn. rewrite S3ClientCallback_run. reflexivity.
Qed.

Section ReadingObjects.
Context `{Externals}.
Import S3ReadableFile.

(** A random-access read returns the bytes of the object from [offset]
    on, [n] of them or as many as there are. *)
Lemma Read_at_run (f : S3ReadableFile.t) (o : S3Object) (offset n : Z)
      (result0 : string) (w : World) :
  stands_for f o w ->
  (forall req, s3_fault w req = None) ->
  0 <= offset -> 0 <= n -> offset + n < 2 ^ 64 ->
  exists w',
    Read_at f offset n result0 w
    = Returns (OK, String.substring (Z.to_nat offset) (Z.to_nat n) (obj_body o)) w'
    /\ local_files w' = local_files w
    /\ s3_objects w' = s3_objects w
    /\ s3_fault w' = s3_fault w.
Proof.
  intros (Hst & Ho & Hsize & Hbound) Hfault Hoff Hn Hsum.
  unfold Read_at. rewrite Hst. cbn [ok negb].
  assert (Hcut : forall a k m s,
            (k <= m)%nat -> (String.length s - a <= k)%nat \/ k = m ->
            String.substring a k s = String.substring a m s).
  { clear. intros a k m s Hkm [Hshort | ->]; [| reflexivity].
    rewrite <- (substring_all k (String.substring a m s)).
    - rewrite substring_substring. f_equal. lia.
    - rewrite substring_length. lia. }
  destruct (Z.leb_spec (file_size_ f) offset) as [Hge | Hlt].
  - replace (String.substring (Z.to_nat offset) (Z.to_nat n) (obj_body o)) with "".
    + exists w. auto.
    + symmetry. apply length_zero. rewrite substring_length. lia.
  - rewrite (wrap64_small (offset + n)) by lia.
    set (n1 := if file_size_ f <? offset + n then wrap64 (file_size_ f - offset) else n).
    assert (Hn1 : n1 = Z.min n (file_size_ f - offset)).
    { subst n1. destruct (Z.ltb_spec (file_size_ f) (offset + n)).
      - rewrite wrap64_small by lia. lia.
      - lia. }
    set (len := if negb (n1 =? 0) then n1 else 1).
    assert (Hlen : len = Z.max n1 1).
    { subst len. destruct (Z.eqb_spec n1 0); cbn [negb]; lia. }
    rewrite (wrap64_small (offset + len - 1)) by lia.
    rewrite bind_run.
    rewrite (GetObject_range_run (env_ f) (s3_bucket_ f) (s3_object_ f) _ o w
               (Hfault _) Ho) by (cbn; lia).
    cbn [range_first range_last].
    replace (offset + len - 1 - offset + 1) with len by lia.
    cbn beta iota zeta. cbn [S3Client.get_Body].
    destruct (Z.eqb_spec n1 0) as [Hz | Hnz]; cbn [negb].
    + replace (String.substring (Z.to_nat offset) (Z.to_nat n) (obj_body o)) with "".
      * run. eexists. split; [reflexivity |]. autorewrite with world. auto.
      * symmetry. apply length_zero. rewrite substring_length. lia.
    + rewrite bind_run, assert_run by (right; apply Z.leb_le; lia).
      run. rewrite substring_length. replace len with n1 by lia.
      rewrite substring_substring.
      rewrite (Hcut (Z.to_nat offset) _ (Z.to_nat n) (obj_body o)) by lia.
      eexists. split; [reflexivity |]. autorewrite with world. auto.
Qed.


(** The sequential read: the bytes at the cursor, and the cursor
    behind them. *)
Lemma Read_run (f : S3ReadableFile.t) (o : S3Object) (n : Z)
      (result0 : string) (w : World) :
  stands_for f o w ->
  (forall req, s3_fault w req = None) ->
  0 <= offset_ f -> 0 <= n -> offset_ f + n < 2 ^ 64 ->
  let result := String.substring (Z.to_nat (offset_ f)) (Z.to_nat n) (obj_body o) in
  exists w',
    Read f n result0 w
    = Returns (OK, result,
               with_offset f (offset_ f + Z.of_nat (String.length result))) w'
    /\ local_files w' = local_files w
    /\ s3_objects w' = s3_objects w
    /\ s3_fault w' = s3_fault w.
Proof.
  intros Hf Hfault Hoff Hn Hsum result. unfold Read. rewrite bind_run.
  destruct (Read_at_run f o (offset_ f) n result0 w Hf Hfault Hoff Hn Hsum)
    as (w' & -> & Hframe).
  cbn [ok]. run. fold result.
  rewrite wrap64_small.
  - eauto.
  - subst result. rewrite substring_length. lia.
Qed.

(** X1.  Reading a readable file in two pieces returns the bytes that
    one read of the two lengths together returns, and leaves the
    cursor where that read leaves it: behind the last byte returned. *)
Theorem sequential_reads_concatenate (f : S3ReadableFile.t) (o : S3Object)
        (n1 n2 : Z) (result0 : string) (w : World) :
  stands_for f o w ->
  (forall req, s3_fault w req = None) ->
  0 <= offset_ f -> 0 <= n1 -> 0 <= n2 -> offset_ f + n1 + n2 < 2 ^ 64 ->
  exists r1 f1 w1 r2 f2 w2 w',
    Read f n1 result0 w = Returns (OK, r1, f1) w1
    /\ Read f1 n2 r1 w1 = Returns (OK, r2, f2) w2
    /\ Read f (n1 + n2) result0 w = Returns (OK, r1 +:+ r2, f2) w'
    /\ r1 +:+ r2
       = String.substring (Z.to_nat (offset_ f)) (Z.to_nat (n1 + n2)) (obj_body o)
    /\ offset_ f2 = offset_ f + Z.of_nat (String.length (r1 +:+ r2)).
Proof.
  intros Hf Hfault Hoff Hn1 Hn2 Hsum.
  destruct (Read_run f o n1 result0 w Hf Hfault Hoff Hn1 ltac:(lia))
    as (w1 & Hrun1 & _ & Hobjects & Hfault1).
  set (r1 := String.substring (Z.to_nat (offset_ f)) (Z.to_nat n1) (obj_body o)) in *.
  set (f1 := with_offset f (offset_ f + Z.of_nat (String.length r1))) in *.
  assert (Hlen1 : Z.of_nat (String.length r1) <= n1).
  { subst r1. rewrite substring_length. lia. }
  assert (Hf1 : stands_for f1 o w1).
  { destruct Hf as (? & ? & ? & ?). unfold stands_for. cbn. rewrite Hobjects. auto. }
  assert (Hfault1' : forall req, s3_fault w1 req = None).
  { intros req. rewrite Hfault1. apply Hfault. }
  destruct (Read_run f1 o n2 r1 w1 Hf1 Hfault1' ltac:(cbn; lia) Hn2 ltac:(cbn; lia))
    as (w2 & Hrun2 & _).
  destruct (Read_run f o (n1 + n2) result0 w Hf Hfault Hoff ltac:(lia) ltac:(lia))
    as (w' & Hrun & _).
  set (r2 := String.substring (Z.to_nat (offset_ f1)) (Z.to_nat n2) (obj_body o)) in *.
  assert (Hcat : r1 +:+ r2
                 = String.substring (Z.to_nat (offset_ f)) (Z.to_nat (n1 + n2))
                     (obj_body o)).
  { subst r1 r2. cbn [offset_ f1 with_offset].
    rewrite substring_length.
    destruct (Nat.le_gt_cases (Z.to_nat n1)
                (String.length (obj_body o) - Z.to_nat (offset_ f))) as [Hin | Hout].
    - replace (Z.to_nat (offset_ f + Z.of_nat (Z.to_nat n1 `min`
                 (String.length (obj_body o) - Z.to_nat (offset_ f)))))
        with (Z.to_nat (offset_ f) + Z.to_nat n1)%nat by lia.
      rewrite substring_append. f_equal. lia.
    - (* the first read reached the end of the object *)
      assert (Hcut : forall a k m s, (String.length s - a <= k)%nat -> (k <= m)%nat ->
                String.substring a k s = String.substring a m s).
      { clear. intros a k m s Hshort Hkm.
        rewrite <- (substring_all k (String.substring a m s)).
        - rewrite substring_substring. f_equal. lia.
        - rewrite substring_length. lia. }
      rewrite (Hcut _ (Z.to_nat n1) (Z.to_nat (n1 + n2))) by lia.
      replace (String.substring _ (Z.to_nat n2) (obj_body o)) with "".
      + clear. induction (String.substring _ _ _) as [| c s IH]; [reflexivity |].
        change (String c (s +:+ "") = String c s). rewrite IH. reflexivity.
      + symmetry. apply length_zero. rewrite substring_length. lia. }
  exists r1, f1, w1, r2,
    (with_offset f1 (offset_ f1 + Z.of_nat (String.length r2))), w2, w'.
  split; [exact Hrun1 |]. split; [exact Hrun2 |].
  assert (Hcursor : offset_ f1 + Z.of_nat (String.length r2)
                    = offset_ f + Z.of_nat (String.length (r1 +:+ r2))).
  { rewrite length_append. cbn [offset_ f1 with_offset]. lia. }
  split; [| split; [exact Hcat | cbn [offset_ with_offset]; exact Hcursor]].
  rewrite Hrun, <- Hcat. unfold with_offset. cbn [env_ fname_ offset_ file_size_
    last_mod_time_ is_file_ s3_bucket_ s3_object_ status_ f1].
  rewrite Hcursor. reflexivity.
Qed.

(** A file that failed to open returns its status to every read. *)
Lemma Read_of_failed_file (f : S3ReadableFile.t) (n : Z) (result0 : string)
      (w : World) :
  ok (status_ f) = false ->
  Read f n result0 w = Returns (status_ f, result0, f) w.
Proof.
  intros Hst. unfold Read, Read_at. rewrite Hst. cbn [negb]. run.
  rewrite Hst. reflexivity.
Qed.

(** X2.  [Skip] sends no request.  On a file whose status is not OK it
    returns that status and leaves the cursor where it is, and the
    read that follows returns the same status and nothing else.  On
    any other file it returns OK and moves the cursor to the smaller
    of [(offset + n) mod 2^64] and the file size: never beyond the end
    of the file, and backwards when the sum overflows.  On a file
    that stands for an object, when no request fails and
    [offset + n + m] stays below [2^64], the cursor is the smaller of
    [offset + n] and the file size, and the read of [m] bytes that
    follows returns the bytes of the object from [offset + n] on. *)
Theorem Skip_then_Read (f : S3ReadableFile.t) (o : S3Object) (n m : Z)
        (result0 : string) (w : World) :
  (ok (status_ f) = false ->
   Skip f n = (status_ f, f)
   /\ Read f m result0 w = Returns (status_ f, result0, f) w)
  /\ (ok (status_ f) = true ->
      exists f',
        Skip f n = (OK, f')
        /\ offset_ f' = Z.min (wrap64 (offset_ f + n)) (file_size_ f)
        /\ offset_ f' <= file_size_ f
        /\ file_size_ f' = file_size_ f
        /\ status_ f' = status_ f)
  /\ (stands_for f o w ->
      (forall req, s3_fault w req = None) ->
      0 <= offset_ f -> 0 <= n -> 0 <= m -> offset_ f + n + m < 2 ^ 64 ->
      exists f' f'' w',
        Skip f n = (OK, f')
        /\ offset_ f' = Z.min (offset_ f + n) (file_size_ f)
        /\ Read f' m result0 w
           = Returns (OK,
                      String.substring (Z.to_nat (offset_ f + n)) (Z.to_nat m)
                        (obj_body o),
                      f'') w').
Proof.
  split_all.
  - intros Hfailed. split.
    + unfold Skip. rewrite Hfailed. reflexivity.
    + apply Read_of_failed_file. exact Hfailed.
  - intros Hok. unfold Skip. rewrite Hok. cbn [negb]. cbv zeta.
    eexists. split; [reflexivity |]. cbn [offset_ file_size_ status_ with_offset].
    destruct (Z.ltb_spec (file_size_ f) (wrap64 (offset_ f + n)));
      split_all; first [reflexivity | lia].
  - intros Hf Hfault Hoff Hn Hm Hsum.
    pose proof Hf as (Hst & Ho & Hsize & Hbound).
    unfold Skip. rewrite Hst. cbn [ok negb].
    rewrite (wrap64_small (offset_ f + n)) by lia.
    set (off := if file_size_ f <? offset_ f + n then file_size_ f
                else offset_ f + n).
    assert (Hmin : off = Z.min (offset_ f + n) (file_size_ f)).
    { subst off. destruct (Z.ltb_spec (file_size_ f) (offset_ f + n)); lia. }
    assert (Hf' : stands_for (with_offset f off) o w).
    { unfold stands_for. cbn. auto. }
    destruct (Read_run (with_offset f off) o m result0 w Hf' Hfault
                ltac:(cbn; lia) Hm ltac:(cbn; lia)) as (w' & Hrun & _).
    cbn [offset_ with_offset] in Hrun.
    replace (String.substring (Z.to_nat off) (Z.to_nat m) (obj_body o))
      with (String.substring (Z.to_nat (offset_ f + n)) (Z.to_nat m) (obj_body o))
      in Hrun.
    + do 3 eexists. split; [reflexivity |]. split; [exact Hmin |].
      exact Hrun.
    + destruct (Z.le_gt_cases (offset_ f + n) (file_size_ f)).
      * replace off with (offset_ f + n) by lia. reflexivity.
      * transitivity "".
        -- apply length_zero. rewrite substring_length. lia.
        -- symmetry. apply length_zero. rewrite substring_length. lia.
Qed.


(** The readable object a constructor call builds, whatever the
    service answers. *)
Lemma S3ReadableFile_new_any (env : AwsEnv) (bucket_prefix key : string)
      (is_file : bool) (w : World) :
  NDEBUG = true \/ negb is_file || is_cloud_file key = true ->
  let req := HeadObjectRequest (GetBucket bucket_prefix) key in
  let found :=
    match s3_fault w req with
    | Some error => inl (if is_missing_object error then NotFound else IOError)
    | None =>
        match s3_objects w !! (GetBucket bucket_prefix, key) with
        | Some o => inr o
        | None => inl NotFound
        end
    end in
  S3ReadableFile.new env bucket_prefix key is_file w
  = Returns
      {| env_ := env; fname_ := key; offset_ := 0;
         file_size_ := match found with
                       | inr o => wrap64 (Z.of_nat (String.length (obj_body o)))
                       | inl _ => 0
                       end;
         last_mod_time_ := match found with
                           | inr o => wrap64 (obj_last_modified o)
                           | inl _ => 0
                           end;
         is_file_ := is_file;
         s3_bucket_ := GetBucket bucket_prefix; s3_object_ := key;
         status_ := match found with inr _ => OK | inl st => st end |}
      (told env kInfoOp 0 (s3_latency w req)
         (match found with inr _ => true | inl _ => false end) (logged req w)).
Proof.
  intros Hassert req found. unfold S3ReadableFile.new.
  rewrite bind_run, assert_run.
  2:{ destruct Hassert as [? | Hc]; [auto |]. right.
      unfold is_cloud_file in Hc.
      destruct is_file, (IsSstFile key), (IsManifestFile key),
        (IsIdentityFile key); cbn in *; auto. }
  unfold S3ReadableFile.GetFileInfo. run.
  cbn [env_ s3_bucket_ s3_object_].
  rewrite HeadObject_run. cbn zeta. fold req. subst found.
  destruct (s3_fault w req) as [error |]; cbn.
  - destruct (is_missing_object error); reflexivity.
  - destruct (s3_objects w !! (GetBucket bucket_prefix, key)) as [o |]; reflexivity.
Qed.


(** The probe of zero bytes that [PathExistsInS3] and
    [GetFileInfoInS3] send after the constructor: nothing for an empty
    object, and else a request for the first byte, which is dropped. *)
Lemma Read_probe (f : S3ReadableFile.t) (o : S3Object) (result0 : string)
      (w : World) :
  status_ f = OK -> offset_ f = 0 ->
  s3_objects w !! (s3_bucket_ f, s3_object_ f) = Some o ->
  file_size_ f = wrap64 (Z.of_nat (String.length (obj_body o))) ->
  (forall req, s3_fault w req = None) ->
  exists w' probe,
    Read f 0 result0 w = Returns (OK, "", with_offset f 0) w'
    /\ local_files w' = local_files w
    /\ s3_objects w' = s3_objects w
    /\ s3_fault w' = s3_fault w
    /\ s3_log w' = (probe ++ s3_log w)%list
    /\ (probe = []
        \/ probe = [GetObjectRequest (s3_bucket_ f) (s3_object_ f)
                      (Some {| range_first := 0; range_last := 0 |}) None]).
Proof.
  intros Hst Hoff Ho Hsize Hfault. unfold Read, Read_at.
  rewrite Hst, Hoff. cbn [ok negb]. rewrite bind_run.
  destruct (Z.leb_spec (file_size_ f) 0) as [Hempty | Hsome].
  - exists w, []. run. auto 10.
  - change (wrap64 (0 + 0)) with 0.
    destruct (Z.ltb_spec (file_size_ f) 0); [lia |].
    cbn [Z.eqb negb]. change (wrap64 (0 + 1 - 1)) with 0.
    assert (Hlen : 0 < Z.of_nat (String.length (obj_body o))).
    { destruct (String.length (obj_body o)); [| lia].
      rewrite Hsize in Hsome. vm_compute in Hsome. discriminate. }
    rewrite bind_run.
    rewrite (GetObject_range_run (env_ f) (s3_bucket_ f) (s3_object_ f) _ o w
               (Hfault _) Ho) by (cbn; lia).
    run. eexists. eexists [_].
    split; [reflexivity |]. autorewrite with world. auto 10.
Qed.

End ReadingObjects.

Section ObjectsExist.
Context `{Externals}.

(** X4.  [PathExistsInS3] answers OK when the bucket holds an object at
    the path and NotFound when it holds none; it asks for the head of
    the object and then at most once for its first byte, and changes
    neither the store nor the local files. *)
Theorem PathExistsInS3_tells (env : AwsEnv) (fname bucket : string)
        (isfile : bool) (w : World) :
  NDEBUG = true \/ (status env = OK /\ negb isfile || is_cloud_file fname = true) ->
  (forall req, s3_fault w req = None) ->
  exists w' probe,
    PathExistsInS3 env fname bucket isfile w
    = Returns (match s3_objects w !! (GetBucket bucket, fname) with
               | Some _ => OK
               | None => NotFound
               end) w'
    /\ local_files w' = local_files w
    /\ s3_objects w' = s3_objects w
    /\ s3_fault w' = s3_fault w
    /\ s3_log w'
       = (probe ++ HeadObjectRequest (GetBucket bucket) fname :: s3_log w)%list
    /\ (probe = []
        \/ probe = [GetObjectRequest (GetBucket bucket) fname
                      (Some {| range_first := 0; range_last := 0 |}) None]).
Proof.
  intros Hassert Hfault. unfold PathExistsInS3.
  rewrite bind_run, assert_run.
  2:{ destruct Hassert as [? | (-> & _)]; auto. }
  rewrite bind_run, S3ReadableFile_new_any.
  2:{ destruct Hassert as [? | (_ & ?)]; auto. }
  cbn zeta. rewrite Hfault.
  set (req := HeadObjectRequest (GetBucket bucket) fname).
  destruct (s3_objects w !! (GetBucket bucket, fname)) as [o |] eqn:Ho.
  - set (w1 := told env kInfoOp 0 (s3_latency w req) true (logged req w)).
    set (f := {| S3ReadableFile.env_ := env |}).
    destruct (Read_probe f o "" w1 eq_refl eq_refl) as
      (w' & probe & Hrun & Hfiles & Hobjects & Hfaults & Hlog & Hprobe).
    + subst w1. autorewrite with world. exact Ho.
    + reflexivity.
    + intros r. subst w1. autorewrite with world. apply Hfault.
    + rewrite bind_run, Hrun. run. exists w', probe.
      split; [reflexivity |]. rewrite Hfiles, Hobjects, Hfaults, Hlog.
      subst w1. autorewrite with world. auto 10.
  - rewrite bind_run, Read_of_failed_file by reflexivity. run.
    eexists. exists []. split; [reflexivity |].
    autorewrite with world. auto 10.
Qed.


(** What [GetFileInfoInS3] finds: the size and the modification time
    of the object, each only where the caller wants it. *)
Lemma GetFileInfoInS3_run (env : AwsEnv) (bucket_prefix key : string)
      (size modtime : option Z) (w : World) :
  NDEBUG = true \/ negb is_file_default || is_cloud_file key = true ->
  (forall req, s3_fault w req = None) ->
  exists w',
    GetFileInfoInS3 env bucket_prefix key size modtime w
    = Returns
        match s3_objects w !! (GetBucket bucket_prefix, key) with
        | Some o =>
            (OK,
             (fun _ : Z => wrap64 (Z.of_nat (String.length (obj_body o)))) <$> size,
             (fun _ : Z => wrap64 (obj_last_modified o)) <$> modtime)
        | None => (NotFound, (fun _ : Z => 0) <$> size, (fun _ : Z => 0) <$> modtime)
        end w'
    /\ local_files w' = local_files w
    /\ s3_objects w' = s3_objects w
    /\ s3_fault w' = s3_fault w.
Proof.
  intros Hassert Hfault. unfold GetFileInfoInS3.
  rewrite bind_run, S3ReadableFile_new_any by exact Hassert.
  cbn zeta. rewrite Hfault.
  set (req := HeadObjectRequest (GetBucket bucket_prefix) key).
  destruct (s3_objects w !! (GetBucket bucket_prefix, key)) as [o |] eqn:Ho.
  - set (w1 := told env kInfoOp 0 (s3_latency w req) true (logged req w)).
    set (f := {| S3ReadableFile.env_ := env |}).
    destruct (Read_probe f o "" w1 eq_refl eq_refl) as
      (w' & probe & Hrun & Hfiles & Hobjects & Hfaults & _).
    + subst w1. autorewrite with world. exact Ho.
    + reflexivity.
    + intros r. subst w1. autorewrite with world. apply Hfault.
    + rewrite bind_run, Hrun. run. exists w'.
      split.
      * destruct size, modtime; reflexivity.
      * rewrite Hfiles, Hobjects, Hfaults. subst w1. autorewrite with world. auto.
  - rewrite bind_run, Read_of_failed_file by reflexivity. run.
    eexists. split; [reflexivity |]. autorewrite with world. auto.
Qed.

(** X5.  For the name of an sst, manifest or identity file, [FileExists]
    answers OK when the file is on the local disk, in the destination
    bucket or in the source bucket, looked up in that order, and
    NotFound when it is in none of them. *)
Theorem FileExists_resolves (env : AwsEnv) (fname : string) (w : World) :
  probes_cleanly env fname ->
  is_cloud_file fname = true ->
  (forall req, s3_fault w req = None) ->
  exists w',
    FileExists env fname w
    = Returns (match resolve env fname w with
               | Some _ => OK
               | None => NotFound
               end) w'
    /\ local_files w' = local_files w
    /\ s3_objects w' = s3_objects w.
Proof.
  intros Hclean Hcloud Hfault. unfold FileExists.
  rewrite bind_run, assert_run.
  2:{ destruct Hclean as [? | (-> & _)]; auto. }
  rewrite bind_run, cloud_file_test_run, Hcloud.
  unfold BaseEnv.FileExists, resolve, dest_object, src_object. run.
  assert (Hsrc : forall st0 w1,
            ok st0 = false ->
            local_files w1 = local_files w -> s3_objects w1 = s3_objects w ->
            s3_fault w1 = s3_fault w ->
            exists w',
              (if negb (ok st0) && has_src_bucket_ env
               then srcname env fname
                      ≫= (fun cloud_name =>
                            PathExistsInS3 env cloud_name (GetSrcBucketPrefix env) true)
               else mret st0) w1
              = Returns (if has_src_bucket_ env
                         then match s3_objects w !! (GetBucket (GetSrcBucketPrefix env),
                                                     src_key env fname) with
                              | Some _ => OK
                              | None => NotFound
                              end
                         else st0) w'
              /\ local_files w' = local_files w
              /\ s3_objects w' = s3_objects w).
  { intros st0 w1 Hst0 Hfiles Hobjects Hfaults. rewrite Hst0. cbn [negb andb].
    destruct (has_src_bucket_ env) eqn:Hhas; [| exists w1; auto].
    rewrite bind_run, srcname_run.
    2:{ destruct Hclean as [? | (_ & _ & Hs)]; [auto |]. right. apply Hs; first [assumption | reflexivity]. }
    destruct (PathExistsInS3_tells env (src_key env fname) (GetSrcBucketPrefix env)
                true w1) as (w' & probe & -> & Hf & Ho & _).
    - destruct Hclean as [? | (? & _ & Hs)]; [auto |]. right.
      split; [assumption |]. apply Hs; first [assumption | reflexivity].
    - intros req. rewrite Hfaults. apply Hfault.
    - exists w'. rewrite Hobjects. split; [reflexivity |]. split; congruence. }
  destruct (local_files w !! fname) as [c |] eqn:Hlocal; cbn [IsNotFound andb].
  - run. cbn [ok negb andb]. run. eauto.
  - destruct (has_dest_bucket_ env) eqn:Hhas.
    + rewrite bind_run, destname_run.
      2:{ destruct Hclean as [? | (_ & Hd & _)]; [auto |]. right. apply Hd; first [assumption | reflexivity]. }
      cbn beta iota.
      destruct (PathExistsInS3_tells env (dest_key env fname) (GetDestBucketPrefix env)
                  true w) as (w1 & probe & -> & Hf & Ho & Hfl & _).
      * destruct Hclean as [? | (? & Hd & _)]; [auto |]. right.
        split; [assumption |]. apply Hd; first [assumption | reflexivity].
      * exact Hfault.
      * destruct (s3_objects w !! (GetBucket (GetDestBucketPrefix env),
                                   dest_key env fname)) as [o |].
        -- cbn [ok negb andb]. run. eauto.
        -- destruct (Hsrc NotFound w1 eq_refl Hf Ho Hfl) as (w' & -> & ?).
           exists w'. split; [| assumption].
           destruct (has_src_bucket_ env); [| reflexivity].
           destruct (s3_objects w !! _); reflexivity.
    + rewrite ret_run. cbn beta iota.
      destruct (Hsrc NotFound w eq_refl eq_refl eq_refl eq_refl) as (w' & -> & ?).
      exists w'. split; [| assumption].
      destruct (has_src_bucket_ env); [| reflexivity].
      destruct (s3_objects w !! _); reflexivity.
Qed.


(** X6.  For the name of an sst file, [GetFileSize] returns the size of
    the local file when there is one, else the length of the object in
    the destination bucket, else the length of the object in the
    source bucket, and NotFound with size 0 when the file is in none of
    the three. *)
Theorem GetFileSize_resolves (env : AwsEnv) (fname : string) (w : World) :
  opens_cleanly env fname ->
  IsSstFile fname = true ->
  (forall req, s3_fault w req = None) ->
  exists w',
    GetFileSize env fname w
    = Returns
        match local_files w !! fname with
        | Some c => (OK, Z.of_nat (String.length c))
        | None =>
            match dest_object env fname w with
            | Some o => (OK, wrap64 (Z.of_nat (String.length (obj_body o))))
            | None =>
                match src_object env fname w with
                | Some o => (OK, wrap64 (Z.of_nat (String.length (obj_body o))))
                | None => (NotFound, 0)
                end
            end
        end w'
    /\ local_files w' = local_files w
    /\ s3_objects w' = s3_objects w.
Proof.
  intros Hclean Hsst Hfault. unfold GetFileSize.
  rewrite bind_run, (opens_cleanly_status env fname w Hclean).
  unfold GetFileType, two_flags. rewrite Hsst. cbn [negb sstFile]. run.
  unfold BaseEnv.FileExists, BaseEnv.GetFileSize, dest_object, src_object. run.
  assert (Hsrc : forall w1,
            local_files w1 = local_files w -> s3_objects w1 = s3_objects w ->
            s3_fault w1 = s3_fault w ->
            exists w',
              (if IsNotFound NotFound && has_src_bucket_ env
               then srcname env fname
                      ≫= (fun cloud_name =>
                            GetFileInfoInS3 env (GetSrcBucketPrefix env) cloud_name
                              (Some 0) None
                            ≫= (fun '(st, size, _) => mret (st, default 0 size)))
               else mret (NotFound, 0)) w1
              = Returns
                  match (if has_src_bucket_ env
                         then s3_objects w !! (GetBucket (GetSrcBucketPrefix env),
                                               src_key env fname)
                         else None) with
                  | Some o => (OK, wrap64 (Z.of_nat (String.length (obj_body o))))
                  | None => (NotFound, 0)
                  end w'
              /\ local_files w' = local_files w
              /\ s3_objects w' = s3_objects w).
  { intros w1 Hfiles Hobjects Hfaults. cbn [IsNotFound andb].
    destruct (has_src_bucket_ env) eqn:Hhas; [| exists w1; auto].
    rewrite bind_run, srcname_run.
    2:{ destruct Hclean as [? | (_ & _ & Hs)]; [auto |]. right.
        apply Hs; first [assumption | reflexivity]. }
    cbn beta iota. rewrite bind_run.
    destruct (GetFileInfoInS3_run env (GetSrcBucketPrefix env) (src_key env fname)
                (Some 0) None w1) as (w' & -> & Hf & Ho & _).
    - apply (opens_cleanly_src env fname Hclean); first [assumption | reflexivity].
    - intros req. rewrite Hfaults. apply Hfault.
    - exists w'. rewrite Hobjects. split; [| split; congruence].
      destruct (s3_objects w !! _); reflexivity. }
  destruct (local_files w !! fname) as [c |] eqn:Hlocal; cbn [ok].
  - exists w. run. rewrite Hlocal. auto.
  - destruct (has_dest_bucket_ env) eqn:Hhas.
    + rewrite bind_run, bind_run, destname_run.
      2:{ destruct Hclean as [? | (_ & Hd & _)]; [auto |]. right.
          apply Hd; first [assumption | reflexivity]. }
      cbn beta iota. rewrite bind_run.
      destruct (GetFileInfoInS3_run env (GetDestBucketPrefix env) (dest_key env fname)
                  (Some 0) None w) as (w1 & -> & Hf & Ho & Hfl).
      * apply (opens_cleanly_dest env fname Hclean); first [assumption | reflexivity].
      * exact Hfault.
      * destruct (s3_objects w !! (GetBucket (GetDestBucketPrefix env),
                                   dest_key env fname)) as [o |].
        -- run. cbn [IsNotFound andb]. run. eauto.
        -- run. apply (Hsrc w1 Hf Ho Hfl).
    + rewrite bind_run. run. apply (Hsrc w eq_refl eq_refl eq_refl).
Qed.

(** X7.  [GetFileSize] and [GetFileModificationTime] take the name of a
    manifest or an identity file to the local environment only: for
    such a file that is in the destination bucket and not on the local
    disk, [FileExists] answers OK while the size and the modification
    time are refused, without a request to the service. *)
Theorem manifest_in_bucket_has_no_size (env : AwsEnv) (fname : string) (time : Z)
        (o : S3Object) (w : World) :
  probes_cleanly env fname ->
  IsSstFile fname = false ->
  IsLogFile fname = false ->
  is_cloud_file fname = true ->
  (forall req, s3_fault w req = None) ->
  local_files w !! fname = None ->
  dest_object env fname w = Some o ->
  (exists w', FileExists env fname w = Returns OK w')
  /\ (exists st size, GetFileSize env fname w = Returns (st, size) w
                      /\ ok st = false)
  /\ (exists st mtime, GetFileModificationTime env fname time w
                       = Returns (st, mtime) w
                       /\ ok st = false).
Proof.
  intros Hclean Hsst Hlog Hcloud Hfault Hlocal Hdest.
  assert (Hstatus : NDEBUG = true \/ ok (status env) = true).
  { destruct Hclean as [? | (-> & _)]; auto. }
  split; [| split].
  - destruct (FileExists_resolves env fname w Hclean Hcloud Hfault)
      as (w' & Hrun & _).
    exists w'. rewrite Hrun. unfold resolve. rewrite Hlocal, Hdest. reflexivity.
  - unfold GetFileSize. rewrite bind_run, assert_run by exact Hstatus.
    unfold GetFileType, two_flags. rewrite Hsst, Hlog. cbn [negb sstFile logFile].
    run. cbn [andb]. unfold BaseEnv.GetFileSize. run. rewrite Hlocal. eauto.
  - unfold GetFileModificationTime. rewrite bind_run, assert_run by exact Hstatus.
    unfold GetFileType, two_flags. rewrite Hsst, Hlog. cbn [negb sstFile logFile].
    run. cbn [andb]. unfold BaseEnv.GetFileModificationTime. run.
    rewrite Hlocal. eauto.
Qed.

(** X8.  Once [DeleteObject] has returned OK for a path, [ExistsObject]
    answers NotFound for it and [GetObjectSize] answers NotFound with
    size 0, and the objects at the other paths are as they were. *)
Theorem deleted_object_is_gone (env : AwsEnv) (bucket_prefix path : string)
        (filesize : Z) (w : World) :
  NDEBUG = true \/ (status env = OK /\ is_cloud_file path = true) ->
  (forall req, s3_fault w req = None) ->
  exists w1 w2 w3,
    DeleteObject env bucket_prefix path w = Returns OK w1
    /\ ExistsObject env bucket_prefix path w1 = Returns NotFound w2
    /\ GetObjectSize env bucket_prefix path filesize w1 = Returns (NotFound, 0) w3
    /\ s3_objects w1 = delete (GetBucket bucket_prefix, path) (s3_objects w)
    /\ s3_objects w2 = s3_objects w1
    /\ s3_objects w3 = s3_objects w1.
Proof.
  intros Hassert Hfault. unfold DeleteObject, ExistsObject, GetObjectSize.
  rewrite DeletePathInS3_run.
  2:{ destruct Hassert as [? | (? & _)]; auto. }
  cbn zeta. rewrite Hfault.
  set (w1 := told env kDeleteOp 0 _ true _).
  assert (Hobjects : s3_objects w1
                     = delete (GetBucket bucket_prefix, path) (s3_objects w)).
  { subst w1. autorewrite with world. reflexivity. }
  assert (Hfault1 : forall req, s3_fault w1 req = None).
  { intros req. subst w1. autorewrite with world. cbn. autorewrite with world.
    apply Hfault. }
  destruct (PathExistsInS3_tells env path bucket_prefix true w1)
    as (w2 & probe & Hexists & _ & Ho2 & _).
  { destruct Hassert as [? | (? & ?)]; auto. }
  { exact Hfault1. }
  destruct (GetFileInfoInS3_run env bucket_prefix path (Some filesize) None w1)
    as (w3 & Hinfo & _ & Ho3 & _).
  { destruct Hassert as [? | (_ & ->)]; [auto |]. right. apply orb_true_r. }
  { exact Hfault1. }
  rewrite Hobjects, lookup_delete_eq in Hexists, Hinfo.
  exists w1, w2, w3. split; [reflexivity |]. split; [exact Hexists |].
  split; [| auto]. rewrite bind_run, Hinfo. reflexivity.
Qed.

End ObjectsExist.

(** ** Closing and writing files *)

Section ClosingFiles.
Context `{Externals}.
Import S3WritableFile.

(** [Close] of an open file that is not a manifest, by the outcome of
    the upload. *)
Lemma Close_sst_run (f : t) (temp_file c : string) (w : World) :
  is_manifest_ f = false ->
  temp_file_ f = Some temp_file ->
  NDEBUG = true \/ (status_ f = OK /\ IsSstFile (fname_ f) = true) ->
  local_files w !! fname_ f = Some c ->
  c <> "" ->
  let put := PutObjectRequest (s3_bucket_ f) (s3_object_ f) c ∅ in
  let closed := with_temp_file f None in
  Close f w
  = match s3_fault w put with
    | Some e =>
        Returns (IOError, with_status closed IOError)
          (told (env_ f) kWriteOp (Z.of_nat (String.length c)) (s3_latency w put)
             false (logged put w))
    | None =>
        let w1 :=
          told (env_ f) kWriteOp (Z.of_nat (String.length c)) (s3_latency w put) true
            (set_s3_objects
               (<[(s3_bucket_ f, s3_object_ f) :=
                    {| obj_body := c; obj_metadata := ∅;
                       obj_last_modified := now_micros w / 1000 |}]> (s3_objects w))
               (logged put w)) in
        Returns (OK, with_status closed OK)
          (if keep_local_sst_files (cloud_env_options (env_ f)) then w1
           else set_local_files (delete (fname_ f) (local_files w)) w1)
    end.
Proof.
  intros Hman Htemp Hassert Hc Hne put closed.
  assert (Hlen : (Z.of_nat (String.length c) =? 0) = false).
  { apply Z.eqb_neq. rewrite length_zero. exact Hne. }
  unfold Close. rewrite Htemp, bind_run, assert_run.
  2:{ destruct Hassert as [? | (-> & _)]; auto. }
  unfold BaseEnv.Close, BaseEnv.GetFileSize. run. cbn [ok negb].
  run. cbn [fname_ with_status with_temp_file]. rewrite Hc.
  cbn [ok negb status_ with_status].
  cbn [is_manifest_ with_status with_temp_file]. rewrite Hman.
  rewrite bind_run, assert_run.
  2:{ destruct Hassert as [? | (_ & ->)]; auto. }
  cbn [fname_ env_ s3_bucket_ s3_object_ with_status with_temp_file].
  rewrite bind_run, CopyToS3_run, Hc, Hlen. cbn zeta. fold put.
  destruct (s3_fault w put) as [e |]; cbn [ok negb status_].
  - reflexivity.
  - cbn [env_]. destruct (keep_local_sst_files _); cbn [negb]; [reflexivity |].
    unfold BaseEnv.DeleteFile. run.
    autorewrite with world. cbn [local_files set_s3_objects].
    autorewrite with world. rewrite Hc. run. cbn [ok negb]. run.
    autorewrite with world. cbn [local_files set_s3_objects].
    autorewrite with world. reflexivity.
Qed.

(** X9.  Closing an open sst file uploads the whole local file to the
    object of the file, under a size hint of its length, and only
    then deletes the local file, unless the sst files are kept
    locally; when the upload fails the status is IOError and the
    local file stays.  Either way the file is closed. *)
Theorem Close_uploads_then_deletes (f : t) (temp_file c : string) (w : World) :
  is_manifest_ f = false ->
  temp_file_ f = Some temp_file ->
  NDEBUG = true \/ (status_ f = OK /\ IsSstFile (fname_ f) = true) ->
  local_files w !! fname_ f = Some c ->
  c <> "" ->
  let put := PutObjectRequest (s3_bucket_ f) (s3_object_ f) c ∅ in
  exists st f' w',
    Close f w = Returns (st, f') w'
    /\ temp_file_ f' = None
    /\ status_ f' = st
    /\ s3_log w' = put :: s3_log w
    /\ result_size (s3client_result_ w') = Z.of_nat (String.length c)
    /\ (s3_fault w put = None ->
        st = OK
        /\ s3_objects w' !! (s3_bucket_ f, s3_object_ f)
           = Some {| obj_body := c; obj_metadata := ∅;
                     obj_last_modified := now_micros w / 1000 |}
        /\ local_files w'
           = if keep_local_sst_files (cloud_env_options (env_ f))
             then local_files w
             else delete (fname_ f) (local_files w))
    /\ (is_Some (s3_fault w put) ->
        st = IOError
        /\ local_files w' = local_files w
        /\ s3_objects w' = s3_objects w).
Proof.
  intros Hman Htemp Hassert Hc Hne put.
  rewrite (Close_sst_run f temp_file c w Hman Htemp Hassert Hc Hne).
  cbn zeta. fold put.
  destruct (s3_fault w put) as [e |].
  - do 3 eexists. split; [reflexivity |].
    autorewrite with world.
    split; [reflexivity |]. split; [reflexivity |]. split; [reflexivity |].
    split; [reflexivity |]. split; [discriminate |]. intros _. auto.
  - assert (Hput : forall w1 : World,
              s3_objects w1
              = <[(s3_bucket_ f, s3_object_ f) :=
                    {| obj_body := c; obj_metadata := ∅;
                       obj_last_modified := now_micros w / 1000 |}]> (s3_objects w) ->
              s3_objects w1 !! (s3_bucket_ f, s3_object_ f)
              = Some {| obj_body := c; obj_metadata := ∅;
                        obj_last_modified := now_micros w / 1000 |}).
    { intros w1 ->. apply lookup_insert_eq. }
    destruct (keep_local_sst_files _); do 3 eexists; (split; [reflexivity |]).
    + autorewrite with world. cbn [s3_objects local_files set_s3_objects].
      autorewrite with world.
      split; [reflexivity |]. split; [reflexivity |]. split; [reflexivity |].
      split; [reflexivity |]. split; [| intros [? [=]]].
      intros _. split; [reflexivity |]. split; [| reflexivity].
      apply lookup_insert_eq.
    + cbn [s3_log s3client_result_ s3_objects local_files set_local_files].
      autorewrite with world. cbn [s3_objects local_files set_s3_objects].
      autorewrite with world.
      split; [reflexivity |]. split; [reflexivity |]. split; [reflexivity |].
      split; [reflexivity |]. split; [| intros [? [=]]].
      intros _. split; [reflexivity |]. split; [| reflexivity].
      apply lookup_insert_eq.
Qed.


(** X10.  When the local file closes with success, as it always does
    in the local environment modelled here, the file that [Close]
    leaves is closed and holds the status returned, whatever the
    upload and the deletion of the local file did: a second [Close]
    returns that status again and does nothing, and the destructor
    has nothing left to close.  (A local close that fails makes the
    code return with the file still open; the local environment
    modelled has no such close.) *)
Theorem Close_twice (f f' : t) (st : Status) (w w' : World) :
  (forall temp_file,
     temp_file_ f = Some temp_file ->
     exists w1, BaseEnv.Close temp_file w = Returns OK w1) ->
  Close f w = Returns (st, f') w' ->
  temp_file_ f' = None
  /\ status_ f' = st
  /\ forall w2, Close f' w2 = Returns (st, f') w2.
Proof.
  intros Hlocal Hrun.
  enough (Hclosed : temp_file_ f' = None /\ status_ f' = st).
  { destruct Hclosed as [Hnone Hst]. split; [exact Hnone |].
    split; [exact Hst |]. intros w2. unfold Close. rewrite Hnone, Hst.
    reflexivity. }
  revert Hrun. unfold Close.
  destruct (temp_file_ f) as [temp_file |] eqn:Htemp.
  2:{ intros [= <- <- <-]. auto. }
  rewrite bind_run. unfold assert_.
  destruct (NDEBUG || ok (status_ f)); [| discriminate].
  destruct (Hlocal temp_file eq_refl) as [w1 Hclose].
  run. rewrite Hclose. clear Hclose. revert w1.
  unfold BaseEnv.GetFileSize. intros w1. run. cbn [ok negb]. run.
  cbn [fname_ with_status with_temp_file].
  destruct (local_files w1 !! fname_ f) as [c |];
    cbn [ok negb status_ with_status].
  2:{ intros [= <- <- <-]. auto. }
  cbn [is_manifest_ with_status with_temp_file].
  destruct (is_manifest_ f).
  - rewrite bind_run.
    destruct (CopyManifestToS3 _ _ _ _) as [[st1 f1] w2 |] eqn:Hcopy;
      [| discriminate].
    intros [= <- <- <-]. split; [| reflexivity].
    revert Hcopy. unfold CopyManifestToS3. run.
    destruct (_ && _).
    + rewrite bind_run. destruct (CopyToS3 _ _ _ _ _ _) as [st2 w3 |]; [| discriminate].
      destruct (ok st2); run; intros [= <- <- <-]; reflexivity.
    + intros [= <- <- <-]. reflexivity.
  - rewrite bind_run. destruct (NDEBUG || IsSstFile (fname_ f)); [| discriminate].
    run. cbn [fname_ env_ s3_bucket_ s3_object_ with_status with_temp_file].
    destruct (CopyToS3 _ _ _ _ _ _) as [st1 w2 |]; [| discriminate].
    cbn [status_ with_status].
    destruct st1; cbn [ok negb]; try (intros [= <- <- <-]; auto).
    cbn [env_ with_status with_temp_file].
    destruct (keep_local_sst_files _); cbn [negb]; [intros [= <- <- <-]; auto |].
    run. destruct (BaseEnv.DeleteFile _ _) as [st2 w3 |]; [| discriminate].
    cbn [status_ with_status].
    destruct st2; cbn [ok negb]; intros [= <- <- <-]; auto.
Qed.

(** A download that the service serves from a non-empty object. *)
Lemma CopyFromS3_copies (env : AwsEnv) (bucket key destination : string)
      (o : S3Object) (w : World) :
  let req := GetObjectRequest bucket key None (Some (destination +:+ ".tmp")) in
  s3_fault w req = None ->
  s3_objects w !! (bucket, key) = Some o ->
  obj_body o <> "" ->
  CopyFromS3 env bucket key destination w
  = Returns OK
      (set_local_files
         (<[destination := obj_body o]>
            (delete (destination +:+ ".tmp")
               (<[destination +:+ ".tmp" := obj_body o]> (local_files w))))
         (told env kReadOp (Z.of_nat (String.length (obj_body o)))
            (s3_latency w req) true
            (set_local_files
               (<[destination +:+ ".tmp" := obj_body o]> (local_files w))
               (logged req w)))).
Proof.
  intros req Hfault Ho Hne.
  assert (Hlen : (Z.of_nat (String.length (obj_body o)) =? 0) = false).
  { apply Z.eqb_neq. rewrite length_zero. exact Hne. }
  unfold CopyFromS3. rewrite bind_run, GetObject_to_file_run. cbn zeta.
  fold req. rewrite Hfault, Ho.
  unfold BaseEnv.GetFileSize, BaseEnv.RenameFile. run.
  autorewrite with world. cbn [local_files set_local_files].
  autorewrite with world.
  rewrite lookup_insert_eq, Hlen. cbn [ok]. run.
  autorewrite with world. cbn [local_files set_local_files].
  autorewrite with world.
  rewrite lookup_insert_eq. run.
  autorewrite with world. cbn [local_files set_local_files].
  autorewrite with world. reflexivity.
Qed.

(** X11.  A local file that [CopyToS3] uploaded with success comes back
    byte for byte when [CopyFromS3] downloads the object to a path, and
    the temporary file of the download is gone. *)
Theorem upload_download_round_trip (env : AwsEnv)
        (fname bucket key destination : string) (size_hint : Z) (c : string)
        (w : World) :
  local_files w !! fname = Some c ->
  c <> "" ->
  (forall req, s3_fault w req = None) ->
  exists w1 w2,
    CopyToS3 env fname bucket key size_hint w = Returns OK w1
    /\ CopyFromS3 env bucket key destination w1 = Returns OK w2
    /\ local_files w2 !! destination = Some c
    /\ local_files w2 !! (destination +:+ ".tmp") = None
    /\ s3_objects w2 !! (bucket, key)
       = Some {| obj_body := c; obj_metadata := ∅;
                 obj_last_modified := now_micros w / 1000 |}.
Proof.
  intros Hc Hne Hfault.
  assert (Hlen : (Z.of_nat (String.length c) =? 0) = false).
  { apply Z.eqb_neq. rewrite length_zero. exact Hne. }
  set (put := PutObjectRequest bucket key c ∅).
  set (w1 := told env kWriteOp size_hint (s3_latency w put) true
               (set_s3_objects
                  (<[(bucket, key) := {| obj_body := c; obj_metadata := ∅;
                                         obj_last_modified := now_micros w / 1000 |}]>
                     (s3_objects w))
                  (logged put w))).
  assert (Hup : CopyToS3 env fname bucket key size_hint w = Returns OK w1).
  { rewrite CopyToS3_run, Hc, Hlen. cbn zeta. rewrite Hfault. reflexivity. }
  assert (Ho : s3_objects w1 !! (bucket, key)
               = Some {| obj_body := c; obj_metadata := ∅;
                         obj_last_modified := now_micros w / 1000 |}).
  { subst w1. autorewrite with world. cbn. apply lookup_insert_eq. }
  assert (Hf1 : s3_fault w1 (GetObjectRequest bucket key None
                               (Some (destination +:+ ".tmp"))) = None).
  { subst w1. autorewrite with world. cbn. autorewrite with world. apply Hfault. }
  exists w1. eexists. split; [exact Hup |].
  split; [exact (CopyFromS3_copies env bucket key destination _ w1 Hf1 Ho Hne) |].
  cbn [local_files s3_objects set_local_files].
  autorewrite with world. cbn [local_files s3_objects set_local_files].
  autorewrite with world.
  split; [apply lookup_insert_eq |]. split; [| exact Ho].
  rewrite lookup_insert_ne by (intros Heq; symmetry in Heq;
                               exact (tmp_name_differs _ Heq)).
  apply lookup_delete_eq.
Qed.

End ClosingFiles.

Section WritingFiles.
Context `{Externals}.

(** X12.  With a destination bucket, [NewWritableFile] for an sst file
    creates the local file and sends nothing; what is then appended to
    the local file reaches the bucket when the file is closed, as the
    object named after the file under the destination prefix, and the
    local file stays only if the sst files are kept locally. *)
Theorem written_sst_reaches_bucket (env : AwsEnv) (fname data : string)
        (options : EnvOptions) (w : World) :
  NDEBUG = true \/ (status env = OK /\ dest_bucket_prefix_ env <> "") ->
  has_dest_bucket_ env = true ->
  IsSstFile fname = true ->
  IsManifestFile fname = false ->
  data <> "" ->
  (forall req, s3_fault w req = None) ->
  exists f f' w1 w2 w3,
    NewWritableFile env fname options w = Returns (OK, Some (S3Writable f)) w1
    /\ s3_log w1 = s3_log w
    /\ local_files w1 !! fname = Some ""
    /\ BaseEnv.Append fname data w1 = Returns OK w2
    /\ S3WritableFile.Close f w2 = Returns (OK, f') w3
    /\ s3_objects w3 !! (GetBucket (GetDestBucketPrefix env), dest_key env fname)
       = Some {| obj_body := data; obj_metadata := ∅;
                 obj_last_modified := now_micros w / 1000 |}
    /\ local_files w3 !! fname
       = if keep_local_sst_files (cloud_env_options env) then Some data else None.
Proof.
  intros Hassert Hdest Hsst Hman Hne Hfault.
  assert (Hstatus : NDEBUG = true \/ ok (status env) = true).
  { destruct Hassert as [? | (-> & _)]; auto. }
  set (f := {| S3WritableFile.env_ := env;
               S3WritableFile.fname_ := fname;
               S3WritableFile.temp_file_ := Some fname;
               S3WritableFile.s3_bucket_ := GetBucket (GetDestBucketPrefix env);
               S3WritableFile.s3_object_ := dest_key env fname;
               S3WritableFile.status_ := OK;
               S3WritableFile.is_manifest_ := false;
               S3WritableFile.manifest_durable_periodicity_millis_ :=
                 manifest_durable_periodicity_millis (cloud_env_options env);
               S3WritableFile.manifest_last_sync_time_ := 0 |}).
  set (w1 := set_local_files (<[fname := ""]> (local_files w)) w).
  set (w2 := set_local_files (<[fname := data]> (local_files w1)) w1).
  assert (Hopen : NewWritableFile env fname options w
                  = Returns (OK, Some (S3Writable f)) w1).
  { unfold NewWritableFile. rewrite bind_run, assert_run by exact Hstatus.
    rewrite Hdest. unfold GetFileType, four_flags, or_else.
    rewrite Hsst. cbn [negb sstFile manifest identity var]. run.
    rewrite destname_run.
    2:{ destruct Hassert as [? | (_ & ?)]; auto. }
    unfold S3WritableFile.new.
    rewrite bind_run, bind_run, assert_run by (right; rewrite Hsst; reflexivity).
    unfold BaseEnv.NewWritableFile. run. rewrite Hman. reflexivity. }
  assert (Happend : BaseEnv.Append fname data w1 = Returns OK w2).
  { unfold BaseEnv.Append. run. subst w1. cbn [local_files set_local_files].
    rewrite lookup_insert_eq. run. reflexivity. }
  assert (Hfile : local_files w2 !! fname = Some data).
  { subst w2. cbn [local_files set_local_files]. apply lookup_insert_eq. }
  pose proof (Close_sst_run f fname data w2 eq_refl eq_refl) as Hclose.
  cbn [S3WritableFile.fname_ S3WritableFile.status_ f] in Hclose.
  specialize (Hclose ltac:(destruct Hassert as [? | _]; auto) Hfile Hne).
  cbn zeta in Hclose.
  rewrite (Hfault _ : s3_fault w2 _ = None) in Hclose.
  do 5 eexists. split; [exact Hopen |]. split; [reflexivity |].
  split; [apply lookup_insert_eq |]. split; [exact Happend |].
  split; [exact Hclose |].
  cbn [S3WritableFile.env_ S3WritableFile.s3_bucket_ S3WritableFile.s3_object_
       S3WritableFile.fname_ f].
  destruct (keep_local_sst_files _).
  - autorewrite with world. cbn [s3_objects local_files set_s3_objects].
    autorewrite with world. split; [apply lookup_insert_eq | exact Hfile].
  - cbn [s3_objects local_files set_local_files].
    autorewrite with world. cbn [s3_objects local_files set_s3_objects].
    autorewrite with world. split; [apply lookup_insert_eq | apply lookup_delete_eq].
Qed.


(** X13.  [NewWritableFile] for a manifest: with a periodicity of 0 or
    less the file is a plain file of the local environment; with a
    destination bucket and a periodicity above 0 it is a
    writable S3 file on the object "MANIFEST" under the destination
    name of the directory of the file, never uploaded so far.  Either
    way the local file is created empty and no request is sent. *)
Theorem NewWritableFile_manifest (env : AwsEnv) (fname : string)
        (options : EnvOptions) (w : World) :
  NDEBUG = true \/ (status env = OK /\ dest_bucket_prefix_ env <> "") ->
  IsSstFile fname = false ->
  IsManifestFile fname = true ->
  IsIdentityFile fname = false ->
  IsLogFile fname = false \/ keep_local_log_files (cloud_env_options env) = true ->
  let periodicity := manifest_durable_periodicity_millis (cloud_env_options env) in
  let w1 := set_local_files (<[fname := ""]> (local_files w)) w in
  (periodicity <= 0 ->
   NewWritableFile env fname options w
   = Returns (OK, Some (LocalWritable fname)) w1)
  /\ (0 < periodicity -> has_dest_bucket_ env = true ->
      NewWritableFile env fname options w
      = Returns
          (OK,
           Some (S3Writable
                   {| S3WritableFile.env_ := env;
                      S3WritableFile.fname_ := fname;
                      S3WritableFile.temp_file_ := Some fname;
                      S3WritableFile.s3_bucket_ := GetBucket (GetDestBucketPrefix env);
                      S3WritableFile.s3_object_ :=
                        dest_key env (dirname fname) +:+ "/MANIFEST";
                      S3WritableFile.status_ := OK;
                      S3WritableFile.is_manifest_ := true;
                      S3WritableFile.manifest_durable_periodicity_millis_ :=
                        periodicity;
                      S3WritableFile.manifest_last_sync_time_ := 0 |})) w1).
Proof.
  intros Hassert Hsst Hman Hid Hlog periodicity w1.
  assert (Hstatus : NDEBUG = true \/ ok (status env) = true).
  { destruct Hassert as [? | (-> & _)]; auto. }
  split.
  - intros Hzero. unfold NewWritableFile.
    rewrite bind_run, assert_run by exact Hstatus.
    unfold GetFileType, four_flags, or_else.
    rewrite Hsst, Hman, Hid. cbn [negb sstFile logFile manifest identity var].
    fold periodicity.
    destruct (Z.ltb_spec 0 periodicity); [lia |].
    assert (Hlocal : IsLogFile fname
                     && negb (keep_local_log_files (cloud_env_options env)) = false).
    { destruct Hlog as [-> | ->]; [reflexivity | apply andb_false_r]. }
    destruct (has_dest_bucket_ env); run; cbn [andb]; run.
    all: rewrite Hlocal; run; unfold BaseEnv.NewWritableFile; run; reflexivity.
  - intros Hpos Hdest. unfold NewWritableFile.
    rewrite bind_run, assert_run by exact Hstatus.
    rewrite Hdest. unfold GetFileType, four_flags, or_else.
    rewrite Hsst, Hman, Hid. cbn [negb sstFile logFile manifest identity var].
    fold periodicity.
    destruct (Z.ltb_spec 0 periodicity); [| lia].
    run. cbn [andb]. run. rewrite destname_run.
    2:{ destruct Hassert as [? | (_ & ?)]; auto. }
    unfold S3WritableFile.new.
    rewrite bind_run, bind_run, assert_run
      by (right; rewrite Hman; apply orb_true_r).
    unfold BaseEnv.NewWritableFile. run. rewrite Hman. reflexivity.
Qed.

End WritingFiles.

(** ** Listings *)

(** ** The order of the keys *)

Lemma ltb_le_ne (m x : string) :
  String.ltb m x = true <-> String.le m x /\ m <> x.
Proof.
  unfold String.le, String.leb, String.ltb.
  destruct (String.compare m x) eqn:Hcmp; cbn.
  - apply String.compare_eq_iff in Hcmp. subst. split; [discriminate | tauto].
  - split; [| reflexivity]. intros _. split; [exact I |].
    intros ->. pose proof (String.compare_antisym x x) as Hanti.
    rewrite Hcmp in Hanti. discriminate.
  - split; [discriminate | tauto].
Qed.

Lemma le_empty (x : string) : String.le x "" -> x = "".
Proof. destruct x; [reflexivity |]. cbn. tauto. Qed.

(** A map that is injective where it is defined keeps a list free of
    duplicates. *)
Lemma NoDup_omap_inj {A B : Type} (f : A -> option B) (l : list A) :
  (forall y1 y2 x, f y1 = Some x -> f y2 = Some x -> y1 = y2) ->
  NoDup l -> NoDup (omap f l).
Proof.
  intros Hinj. induction 1 as [| y l Hnotin _ IH]; cbn; [constructor |].
  destruct (f y) as [x |] eqn:Hy; [| exact IH].
  constructor; [| exact IH].
  intros (y' & Hin & Hy')%list_elem_of_omap.
  rewrite (Hinj y y' x Hy Hy') in Hnotin. contradiction.
Qed.

Section Keys.
Variables (objects : gmap (string * string) S3Object) (bucket pfx : string).

Lemma elem_of_keys_after (marker x : string) :
  x ∈ S3Client.keys_after objects bucket pfx marker
  <-> is_Some (objects !! (bucket, x))
      /\ String.prefix pfx x = true
      /\ (marker = "" \/ String.ltb marker x = true).
Proof.
  unfold S3Client.keys_after. rewrite merge_sort_Permutation, list_elem_of_omap.
  split.
  - intros ([b k] & Hin & Hsome). cbn in Hsome.
    apply list_elem_of_fmap in Hin as ([bk o] & Heq & Hin). cbn in Heq. subst bk.
    apply elem_of_map_to_list in Hin.
    destruct (bool_decide (b = bucket)) eqn:Hb; [| discriminate].
    apply bool_decide_eq_true in Hb. subst b.
    destruct (String.prefix pfx k) eqn:Hp; [| discriminate].
    destruct (bool_decide (marker = "")) eqn:Hm.
    + apply bool_decide_eq_true in Hm. injection Hsome as <-. eauto.
    + destruct (String.ltb marker k) eqn:Hlt; [| discriminate].
      injection Hsome as <-. eauto.
  - intros ([o Ho] & Hp & Hm). exists (bucket, x). split.
    + apply list_elem_of_fmap. exists (bucket, x, o). split; [reflexivity |].
      apply elem_of_map_to_list. exact Ho.
    + cbn. rewrite bool_decide_eq_true_2 by reflexivity. rewrite Hp. cbn.
      destruct Hm as [-> | ->]; [reflexivity | rewrite orb_true_r; reflexivity].
Qed.

Lemma NoDup_keys_after (marker : string) :
  NoDup (S3Client.keys_after objects bucket pfx marker).
Proof.
  unfold S3Client.keys_after. rewrite merge_sort_Permutation.
  apply NoDup_omap_inj; [| apply NoDup_fst_map_to_list].
  intros [b1 k1] [b2 k2] x. cbn.
  destruct (bool_decide (b1 = bucket)) eqn:Hb1; [| discriminate].
  destruct (bool_decide (b2 = bucket)) eqn:Hb2; [| cbn; discriminate].
  apply bool_decide_eq_true in Hb1, Hb2. subst.
  destruct (_ && _); [| discriminate]. destruct (_ && _); [| discriminate].
  congruence.
Qed.

Lemma Sorted_keys_after (marker : string) :
  StronglySorted String.le (S3Client.keys_after objects bucket pfx marker).
Proof. apply StronglySorted_merge_sort; apply _. Qed.

Lemma length_keys_after (marker : string) :
  (length (S3Client.keys_after objects bucket pfx marker) <= size objects)%nat.
Proof.
  unfold S3Client.keys_after.
  rewrite merge_sort_Permutation, <- length_map_to_list.
  rewrite <- (length_fmap fst (map_to_list objects)).
  generalize ((map_to_list objects).*1). intros l.
  induction l as [| y l IH]; cbn; [lia |].
  destruct (_ && _); cbn; lia.
Qed.

(** The keys behind the key at position [k]: the listing that takes
    that key for its marker. *)
Lemma keys_after_marker (k : nat) (marker : string) :
  let all := S3Client.keys_after objects bucket pfx "" in
  all !! k = Some marker -> marker <> "" ->
  S3Client.keys_after objects bucket pfx marker = drop (S k) all.
Proof.
  intros all Hk Hne.
  assert (Hsorted := Sorted_keys_after "" : StronglySorted String.le all).
  assert (Hnodup := NoDup_keys_after "" : NoDup all).
  assert (Hsplit : all = ((take k all ++ [marker]) ++ drop (S k) all)%list).
  { rewrite <- (take_drop (S k) all) at 1. f_equal.
    rewrite (take_S_r _ _ _ Hk). reflexivity. }
  apply (Sorted_unique String.le).
  - apply StronglySorted_Sorted, Sorted_keys_after.
  - apply StronglySorted_Sorted.
    rewrite Hsplit in Hsorted. apply StronglySorted_app_1_r in Hsorted. exact Hsorted.
  - apply NoDup_Permutation.
    + apply NoDup_keys_after.
    + rewrite Hsplit in Hnodup. apply NoDup_app in Hnodup. tauto.
    + intros x. rewrite elem_of_keys_after. split.
      * intros (Hin & Hp & [-> | Hlt]); [contradiction |].
        assert (Hall : x ∈ all).
        { apply elem_of_keys_after. auto. }
        rewrite Hsplit in Hall.
        apply elem_of_app in Hall as [Hhead | Htail]; [| exact Htail].
        exfalso. apply ltb_le_ne in Hlt as [Hle Hdiff].
        apply elem_of_app in Hhead as [Hbefore | ->%list_elem_of_singleton];
          [| congruence].
        rewrite Hsplit in Hsorted.
        apply StronglySorted_app_1_l in Hsorted.
        pose proof (StronglySorted_app_1_elem_of _ _ _ x marker Hsorted Hbefore
                      ltac:(apply list_elem_of_singleton; reflexivity)) as Hxm.
        apply Hdiff. apply (anti_symm String.le); assumption.
      * intros Hin.
        assert (Hall : x ∈ all).
        { rewrite Hsplit. apply elem_of_app. auto. }
        apply elem_of_keys_after in Hall as (Hsome & Hp & _).
        split; [exact Hsome |]. split; [exact Hp |]. right.
        apply ltb_le_ne. split.
        -- rewrite Hsplit in Hsorted.
           apply (StronglySorted_app_1_elem_of _ _ _ marker x Hsorted);
             [apply elem_of_app; right; apply list_elem_of_singleton; reflexivity
             | exact Hin].
        -- intros <-. rewrite Hsplit in Hnodup.
           apply NoDup_app in Hnodup as (_ & Hdisjoint & _).
           apply (Hdisjoint marker);
             [apply elem_of_app; right; apply list_elem_of_singleton; reflexivity
             | exact Hin].
Qed.

(** No key but the first is the empty string. *)
Lemma later_key_not_empty (k : nat) (marker : string) :
  S3Client.keys_after objects bucket pfx "" !! S k = Some marker -> marker <> "".
Proof.
  set (all := S3Client.keys_after objects bucket pfx "").
  intros Hk ->.
  assert (Hsorted := Sorted_keys_after "" : StronglySorted String.le all).
  assert (Hnodup := NoDup_keys_after "" : NoDup all).
  destruct all as [| first rest]; [discriminate |]. cbn in Hk.
  apply StronglySorted_inv in Hsorted as [_ Hall].
  apply list_elem_of_lookup_2 in Hk.
  rewrite Forall_forall in Hall. specialize (Hall "" Hk).
  apply le_empty in Hall. subst first.
  apply NoDup_cons in Hnodup as [Hnotin _]. contradiction.
Qed.

End Keys.

Lemma prefix_append (p k : string) :
  String.prefix p k = true -> exists rest, k = p +:+ rest.
Proof.
  revert k. induction p as [| c p IH]; intros k Hp.
  - exists k. reflexivity.
  - destruct k as [| c' k]; [discriminate |]. cbn in Hp.
    destruct (Ascii.ascii_dec c c') as [<- |]; [| discriminate].
    destruct (IH k Hp) as (rest & ->). exists rest. reflexivity.
Qed.

Lemma prefix_of_append (p rest : string) : String.prefix p (p +:+ rest) = true.
Proof.
  induction p as [| c p IH]; [destruct rest; reflexivity |].
  change (String.prefix (String c p) (String c (p +:+ rest)) = true).
  cbn. destruct (Ascii.ascii_dec c c); [exact IH | contradiction].
Qed.

Lemma prefix_refl (s : string) : String.prefix s s = true.
Proof.
  induction s as [| c s IH]; [reflexivity |].
  cbn. destruct (Ascii.ascii_dec c c); [exact IH | contradiction].
Qed.

Lemma append_assoc (a b c : string) : (a +:+ b) +:+ c = a +:+ (b +:+ c).
Proof.
  induction a as [| x a IH]; [reflexivity |].
  change (String x ((a +:+ b) +:+ c) = String x (a +:+ (b +:+ c))).
  rewrite IH. reflexivity.
Qed.

(** ** Listing a bucket *)

Lemma ListObjects_run (env : AwsEnv) (b p m : string) (w : World) :
  let req := ListObjectsRequest b p m 50 in
  let keys := S3Client.keys_after (s3_objects w) b p m in
  AwsS3ClientWrapper.ListObjects env b p m 50 w
  = match s3_fault w req with
    | Some e => Returns (inl e) (told env kListOp 0 (s3_latency w req) false (logged req w))
    | None =>
        Returns (inr {| S3Client.list_Contents := take 50 keys;
                        S3Client.list_IsTruncated := bool_decide (50 < length keys)%nat;
                        S3Client.list_NextMarker := "" |})
          (told env kListOp 0 (s3_latency w req) true (logged req w))
    end.
Proof.
  intros req keys.
  unfold AwsS3ClientWrapper.ListObjects, S3Client.ListObjects, S3Client.send,
    AwsS3ClientWrapper.Timer_done.
  run. cbn. fold req.
  destruct (s3_fault w req); run; rewrite S3ClientCallback_run; reflexivity.
Qed.

Section Listing.
Context `{Externals}.

Lemma push_children_run (path : string) (objs result : list string) (w : World) :
  Forall (fun x => String.prefix path x = true) objs ->
  push_children path objs result w = Returns ((result ++ objs)%list, true) w.
Proof.
  intros Hall. revert result. induction Hall as [| x objs Hx _ IH]; intros result.
  - cbn. rewrite app_nil_r. reflexivity.
  - cbn [push_children]. rewrite bind_run, assert_run by (right; exact Hx).
    rewrite Hx. cbn [negb]. rewrite IH, <- app_assoc. reflexivity.
Qed.

(** The pages of a listing, from the one behind the first [k] keys on,
    hold the keys behind the first [k], in their order. *)
Lemma GetChildrenFromS3_loop_run (env : AwsEnv) (path bucket : string)
      (objects : gmap (string * string) S3Object) (fuel : nat) :
  let all := S3Client.keys_after objects bucket path "" in
  forall (k : nat) (marker : string) (result : list string) (w : World),
    (k = 0%nat /\ marker = ""
     \/ exists k', k = S k' /\ all !! k' = Some marker /\ marker <> "") ->
    s3_objects w = objects ->
    (forall m, s3_fault w (ListObjectsRequest bucket path m 50) = None) ->
    (length all - k < 50 * fuel)%nat ->
    exists w',
      GetChildrenFromS3_loop fuel env path bucket marker result w
      = Returns (OK, (result ++ drop k all)%list) w'
      /\ s3_objects w' = objects
      /\ s3_fault w' = s3_fault w
      /\ local_files w' = local_files w
      /\ local_dirs w' = local_dirs w.
Proof.
  intros all. induction fuel as [| fuel IH]; intros k marker result w Hk Ho Hfault Hfuel;
    [lia |].
  assert (Hkeys : S3Client.keys_after objects bucket path marker = drop k all).
  { destruct Hk as [(-> & ->) | (k' & -> & Hk' & Hne)]; [reflexivity |].
    apply keys_after_marker; assumption. }
  cbn [GetChildrenFromS3_loop].
  rewrite bind_run, ListObjects_run. cbn zeta. rewrite Hfault, Ho, Hkeys.
  cbn [S3Client.list_Contents S3Client.list_IsTruncated S3Client.list_NextMarker].
  set (w1 := told env kListOp 0 _ true _).
  assert (Hprefix : Forall (fun x => String.prefix path x = true) (take 50 (drop k all))).
  { apply Forall_forall. intros x Hx.
    assert (Hin : x ∈ all).
    { eapply elem_of_sublist; [| apply (sublist_drop all k)].
      eapply elem_of_sublist; [exact Hx | apply sublist_take]. }
    apply elem_of_keys_after in Hin. tauto. }
  rewrite bind_run, push_children_run by exact Hprefix.
  cbn beta iota.
  destruct (bool_decide (50 < length (drop k all))%nat) eqn:Htrunc; cbn [negb].
  - (* a full page: the listing goes on behind its last key *)
    apply bool_decide_eq_true in Htrunc.
    rewrite bool_decide_eq_true_2 by reflexivity.
    assert (Hlast : all !! (k + 49)%nat = last (take 50 (drop k all))).
    { rewrite last_lookup, length_take, lookup_take_lt by lia.
      rewrite lookup_drop. f_equal. lia. }
    destruct (all !! (k + 49)%nat) as [marker' |] eqn:Hmarker.
    2:{ apply lookup_ge_None in Hmarker. rewrite length_drop in Htrunc. lia. }
    rewrite <- Hlast. run.
    destruct (IH (k + 50)%nat marker' (result ++ take 50 (drop k all))%list w1)
      as (w' & Hrun & Hframe).
    + right. exists (k + 49)%nat. split; [lia |]. split; [exact Hmarker |].
      replace (k + 49)%nat with (S (k + 48)) in Hmarker by lia.
      exact (later_key_not_empty objects bucket path _ _ Hmarker).
    + subst w1. autorewrite with world. exact Ho.
    + intros m. subst w1. autorewrite with world. apply Hfault.
    + rewrite length_drop in Htrunc. lia.
    + exists w'. rewrite Hrun.
      rewrite <- app_assoc. replace (k + 50)%nat with (k + 50)%nat by lia.
      rewrite <- (drop_drop all 50 k), take_drop.
      split; [reflexivity |].
      destruct Hframe as (-> & -> & -> & ->). subst w1. autorewrite with world. auto.
  - (* the last page *)
    apply bool_decide_eq_false in Htrunc.
    rewrite take_ge by lia. run. exists w1.
    split; [reflexivity |]. subst w1. autorewrite with world. auto.
Qed.


Lemma GetChildrenFromS3_run (env : AwsEnv) (path bucket_prefix : string)
      (result : list string) (w : World) :
  NDEBUG = true \/ status env = OK ->
  (forall m, s3_fault w (ListObjectsRequest (GetBucket bucket_prefix) path m 50)
             = None) ->
  exists w',
    GetChildrenFromS3 env path bucket_prefix result w
    = Returns (OK, (result ++ S3Client.keys_after (s3_objects w)
                                (GetBucket bucket_prefix) path "")%list) w'
    /\ s3_objects w' = s3_objects w
    /\ s3_fault w' = s3_fault w
    /\ local_files w' = local_files w
    /\ local_dirs w' = local_dirs w.
Proof.
  intros Hst Hfault. unfold GetChildrenFromS3.
  rewrite bind_run, assert_run.
  2:{ destruct Hst as [? | ->]; auto. }
  run.
  destruct (GetChildrenFromS3_loop_run env path (GetBucket bucket_prefix)
              (s3_objects w) (S (size (s3_objects w))) 0 "" result w)
    as (w' & Hrun & Hframe); auto.
  - pose proof (length_keys_after (s3_objects w) (GetBucket bucket_prefix) path "").
    lia.
  - exists w'. rewrite Hrun. auto.
Qed.

(** X14.  When the service answers the listings, [GetChildrenFromS3]
    appends to the result the keys of the bucket that start with the
    path, all of them, each once and in alphabetical order, however
    many pages of 50 keys that takes; it changes neither the store nor
    the local file system. *)
Theorem GetChildrenFromS3_lists_all (env : AwsEnv) (path bucket_prefix : string)
        (result : list string) (w : World) :
  NDEBUG = true \/ status env = OK ->
  (forall m, s3_fault w (ListObjectsRequest (GetBucket bucket_prefix) path m 50)
             = None) ->
  exists keys w',
    GetChildrenFromS3 env path bucket_prefix result w
    = Returns (OK, (result ++ keys)%list) w'
    /\ (forall key, key ∈ keys
                    <-> is_Some (s3_objects w !! (GetBucket bucket_prefix, key))
                        /\ String.prefix path key = true)
    /\ NoDup keys
    /\ StronglySorted String.le keys
    /\ s3_objects w' = s3_objects w
    /\ local_files w' = local_files w
    /\ local_dirs w' = local_dirs w.
Proof.
  intros Hst Hfault.
  destruct (GetChildrenFromS3_run env path bucket_prefix result w Hst Hfault)
    as (w' & Hrun & Ho & _ & Hf & Hd).
  exists (S3Client.keys_after (s3_objects w) (GetBucket bucket_prefix) path ""), w'.
  split; [exact Hrun |]. split.
  - intros key. rewrite elem_of_keys_after. intuition.
  - split; [apply NoDup_keys_after |]. split; [apply Sorted_keys_after |]. auto.
Qed.


(** The deletions of [EmptyBucket], one after the other. *)
Lemma EmptyBucket_loop_run (env : AwsEnv) (bucket_prefix : string)
      (results : list string) :
  NDEBUG = true \/ status env = OK ->
  let bucket := GetBucket bucket_prefix in
  forall (st : Status) (w : World),
  exists w',
    EmptyBucket_loop env bucket_prefix results st w
    = Returns
        match last results with
        | None => st
        | Some key =>
            match s3_fault w (DeleteObjectRequest bucket key) with
            | None => OK
            | Some error =>
                if bool_decide (GetErrorType error = NO_SUCH_BUCKET)
                   || bool_decide (GetErrorType error = NO_SUCH_KEY)
                   || bool_decide (GetErrorType error = RESOURCE_NOT_FOUND)
                then NotFound else IOError
            end
        end w'
    /\ s3_fault w' = s3_fault w
    /\ local_files w' = local_files w
    /\ forall b key,
         s3_objects w' !! (b, key)
         = if bool_decide (b = bucket) && bool_decide (key ∈ results)
           then match s3_fault w (DeleteObjectRequest bucket key) with
                | None => None
                | Some _ => s3_objects w !! (b, key)
                end
           else s3_objects w !! (b, key).
Proof.
  intros Hst bucket. induction results as [| path results IH]; intros st w.
  - exists w. cbn. split; [reflexivity |]. split; [reflexivity |].
    split; [reflexivity |]. intros b key.
    rewrite (bool_decide_eq_false_2 (key ∈ [])) by apply not_elem_of_nil.
    rewrite andb_false_r. reflexivity.
  - cbn [EmptyBucket_loop]. rewrite bind_run, DeletePathInS3_run by exact Hst.
    cbn zeta. fold bucket.
    set (req := DeleteObjectRequest bucket path).
    assert (Hstep : exists st1 w1,
              match s3_fault w req with
              | Some error =>
                  Returns
                    (if bool_decide (GetErrorType error = NO_SUCH_BUCKET)
                        || bool_decide (GetErrorType error = NO_SUCH_KEY)
                        || bool_decide (GetErrorType error = RESOURCE_NOT_FOUND)
                     then NotFound else IOError)
                    (told env kDeleteOp 0 (s3_latency w req) false (logged req w))
              | None =>
                  Returns OK
                    (told env kDeleteOp 0 (s3_latency w req) true
                       (set_s3_objects (delete (bucket, path) (s3_objects w))
                          (logged req w)))
              end = Returns st1 w1
              /\ st1 = match s3_fault w req with
                       | None => OK
                       | Some error =>
                           if bool_decide (GetErrorType error = NO_SUCH_BUCKET)
                              || bool_decide (GetErrorType error = NO_SUCH_KEY)
                              || bool_decide (GetErrorType error = RESOURCE_NOT_FOUND)
                           then NotFound else IOError
                       end
              /\ s3_fault w1 = s3_fault w
              /\ local_files w1 = local_files w
              /\ s3_objects w1 = match s3_fault w req with
                                 | None => delete (bucket, path) (s3_objects w)
                                 | Some _ => s3_objects w
                                 end).
    { destruct (s3_fault w req); do 2 eexists; (split; [reflexivity |]);
        autorewrite with world; cbn [s3_fault local_files s3_objects set_s3_objects];
        autorewrite with world; auto. }
    destruct Hstep as (st1 & w1 & -> & Hst1 & Hf1 & Hl1 & Ho1).
    destruct (IH st1 w1) as (w' & Hrun & Hf' & Hl' & Ho').
    exists w'. rewrite Hrun, Hf1. split.
    + clear IH Hrun Ho'.
      destruct results as [| path' results]; [cbn; rewrite Hst1; reflexivity |].
      change (last (path :: path' :: results)) with (last (path' :: results)).
      destruct (last (path' :: results)) eqn:Hlast; [reflexivity |].
      apply last_None in Hlast. discriminate.
    + split; [congruence |]. split; [congruence |]. intros b key.
      rewrite Ho', Ho1, Hf1.
      destruct (decide (b = bucket)) as [-> | Hb].
      2:{ rewrite !(bool_decide_eq_false_2 (b = bucket)) by exact Hb. cbn.
          destruct (s3_fault w req); [reflexivity |].
          apply lookup_delete_ne. congruence. }
      rewrite !(bool_decide_eq_true_2 (bucket = bucket)) by reflexivity.
      cbn [andb].
      destruct (decide (key = path)) as [-> | Hkey].
      * rewrite (bool_decide_eq_true_2 (path ∈ path :: results))
          by (apply elem_of_cons; auto).
        fold req.
        destruct (bool_decide (path ∈ results));
          destruct (s3_fault w req); try reflexivity.
        apply lookup_delete_eq.
      * assert (Hiff : bool_decide (key ∈ path :: results)
                       = bool_decide (key ∈ results)).
        { apply bool_decide_ext. rewrite elem_of_cons. tauto. }
        rewrite Hiff.
        assert (Hsame : match s3_fault w req with
                        | None => delete (bucket, path) (s3_objects w)
                        | Some _ => s3_objects w
                        end !! (bucket, key) = s3_objects w !! (bucket, key)).
        { destruct (s3_fault w req); [reflexivity |].
          apply lookup_delete_ne. congruence. }
        rewrite Hsame. reflexivity.
Qed.

(** X15.  [EmptyBucket] lists the whole bucket and sends a deletion for
    every key: the objects whose deletion the service carries out are
    gone and the others are as they were, in this bucket and in every
    other.  The status returned is that of the deletion sent last, for
    the alphabetically last key: a deletion that failed before it is
    not reported. *)
Theorem EmptyBucket_reports_last_deletion (env : AwsEnv) (bucket_prefix : string)
        (w : World) :
  NDEBUG = true \/ status env = OK ->
  let bucket := GetBucket bucket_prefix in
  (forall m, s3_fault w (ListObjectsRequest bucket "" m 50) = None) ->
  exists w',
    EmptyBucket env bucket_prefix w
    = Returns
        match last (S3Client.keys_after (s3_objects w) bucket "" "") with
        | None => OK
        | Some key =>
            match s3_fault w (DeleteObjectRequest bucket key) with
            | None => OK
            | Some error =>
                if bool_decide (GetErrorType error = NO_SUCH_BUCKET)
                   || bool_decide (GetErrorType error = NO_SUCH_KEY)
                   || bool_decide (GetErrorType error = RESOURCE_NOT_FOUND)
                then NotFound else IOError
            end
        end w'
    /\ local_files w' = local_files w
    /\ forall b key,
         s3_objects w' !! (b, key)
         = if bool_decide (b = bucket)
           then match s3_fault w (DeleteObjectRequest bucket key) with
                | None => None
                | Some _ => s3_objects w !! (b, key)
                end
           else s3_objects w !! (b, key).
Proof.
  intros Hst bucket Hfault. unfold EmptyBucket. rewrite bind_run.
  destruct (GetChildrenFromS3_run env "" bucket_prefix [] w Hst Hfault)
    as (w1 & -> & Ho1 & Hf1 & Hl1 & _).
  cbn [ok negb app]. fold bucket.
  set (keys := S3Client.keys_after (s3_objects w) bucket "" "").
  destruct (EmptyBucket_loop_run env bucket_prefix keys Hst OK w1)
    as (w' & Hrun & _ & Hl' & Ho').
  exists w'. rewrite Hrun, Hf1. split; [reflexivity |]. split; [congruence |].
  intros b key. rewrite Ho', Hf1, Ho1. fold bucket.
  destruct (bool_decide (b = bucket)) eqn:Hb; [| reflexivity]. cbn [andb].
  apply bool_decide_eq_true in Hb. subst b.
  destruct (bool_decide (key ∈ keys)) eqn:Hin; [reflexivity |].
  apply bool_decide_eq_false in Hin.
  destruct (s3_fault w (DeleteObjectRequest bucket key)); [reflexivity |].
  destruct (s3_objects w !! (bucket, key)) as [o |] eqn:Ho; [| reflexivity].
  exfalso. apply Hin. apply elem_of_keys_after.
  split; [eauto |]. split; [destruct key; reflexivity | auto].
Qed.


(** X16.  [GetDbidList] lists the keys under the registry prefix and
    looks each key up as an id, that is under the registry prefix once
    more.  In a bucket where no key starts with the prefix twice, as
    is the case when the ids that [SaveDbid] registered do not start
    with the prefix themselves, it returns OK only for an empty
    registry and NotFound as soon as an id is registered, and the list
    of the caller is left as it was. *)
Theorem GetDbidList_looks_under_doubled_prefix (env : AwsEnv)
        (bucket_prefix : string) (dblist : gmap string string) (w : World) :
  NDEBUG = true \/ status env = OK ->
  (forall req, s3_fault w req = None) ->
  let bucket := GetBucket bucket_prefix in
  (forall key, is_Some (s3_objects w !! (bucket, key)) ->
               String.prefix (dbid_registry_ +:+ dbid_registry_) key = false) ->
  exists w',
    GetDbidList env bucket_prefix dblist w
    = Returns (match S3Client.keys_after (s3_objects w) bucket dbid_registry_ "" with
               | [] => OK
               | _ :: _ => NotFound
               end, dblist) w'
    /\ s3_objects w' = s3_objects w.
Proof.
  intros Hst Hfault bucket Hsingle. unfold GetDbidList. rewrite bind_run.
  destruct (GetChildrenFromS3_run env dbid_registry_ bucket_prefix [] w Hst
              ltac:(intros; apply Hfault)) as (w1 & -> & Ho1 & Hf1 & _).
  cbn [ok negb app]. fold bucket.
  destruct (S3Client.keys_after (s3_objects w) bucket dbid_registry_ "")
    as [| dbid dbid_list] eqn:Hkeys.
  - exists w1. auto.
  - cbn [GetDbidList_loop]. rewrite bind_run.
    destruct (GetPathForDbid_run env bucket_prefix dbid "" w1) as (w' & Hrun).
    cbn zeta in Hrun. rewrite Hf1, Hfault, Ho1 in Hrun. fold bucket in Hrun.
    assert (Hin : dbid ∈ S3Client.keys_after (s3_objects w) bucket dbid_registry_ "").
    { rewrite Hkeys. apply elem_of_cons. auto. }
    apply elem_of_keys_after in Hin as (_ & Hprefix & _).
    apply prefix_append in Hprefix as (rest & ->).
    destruct (s3_objects w !! (bucket, dbid_registry_ +:+ dbid_registry_ +:+ rest))
      as [o |] eqn:Ho.
    + exfalso. specialize (Hsingle _ (mk_is_Some _ _ Ho)).
      rewrite <- append_assoc, prefix_of_append in Hsingle. discriminate.
    + rewrite Hrun. cbn [ok negb]. run.
      exists w'. split; [reflexivity |].
      (* the HEAD request leaves the store alone *)
      revert Hrun. unfold GetPathForDbid. rewrite bind_run, HeadObject_run.
      cbn zeta. rewrite Hf1, Hfault, Ho1. fold bucket. rewrite Ho.
      cbn. intros [= <-]. autorewrite with world. exact Ho1.
Qed.

End Listing.

Section Directories.
Context `{Externals}.

(** X18.  With a destination bucket, the marker that [CreateDir] puts in
    the bucket is a key under its own name: the listing by which
    [DeleteDir] looks for children finds it, so that [DeleteDir]
    returns IOError for the directory and leaves the marker and the
    local directory in place. *)
Theorem DeleteDir_after_CreateDir (env : AwsEnv) (dirname : string) (w : World) :
  NDEBUG = true \/ (status env = OK /\ IsSstFile dirname = false
                    /\ dest_bucket_prefix_ env <> "") ->
  has_dest_bucket_ env = true ->
  (forall req, s3_fault w req = None) ->
  exists st w1 w2,
    CreateDir env dirname w = Returns st w1
    /\ (dirname ∉ local_dirs w -> st = OK /\ dirname ∈ local_dirs w1)
    /\ is_Some (s3_objects w1 !! (GetBucket (GetDestBucketPrefix env),
                                  dest_key env dirname))
    /\ DeleteDir env dirname w1 = Returns IOError w2
    /\ s3_objects w2 = s3_objects w1
    /\ local_dirs w2 = local_dirs w1.
Proof.
  intros Hassert Hdest Hfault.
  assert (Hstatus : NDEBUG = true \/ status env = OK).
  { destruct Hassert as [? | (? & _)]; auto. }
  assert (Hname : NDEBUG = true \/ dest_bucket_prefix_ env <> "").
  { destruct Hassert as [? | (_ & _ & ?)]; auto. }
  set (bucket := GetBucket (GetDestBucketPrefix env)).
  set (marker := dest_key env dirname).
  set (put := PutObjectRequest bucket marker "" ∅).
  set (w0 := told env kWriteOp 0 (s3_latency w put) true
               (set_s3_objects
                  (<[(bucket, marker) := {| obj_body := ""; obj_metadata := ∅;
                                            obj_last_modified := now_micros w / 1000 |}]>
                     (s3_objects w))
                  (logged put w))).
  assert (Hcreate : CreateDir env dirname w = BaseEnv.CreateDir dirname w0).
  { unfold CreateDir. rewrite bind_run, assert_run.
    2:{ destruct Hstatus as [? | ->]; auto. }
    rewrite Hdest, bind_run, bind_run, destname_run by exact Hname.
    cbn beta iota. rewrite bind_run, PutObject_run. cbn zeta.
    fold bucket marker put. rewrite Hfault. reflexivity. }
  assert (Hlocal : exists st w1,
            BaseEnv.CreateDir dirname w0 = Returns st w1
            /\ (dirname ∉ local_dirs w -> st = OK /\ dirname ∈ local_dirs w1)
            /\ s3_objects w1 = s3_objects w0
            /\ s3_fault w1 = s3_fault w0).
  { unfold BaseEnv.CreateDir. run.
    assert (Hdirs : local_dirs w0 = local_dirs w).
    { subst w0. autorewrite with world. reflexivity. }
    destruct (decide (dirname ∈ local_dirs w0)) as [Hin | Hnotin].
    - do 2 eexists. split; [reflexivity |]. rewrite Hdirs in Hin.
      split; [intros ?; contradiction | auto].
    - run. do 2 eexists. split; [reflexivity |].
      split; [| auto]. intros _. split; [reflexivity |]. cbn.
      apply elem_of_union_l, elem_of_singleton. reflexivity. }
  destruct Hlocal as (st & w1 & Hrun1 & Hst & Ho1 & Hf1).
  assert (Hmarker : s3_objects w1 !! (bucket, marker)
                    = Some {| obj_body := ""; obj_metadata := ∅;
                              obj_last_modified := now_micros w / 1000 |}).
  { rewrite Ho1. subst w0. autorewrite with world. cbn. apply lookup_insert_eq. }
  assert (Hfault1 : forall req, s3_fault w1 req = None).
  { intros req. rewrite Hf1. subst w0. autorewrite with world. cbn.
    autorewrite with world. apply Hfault. }
  destruct (GetChildrenFromS3_run env marker (GetDestBucketPrefix env) [] w1 Hstatus
              ltac:(intros; apply Hfault1)) as (w2 & Hlist & Ho2 & _ & _ & Hd2).
  pose proof (DeleteDir_run env dirname OK _ w1 w2 Hassert Hdest Hlist) as Hdelete.
  cbn [app] in Hdelete. fold bucket in Hdelete.
  assert (Hsome : marker ∈ S3Client.keys_after (s3_objects w1) bucket marker "").
  { apply elem_of_keys_after. rewrite Hmarker.
    split; [eauto |]. split; [apply prefix_refl | auto]. }
  destruct (S3Client.keys_after (s3_objects w1) bucket marker "") as [| key keys];
    [apply not_elem_of_nil in Hsome; contradiction |].
  cbn [ok andb length Nat.eqb negb] in Hdelete.
  exists st, w1, w2. rewrite Hcreate. split; [exact Hrun1 |].
  split; [exact Hst |]. split; [rewrite Hmarker; eauto |]. auto.
Qed.


(** X19.  [GetChildren] returns the keys of the source bucket under the
    source name of the path, then, only when the environment has a
    destination bucket and two unique buckets, the keys of the
    destination bucket under that same source name, then the names the
    local environment lists.  When the local listing fails, its status
    is returned with the keys collected so far. *)
Theorem GetChildren_lists (env : AwsEnv) (path : string) (w : World) :
  NDEBUG = true
  \/ (status env = OK /\ IsSstFile path = false
      /\ (has_src_bucket_ env || has_dest_bucket_ env && two_unique_buckets env
          = true -> src_bucket_prefix_ env <> "")) ->
  (forall req, s3_fault w req = None) ->
  let from_src :=
    if has_src_bucket_ env
    then S3Client.keys_after (s3_objects w) (GetBucket (GetSrcBucketPrefix env))
           (src_key env path) ""
    else [] in
  let from_dest :=
    if has_dest_bucket_ env && two_unique_buckets env
    then S3Client.keys_after (s3_objects w) (GetBucket (GetDestBucketPrefix env))
           (src_key env path) ""
    else [] in
  exists st names w',
    BaseEnv.GetChildren path w = Returns (st, names) w
    /\ GetChildren env path w
       = Returns (if ok st then (OK, (from_src ++ from_dest ++ names)%list)
                  else (st, (from_src ++ from_dest)%list)) w'
    /\ s3_objects w' = s3_objects w
    /\ local_files w' = local_files w.
Proof.
  intros Hassert Hfault from_src from_dest.
  assert (Hstatus : NDEBUG = true \/ status env = OK).
  { destruct Hassert as [? | (? & _)]; auto. }
  assert (Hname : forall w0,
            has_src_bucket_ env || has_dest_bucket_ env && two_unique_buckets env
            = true ->
            srcname env path w0 = Returns (src_key env path) w0).
  { intros w0 Hused. apply srcname_run.
    destruct Hassert as [? | (_ & _ & ?)]; auto. }
  assert (Hlocal : forall w0 : World,
            local_files w0 = local_files w -> local_dirs w0 = local_dirs w ->
            exists st names,
              BaseEnv.GetChildren path w = Returns (st, names) w
              /\ BaseEnv.GetChildren path w0 = Returns (st, names) w0).
  { intros w0 Hf Hd. unfold BaseEnv.GetChildren. run. rewrite Hf, Hd.
    destruct (decide (path ∈ local_dirs w)); eauto. }
  unfold GetChildren. rewrite bind_run, assert_run.
  2:{ destruct Hstatus as [? | ->]; auto. }
  rewrite bind_run, assert_run.
  2:{ destruct Hassert as [? | (_ & -> & _)]; auto. }
  rewrite bind_run.
  assert (Hsrc : exists w1,
            (if has_src_bucket_ env
             then srcname env path
                    ≫= (fun cloud_name =>
                          GetChildrenFromS3 env cloud_name (GetSrcBucketPrefix env) [])
             else mret (OK, [])) w
            = Returns (OK, from_src) w1
            /\ s3_objects w1 = s3_objects w /\ s3_fault w1 = s3_fault w
            /\ local_files w1 = local_files w /\ local_dirs w1 = local_dirs w).
  { subst from_src. destruct (has_src_bucket_ env); [| exists w; auto].
    rewrite bind_run, Hname by reflexivity.
    destruct (GetChildrenFromS3_run env (src_key env path) (GetSrcBucketPrefix env)
                [] w Hstatus ltac:(intros; apply Hfault)) as (w1 & -> & ?).
    exists w1. auto. }
  destruct Hsrc as (w1 & -> & Ho1 & Hf1 & Hl1 & Hd1).
  cbn [fst snd ok negb]. rewrite bind_run.
  assert (Hdst : exists w2,
            (if has_dest_bucket_ env && two_unique_buckets env
             then srcname env path
                    ≫= (fun cloud_name =>
                          GetChildrenFromS3 env cloud_name (GetDestBucketPrefix env)
                            from_src)
             else mret (OK, from_src)) w1
            = Returns (OK, (from_src ++ from_dest)%list) w2
            /\ s3_objects w2 = s3_objects w
            /\ local_files w2 = local_files w /\ local_dirs w2 = local_dirs w).
  { subst from_dest. destruct (has_dest_bucket_ env && two_unique_buckets env).
    - rewrite bind_run, Hname by apply orb_true_r.
      destruct (GetChildrenFromS3_run env (src_key env path) (GetDestBucketPrefix env)
                  from_src w1 Hstatus
                  ltac:(intros; rewrite Hf1; apply Hfault))
        as (w2 & -> & Ho2 & _ & Hl2 & Hd2).
      exists w2. rewrite Ho1. split; [reflexivity |].
      split; [congruence |]. split; congruence.
    - exists w1. rewrite app_nil_r. auto. }
  destruct Hdst as (w2 & -> & Ho2 & Hl2 & Hd2).
  cbn [fst snd ok negb].
  destruct (Hlocal w2 Hl2 Hd2) as (st & names & Hrun & Hrun2).
  rewrite bind_run, Hrun2. cbn beta iota.
  exists st, names, w2. split; [exact Hrun |].
  destruct (ok st); cbn [negb]; run; rewrite ?app_assoc; auto.
Qed.

End Directories.

(** ** Retries, the constructor and the client wrapper *)

Section Retrying.
Context `{Externals}.

Lemma set_now_micros_twice (t1 t2 : Z) (w : World) :
  set_now_micros t1 (set_now_micros t2 w) = set_now_micros t1 w.
Proof. reflexivity. Qed.

Lemma set_now_micros_same (w : World) : set_now_micros (now_micros w) w = w.
Proof. destruct w. reflexivity. Qed.

(** The rounds of [Retry] for a command that fails whatever the time:
    after [j] naps the clock stands at [now + 100000 * j]. *)
Lemma Retry_loop_fails {A : Type} (func : M (Status * A)) (st : Status) (a : A)
      (w : World) (start : Z) (fuel : nat) :
  ok st = false ->
  (forall t, func (set_now_micros t w) = Returns (st, a) (set_now_micros t w)) ->
  0 <= retry_period_micros ->
  forall (j : Z),
    0 <= j -> 0 <= start ->
    start + retry_period_micros < 2 ^ 64 ->
    start + 100000 * j <= start + retry_period_micros ->
    start + retry_period_micros + 100000 < 2 ^ 64 ->
    (Z.to_nat ((retry_period_micros - 100000 * j) / 100000) < fuel)%nat ->
    Retry_loop fuel start func (set_now_micros (start + 100000 * j) w)
    = Returns (TimedOut, a)
        (set_now_micros
           (start + 100000 * (retry_period_micros / 100000 + 1)) w).
Proof.
  intros Hko Hfunc Hperiod. induction fuel as [| fuel IH];
    intros j Hj Hstart Hbound Hin Hroom Hfuel; [lia |].
  cbn [Retry_loop]. rewrite bind_run, Hfunc. cbn beta iota. rewrite Hko.
  run. cbn [now_micros set_now_micros].
  rewrite (wrap64_small (start + retry_period_micros)) by lia.
  rewrite (wrap64_small (start + 100000 * j + 100000)) by lia.
  assert (Hdiv : retry_period_micros
                 = 100000 * (retry_period_micros / 100000)
                   + retry_period_micros mod 100000)
    by (apply Z.div_mod; lia).
  assert (Hmod : 0 <= retry_period_micros mod 100000 < 100000)
    by (apply Z.mod_pos_bound; lia).
  destruct (Z.ltb_spec (start + retry_period_micros) (start + 100000 * j + 100000))
    as [Hout | Hmore].
  - (* the period is over *)
    f_equal. rewrite set_now_micros_twice. f_equal. nia.
  - rewrite set_now_micros_twice.
    replace (start + 100000 * j + 100000) with (start + 100000 * (j + 1)) by lia.
    apply IH; try lia.
    assert (Hstep : (retry_period_micros - 100000 * j) / 100000
                    = (retry_period_micros - 100000 * (j + 1)) / 100000 + 1).
    { replace (retry_period_micros - 100000 * j)
        with ((retry_period_micros - 100000 * (j + 1)) + 1 * 100000) by lia.
      apply Z.div_add. lia. }
    assert (0 <= (retry_period_micros - 100000 * (j + 1)) / 100000)
      by (apply Z.div_pos; lia).
    lia.
Qed.

(** X22.  [Retry] returns at once when the command succeeds, without a
    nap.  When the command fails whatever the time, [Retry] naps for
    100 milliseconds after every attempt and gives up with TimedOut
    after the first nap that ends later than [retry_period_micros]
    after the start: the loop ends. *)
Theorem Retry_gives_up {A : Type} (func : M (Status * A)) (st : Status) (a : A)
        (w : World) :
  0 <= retry_period_micros ->
  0 <= now_micros w ->
  now_micros w + retry_period_micros + 100000 < 2 ^ 64 ->
  (forall w', func w = Returns (OK, a) w' -> Retry func w = Returns (OK, a) w')
  /\ (ok st = false ->
      (forall t, func (set_now_micros t w) = Returns (st, a) (set_now_micros t w)) ->
      Retry func w
      = Returns (TimedOut, a)
          (set_now_micros
             (now_micros w + 100000 * (retry_period_micros / 100000 + 1)) w)).
Proof.
  intros Hperiod Hnow Hroom. split.
  - intros w' Hrun. unfold Retry. run.
    replace (Z.to_nat (retry_period_micros / 100000) + 2)%nat
      with (S (Z.to_nat (retry_period_micros / 100000) + 1)) by lia.
    cbn [Retry_loop]. rewrite bind_run, Hrun. reflexivity.
  - intros Hko Hfunc. unfold Retry. run.
    rewrite (wrap64_small (now_micros w)) by lia.
    pose proof (Retry_loop_fails func st a w (now_micros w)
                  (Z.to_nat (retry_period_micros / 100000) + 2) Hko Hfunc Hperiod
                  0 ltac:(lia) Hnow ltac:(lia) ltac:(lia) Hroom) as Hloop.
    rewrite Z.mul_0_r, Z.add_0_r, Z.sub_0_r, set_now_micros_same in Hloop.
    apply Hloop. lia.
Qed.

End Retrying.

Section Constructing.
Context `{Externals}.

(** X23.  When the log files are kept locally and the region check
    passes, the constructor sends one request, to create the
    destination bucket in the region of the source bucket or else the
    default region, and none at all without a destination bucket.  A
    bucket that exists already is as good as a created one; any other
    error makes the status IOError, and [NewAwsEnv] then destroys the
    environment and returns none.  The environment returned holds the
    trimmed names, and the timer of the request reports a failure to
    the callback even when the bucket was created. *)
Theorem NewAwsEnv_creates_bucket
        (src_bucket_prefix src_object_prefix src_bucket_region
         dest_bucket_prefix dest_object_prefix dest_bucket_region : string)
        (cloud_options : CloudEnvOptions) (w : World) :
  let src := trim src_bucket_prefix in
  let dest := trim dest_bucket_prefix in
  let region := if bool_decide (trim src_bucket_region = "")
                then default_region else trim src_bucket_region in
  let req := CreateBucketRequest (GetBucket dest) (Some region) in
  keep_local_log_files cloud_options = true ->
  (src <> "" -> dest <> "" ->
   src <> dest \/ trim src_object_prefix <> trim dest_object_prefix ->
   trim src_bucket_region = trim dest_bucket_region) ->
  exists st r w',
    NewAwsEnv src_bucket_prefix src_object_prefix src_bucket_region
      dest_bucket_prefix dest_object_prefix dest_bucket_region cloud_options w
    = Returns (st, r) w'
    /\ (dest = "" -> st = OK /\ s3_log w' = s3_log w)
    /\ (dest <> "" ->
        s3_log w' = req :: s3_log w
        /\ s3client_result_ w'
           = {| result_type := kCreateOp; result_size := 0;
                result_micros := s3_latency w req; result_ok := false |}
        /\ (st = OK
            <-> match s3_fault w req with
                | None => True
                | Some error =>
                    GetErrorType error = BUCKET_ALREADY_EXISTS
                    \/ GetErrorType error = BUCKET_ALREADY_OWNED_BY_YOU
                end))
    /\ (st <> OK -> st = IOError /\ r = None /\ running_ w' = false)
    /\ (st = OK ->
        running_ w' = true
        /\ exists env,
             r = Some env
             /\ status env = OK
             /\ src_bucket_prefix_ env = src
             /\ src_object_prefix_ env = trim src_object_prefix
             /\ dest_bucket_prefix_ env = dest
             /\ dest_object_prefix_ env = trim dest_object_prefix
             /\ has_src_bucket_ env = negb (bool_decide (src = ""))
             /\ has_dest_bucket_ env = negb (bool_decide (dest = ""))
             /\ file_deletion_thread_ env = true).
Proof.
  intros src dest region req Hlogs Hregion.
  unfold NewAwsEnv, new_AwsEnv. fold src dest. run.
  assert (Hcheck : negb (bool_decide (src = "")) && negb (bool_decide (dest = ""))
                   && (negb (bool_decide (src = dest))
                       || negb (bool_decide (trim src_object_prefix
                                             = trim dest_object_prefix)))
                   && negb (bool_decide (trim src_bucket_region
                                         = trim dest_bucket_region)) = false).
  { destruct (bool_decide (trim src_bucket_region = trim dest_bucket_region))
      eqn:Hsame; [apply andb_false_r |].
    apply bool_decide_eq_false in Hsame.
    destruct (decide (src = "")) as [-> | Hs]; [reflexivity |].
    destruct (decide (dest = "")) as [Hd0 | Hd].
    { rewrite (bool_decide_eq_true_2 (dest = "")) by exact Hd0.
      rewrite andb_false_r. reflexivity. }
    destruct (decide (src = dest)) as [Hsd | Hsd];
      destruct (decide (trim src_object_prefix = trim dest_object_prefix))
        as [Ho | Ho];
      try (exfalso; apply Hsame, Hregion; auto; fail).
    rewrite (bool_decide_eq_true_2 _ Hsd), (bool_decide_eq_true_2 _ Ho).
    rewrite andb_false_r. reflexivity. }
  rewrite Hcheck. rewrite Hlogs. cbn [negb andb].
  destruct (decide (dest = "")) as [Hd | Hd].
  - rewrite (bool_decide_eq_true_2 (dest = "")) by exact Hd. cbn [negb]. run.
    cbn [ok negb status create_bucket_status_]. run.
    do 3 eexists. split; [reflexivity |].
    split; [auto |]. split; [intros ?; contradiction |].
    split; [intros ?; contradiction |]. intros _. split; [reflexivity |].
    eexists. split; [reflexivity |]. cbn. rewrite Hd. auto 10.
  - rewrite (bool_decide_eq_false_2 (dest = "")) by exact Hd. cbn [negb].
    unfold S3WritableFile.CreateBucketInS3, AwsS3ClientWrapper.CreateBucket,
      S3Client.CreateBucket, S3Client.send, AwsS3ClientWrapper.Timer_done.
    run. cbn [s3_fault s3_log s3_latency set_running_ set_s3_log].
    fold region. fold req. rewrite S3ClientCallback_run. run.
    set (env0 := {| cloud_env_options := cloud_options |}).
    set (w1 := told env0 kCreateOp 0 (s3_latency w req) false
                 (set_s3_log (req :: s3_log w) (set_running_ true w))).
    assert (Hlog : s3_log w1 = req :: s3_log w).
    { subst w1. autorewrite with world. reflexivity. }
    assert (Hslot : s3client_result_ w1
                    = {| result_type := kCreateOp; result_size := 0;
                         result_micros := s3_latency w req; result_ok := false |}).
    { reflexivity. }
    assert (Hrunning : running_ w1 = true).
    { subst w1. autorewrite with world. reflexivity. }
    clearbody w1.
    destruct (s3_fault w req) as [error |] eqn:Hfault.
    + destruct (negb (bool_decide (GetErrorType error = BUCKET_ALREADY_EXISTS))
                && negb (bool_decide (GetErrorType error
                                      = BUCKET_ALREADY_OWNED_BY_YOU))) eqn:Hclass.
      * (* any other error *)
        apply andb_true_iff in Hclass as [Hne1 Hne2].
        apply negb_true_iff, bool_decide_eq_false in Hne1, Hne2.
        run. cbn [ok negb andb status create_bucket_status_]. run.
        do 3 eexists. split; [reflexivity |].
        cbn [s3_log s3client_result_ running_ set_running_].
        split; [intros ?; contradiction |].
        split; [intros _; split; [exact Hlog |]; split; [exact Hslot |];
                split; [discriminate | tauto] |].
        split; [intros _; auto |]. intros [=].
      * (* the bucket exists already *)
        apply andb_false_iff in Hclass.
        assert (Hexists : GetErrorType error = BUCKET_ALREADY_EXISTS
                          \/ GetErrorType error = BUCKET_ALREADY_OWNED_BY_YOU).
        { destruct Hclass as [Hc | Hc];
            apply negb_false_iff, bool_decide_eq_true in Hc; auto. }
        run. cbn [ok negb andb status create_bucket_status_]. run.
        do 3 eexists. split; [reflexivity |].
        split; [intros ?; contradiction |].
        split; [intros _; split; [exact Hlog |]; split; [exact Hslot |]; tauto |].
        split; [intros Hne; exfalso; apply Hne; reflexivity |].
        intros _. split; [exact Hrunning |]. eexists. split; [reflexivity |]. cbn.
        rewrite ?(bool_decide_eq_false_2 (dest = "")) by exact Hd. auto 10.
    + run. cbn [ok negb andb status create_bucket_status_]. run.
      do 3 eexists. split; [reflexivity |].
      split; [intros ?; contradiction |].
      split; [intros _; split; [exact Hlog |]; split; [exact Hslot |]; tauto |].
      split; [intros Hne; exfalso; apply Hne; reflexivity |].
      intros _. split; [exact Hrunning |]. eexists. split; [reflexivity |]. cbn.
      rewrite ?(bool_decide_eq_false_2 (dest = "")) by exact Hd. auto 10.
Qed.

End Constructing.

(** X24.  Every request the client wrapper sends is written to the
    result slot of the environment, with the kind of the operation,
    the latency the timer measured and whether the request succeeded,
    and is passed once to the callback of the options when there is
    one.  The size is the content length for a download that
    succeeded, the size hint for an upload and 0 otherwise. *)
Theorem wrapper_reports_requests (env : AwsEnv) (b k body : string)
        (md : gmap string string) (hint : Z) (range : option ByteRange)
        (file : option string) (pfx marker : string) (max_keys : Z) (w : World) :
  let reported (type : CloudRequestOpType) (size : Z) (req : S3Request)
               (success : bool) (w' : World) : Prop :=
    s3client_result_ w'
    = {| result_type := type; result_size := size;
         result_micros := s3_latency w req; result_ok := success |}
    /\ callback_log w'
       = ((if cloud_request_callback (cloud_env_options env)
           then [(type, size, s3_latency w req, success)] else [])
          ++ callback_log w)%list
    /\ s3_log w' = req :: s3_log w in
  (exists outcome w',
     AwsS3ClientWrapper.PutObject env b k body md hint w = Returns outcome w'
     /\ reported kWriteOp hint (PutObjectRequest b k body md)
          (AwsS3ClientWrapper.IsSuccess outcome) w')
  /\ (exists outcome w',
        AwsS3ClientWrapper.GetObject env b k range file w = Returns outcome w'
        /\ reported kReadOp
             match outcome with
             | inr res => S3Client.get_ContentLength res
             | inl _ => 0
             end
             (GetObjectRequest b k range file)
             (AwsS3ClientWrapper.IsSuccess outcome) w')
  /\ (exists outcome w',
        AwsS3ClientWrapper.HeadObject env b k w = Returns outcome w'
        /\ reported kInfoOp 0 (HeadObjectRequest b k)
             (AwsS3ClientWrapper.IsSuccess outcome) w')
  /\ (exists outcome w',
        AwsS3ClientWrapper.DeleteObject env b k w = Returns outcome w'
        /\ reported kDeleteOp 0 (DeleteObjectRequest b k)
             (AwsS3ClientWrapper.IsSuccess outcome) w')
  /\ (exists outcome w',
        AwsS3ClientWrapper.ListObjects env b pfx marker max_keys w
        = Returns outcome w'
        /\ reported kListOp 0 (ListObjectsRequest b pfx marker max_keys)
             (AwsS3ClientWrapper.IsSuccess outcome) w').
Proof.
  intros reported.
  assert (Htold : forall type size req success w0,
            s3_log w0 = req :: s3_log w -> callback_log w0 = callback_log w ->
            reported type size req success
              (told env type size (s3_latency w req) success w0)).
  { intros type size req success w0 Hlog Hcb. unfold reported, told.
    destruct (cloud_request_callback _); cbn; rewrite ?Hlog, ?Hcb; auto. }
  split_all.
  - rewrite PutObject_run. cbn zeta.
    destruct (s3_fault w _); do 2 eexists; (split; [reflexivity |]);
      apply Htold; reflexivity.
  - unfold AwsS3ClientWrapper.GetObject, S3Client.GetObject, S3Client.send,
      AwsS3ClientWrapper.Timer_done.
    run. cbn [s3_fault s3_objects s3_latency set_s3_log].
    destruct (s3_fault w _); run.
    + rewrite S3ClientCallback_run. do 2 eexists. split; [reflexivity |].
      apply Htold; reflexivity.
    + destruct (s3_objects w !! (b, k)) as [o |]; run.
      * destruct (S3Client.slice range (obj_body o)); run.
        -- destruct file; run; cbn [s3_latency set_local_files set_s3_log];
             rewrite S3ClientCallback_run; do 2 eexists;
             (split; [reflexivity |]); apply Htold; reflexivity.
        -- rewrite S3ClientCallback_run. do 2 eexists. split; [reflexivity |].
           apply Htold; reflexivity.
      * rewrite S3ClientCallback_run. do 2 eexists. split; [reflexivity |].
        apply Htold; reflexivity.
  - rewrite HeadObject_run. cbn zeta. do 2 eexists. split; [reflexivity |].
    apply Htold; reflexivity.
  - rewrite DeleteObject_run. cbn zeta.
    destruct (s3_fault w _); do 2 eexists; (split; [reflexivity |]);
      apply Htold; reflexivity.
  - unfold AwsS3ClientWrapper.ListObjects, S3Client.ListObjects, S3Client.send,
      AwsS3ClientWrapper.Timer_done.
    run. cbn [s3_fault s3_objects s3_latency set_s3_log].
    rewrite S3ClientCallback_run. do 2 eexists. split; [reflexivity |].
    destruct (s3_fault w _); apply Htold; reflexivity.
Qed.

(** ** Deletions, the registry and local directories *)

Lemma append_inj_r (p a b : string) : p +:+ a = p +:+ b -> a = b.
Proof. induction p as [| c p IH]; cbn; [auto | intros [= Heq]; auto]. Qed.

Section Deleting.
Context `{Externals}.

(** X21.  [DeleteFile] of a file that does not go to the log stream
    sends no request.  With a destination bucket, an sst, MANIFEST or
    IDENTITY file is pushed on the deletion queue, stamped with the
    time of the call, whatever the local deletion returns; the status
    returned is that of the local deletion, so a file that is only in
    the bucket gives the error of the local environment although its
    deletion is queued.  Any other file, and every file when there is
    no destination bucket, is deleted locally and nothing is queued. *)
Theorem DeleteFile_queues_and_deletes_locally (env : AwsEnv) (fname : string)
        (w : World) :
  NDEBUG = true \/ status env = OK ->
  has_dest_bucket_ env && is_cloud_file fname
  || IsSstFile fname || negb (IsLogFile fname)
  || keep_local_log_files (cloud_env_options env) = true ->
  exists w',
    DeleteFile env fname w
    = Returns match local_files w !! fname with
              | Some _ => OK
              | None => IOError
              end w'
    /\ files_to_delete_ w'
       = (files_to_delete_ w
          ++ if has_dest_bucket_ env && is_cloud_file fname
             then [(steady_now w, fname)] else [])%list
    /\ local_files w' = delete fname (local_files w)
    /\ s3_objects w' = s3_objects w
    /\ s3_log w' = s3_log w.
Proof.
  intros Hst Hroute. unfold DeleteFile. rewrite bind_run, assert_run.
  2:{ destruct Hst as [? | ->]; auto. }
  cbv zeta. rewrite bind_run.
  assert (Hlocal : forall w1 : World,
            exists w',
              BaseEnv.DeleteFile fname w1
              = Returns match local_files w1 !! fname with
                        | Some _ => OK
                        | None => IOError
                        end w'
              /\ files_to_delete_ w' = files_to_delete_ w1
              /\ local_files w' = delete fname (local_files w1)
              /\ s3_objects w' = s3_objects w1
              /\ s3_log w' = s3_log w1).
  { intros w1. unfold BaseEnv.DeleteFile. run.
    destruct (local_files w1 !! fname) eqn:Hfile; run; eexists;
      (split; [reflexivity |]); cbn; split_all; try reflexivity.
    symmetry. apply delete_id. exact Hfile. }
  assert (Hstream : has_dest_bucket_ env && is_cloud_file fname = false ->
            (if IsSstFile fname then false else IsLogFile fname)
            && negb (keep_local_log_files (cloud_env_options env)) = false).
  { intros Hq. rewrite Hq in Hroute. cbn [orb] in Hroute.
    destruct (IsSstFile fname); [reflexivity |].
    destruct (IsLogFile fname); [| reflexivity].
    cbn in Hroute. rewrite Hroute. reflexivity. }
  destruct (has_dest_bucket_ env).
  - rewrite cloud_file_test_run. cbn [andb] in *.
    destruct (is_cloud_file fname).
    + run.
      destruct (Hlocal (set_files_to_delete_
                          (files_to_delete_ w ++ [(steady_now w, fname)])%list w))
        as (w' & -> & Hq & Hl & Ho & Hs).
      exists w'. cbn in *. auto.
    + rewrite !bind_run, log_file_test_run. run.
      rewrite Hstream by reflexivity.
      destruct (Hlocal w) as (w' & -> & Hq & Hl & Ho & Hs).
      exists w'. rewrite app_nil_r. auto.
  - run. rewrite log_file_test_run. run. cbn [andb] in *.
    rewrite Hstream by reflexivity.
    destruct (Hlocal w) as (w' & -> & Hq & Hl & Ho & Hs).
    exists w'. rewrite app_nil_r. auto.
Qed.

End Deleting.

Section Registry.
Context `{Externals}.

(** X17.  The entries of the dbid registry are independent: a
    [SaveDbid] or a [DeleteDbid] of one id leaves what
    [GetPathForDbid] returns for every other id, in any bucket, as it
    was before. *)
Theorem registry_entries_are_independent (env : AwsEnv)
        (dbid other dirname bucket_prefix asked dirname0 : string)
        (st : Status) (w w' : World) :
  NDEBUG = true \/ status env = OK ->
  other <> dbid ->
  SaveDbid env dbid dirname w = Returns st w'
  \/ DeleteDbid env bucket_prefix dbid w = Returns st w' ->
  exists r w1 w2,
    GetPathForDbid env asked other dirname0 w = Returns r w1
    /\ GetPathForDbid env asked other dirname0 w' = Returns r w2.
Proof.
  intros Hst Hother Hrun.
  assert (Hkey : forall b b' : string,
            (b, dbid_registry_ +:+ dbid) <> (b', dbid_registry_ +:+ other)).
  { intros b b' [= _ Heq]. apply append_inj_r in Heq. congruence. }
  assert (Hsame : s3_fault w' = s3_fault w
                  /\ s3_objects w' !! (GetBucket asked, dbid_registry_ +:+ other)
                     = s3_objects w !! (GetBucket asked, dbid_registry_ +:+ other)).
  { destruct Hrun as [Hrun | Hrun].
    - rewrite SaveDbid_run in Hrun by exact Hst. cbn zeta in Hrun.
      destruct (s3_fault w (PutObjectRequest _ _ _ _)); injection Hrun as _ <-;
        autorewrite with world; cbn; autorewrite with world; [auto |].
      split; [reflexivity |]. apply lookup_insert_ne, Hkey.
    - unfold DeleteDbid in Hrun.
      rewrite DeletePathInS3_run in Hrun by exact Hst. cbn zeta in Hrun.
      destruct (s3_fault w (DeleteObjectRequest _ _)); injection Hrun as _ <-;
        autorewrite with world; cbn; autorewrite with world; [auto |].
      split; [reflexivity |]. apply lookup_delete_ne, Hkey. }
  destruct Hsame as (Hfault & Hobj).
  destruct (GetPathForDbid_run env asked other dirname0 w) as (w1 & Hrun1).
  destruct (GetPathForDbid_run env asked other dirname0 w') as (w2 & Hrun2).
  cbn zeta in Hrun1, Hrun2. rewrite Hfault, Hobj in Hrun2.
  eexists _, w1, w2. split; [exact Hrun1 | exact Hrun2].
Qed.

End Registry.

Section LocalDirectories.
Context `{Externals}.

(** X20.  [NewDirectory] asks the local environment only and sends no
    request: it returns OK when the local directory exists, and when
    it does not, it reads the status of the directory object it has
    just deleted, whatever the destination bucket holds.  After a
    [CreateDirIfMissing] that returned OK the directory exists
    locally, so [NewDirectory] returns OK; a [CreateDirIfMissing]
    whose upload of the marker failed returns IOError and creates no
    local directory. *)
Theorem NewDirectory_asks_local_only (env : AwsEnv) (name : string) (w : World) :
  NDEBUG = true
  \/ (status env = OK
      /\ (has_dest_bucket_ env = true -> dest_bucket_prefix_ env <> "")) ->
  NewDirectory env name w
  = (if decide (name ∈ local_dirs w) then Returns OK w else Aborts Undefined)
  /\ exists st w',
       CreateDirIfMissing env name w = Returns st w'
       /\ (st = OK -> NewDirectory env name w' = Returns OK w')
       /\ (st <> OK -> st = IOError /\ local_dirs w' = local_dirs w)
       /\ (has_dest_bucket_ env = false -> st = OK /\ s3_log w' = s3_log w).
Proof.
  intros Hassert.
  assert (Hstatus : NDEBUG = true \/ ok (status env) = true).
  { destruct Hassert as [? | (-> & _)]; auto. }
  assert (Hnew : forall w0 : World,
            NewDirectory env name w0
            = if decide (name ∈ local_dirs w0) then Returns OK w0
              else Aborts Undefined).
  { intros w0. unfold NewDirectory. rewrite bind_run, assert_run by exact Hstatus.
    unfold BaseEnv.NewDirectory. run.
    destruct (decide (name ∈ local_dirs w0)); reflexivity. }
  split; [apply Hnew |].
  assert (Hlocal : forall w0 : World,
            exists w',
              BaseEnv.CreateDirIfMissing name w0 = Returns OK w'
              /\ NewDirectory env name w' = Returns OK w'
              /\ s3_log w' = s3_log w0).
  { intros w0. unfold BaseEnv.CreateDirIfMissing. run. eexists.
    split; [reflexivity |]. split; [| reflexivity]. rewrite Hnew.
    rewrite decide_True; [reflexivity |]. cbn.
    apply elem_of_union_l, elem_of_singleton. reflexivity. }
  unfold CreateDirIfMissing. rewrite bind_run, assert_run by exact Hstatus.
  destruct (has_dest_bucket_ env) eqn:Hdest.
  - rewrite !bind_run, destname_run.
    2:{ destruct Hassert as [? | (_ & ?)]; auto. }
    cbn beta iota. rewrite bind_run, PutObject_run. cbn zeta.
    destruct (s3_fault w _).
    + run. do 2 eexists. split; [reflexivity |].
      split; [discriminate |]. split; [| discriminate].
      intros _. split; [reflexivity |]. autorewrite with world. reflexivity.
    + run. change (negb (ok OK)) with false. cbn iota.
      match goal with
      | |- context [BaseEnv.CreateDirIfMissing name ?w0] =>
          destruct (Hlocal w0) as (w' & Hrun & Hdir & _)
      end.
      exists OK, w'. rewrite Hrun. split; [reflexivity |]. split; [auto |].
      split; [congruence | discriminate].
  - run. change (negb (ok OK)) with false. cbn iota.
    destruct (Hlocal w) as (w' & Hrun & Hdir & Hlog).
    exists OK, w'. rewrite Hrun. split; [reflexivity |]. split; [auto |].
    split; [congruence | auto].
Qed.

End LocalDirectories.

Section OpeningObjects.
Context `{Externals}.

(** X3.  [NewSequentialFileCloud] opens an object of a bucket with one
    HEAD request: an object that is there is returned as a readable
    file on which a read of at least the length of the object returns
    its body, and a later read returns nothing; an object that is not
    there gives NotFound and no file. *)
Theorem NewSequentialFileCloud_reads_object (env : AwsEnv)
        (bucket_prefix key : string) (options : EnvOptions) (n : Z) (w : World) :
  NDEBUG = true
  \/ (status env = OK /\ negb is_file_default || is_cloud_file key = true) ->
  (forall req, s3_fault w req = None) ->
  match s3_objects w !! (GetBucket bucket_prefix, key) with
  | Some o =>
      Z.of_nat (String.length (obj_body o)) <= n ->
      Z.of_nat (String.length (obj_body o)) + n < 2 ^ 64 ->
      exists f f' w1 w2 w3,
        NewSequentialFileCloud env bucket_prefix key options w
        = Returns (OK, Some (S3File f)) w1
        /\ s3_log w1 = HeadObjectRequest (GetBucket bucket_prefix) key :: s3_log w
        /\ S3ReadableFile.Read f n "" w1 = Returns (OK, obj_body o, f') w2
        /\ S3ReadableFile.Read f' n "" w2 = Returns (OK, "", f') w3
  | None =>
      exists w1,
        NewSequentialFileCloud env bucket_prefix key options w
        = Returns (NotFound, None) w1
        /\ s3_log w1 = HeadObjectRequest (GetBucket bucket_prefix) key :: s3_log w
  end.
Proof.
  intros Hassert Hfault. unfold NewSequentialFileCloud.
  rewrite bind_run, assert_run.
  2:{ destruct Hassert as [? | (-> & _)]; auto. }
  rewrite bind_run, S3ReadableFile_new_any.
  2:{ destruct Hassert as [? | (_ & ?)]; auto. }
  cbn zeta. rewrite Hfault.
  destruct (s3_objects w !! (GetBucket bucket_prefix, key)) as [o |] eqn:Ho.
  - intros Hn Hsum. cbn [S3ReadableFile.status S3ReadableFile.status_ ok negb].
    rewrite ret_run.
    match goal with
    | |- context [Returns (OK, Some (S3File ?f0)) ?w0] => set (f := f0); set (w1 := w0)
    end.
    assert (Hf : stands_for f o w1).
    { unfold stands_for, f, w1. cbn. autorewrite with world.
      rewrite wrap64_small by lia.
      split_all; [reflexivity | exact Ho | reflexivity | lia]. }
    assert (Hfault1 : forall req, s3_fault w1 req = None).
    { intros req. unfold w1. autorewrite with world. apply Hfault. }
    assert (Hsize : S3ReadableFile.file_size_ f
                    = Z.of_nat (String.length (obj_body o))).
    { unfold f. cbn. apply wrap64_small. lia. }
    destruct (Read_run f o n "" w1 Hf Hfault1) as (w2 & Hread & _ & Ho2 & Hf2);
      [cbn; lia .. |].
    cbn zeta in Hread. change (S3ReadableFile.offset_ f) with 0 in Hread.
    cbn [Z.to_nat] in Hread.
    rewrite substring_all in Hread by lia.
    set (f' := S3ReadableFile.with_offset f
                 (0 + Z.of_nat (String.length (obj_body o)))) in *.
    assert (Hf' : stands_for f' o w2).
    { destruct Hf as (? & ? & ? & ?). unfold stands_for. rewrite Ho2. auto. }
    destruct (Read_run f' o n "" w2 Hf') as (w3 & Hread' & _);
      [intros req; rewrite Hf2; apply Hfault1 | cbn; lia .. |].
    cbn zeta in Hread'.
    assert (Hend : String.substring (Z.to_nat (S3ReadableFile.offset_ f'))
                     (Z.to_nat n) (obj_body o) = "").
    { apply length_zero. rewrite substring_length. cbn. lia. }
    rewrite Hend in Hread'. change (Z.of_nat (String.length "")) with 0 in Hread'.
    rewrite Z.add_0_r in Hread'.
    exists f, f', w1, w2, w3. split; [reflexivity |].
    split; [unfold w1; autorewrite with world; reflexivity |].
    split; [exact Hread | exact Hread'].
  - cbn [S3ReadableFile.status S3ReadableFile.status_ ok negb].
    eexists. split; [reflexivity |]. autorewrite with world. reflexivity.
Qed.

End OpeningObjects.

(** ** The theorems above at sample inputs *)

Section Witnesses.
#[local] Existing Instance Sample.debug.

Lemma readable_stands_for :
  stands_for Sample.readable (Sample.object "0123456789abcdef")
    Sample.src_only_world.
Proof. unfold stands_for. split_all; vm_compute; reflexivity. Qed.

Lemma sequential_reads_concatenate_witness :
  exists r1 f1 w1 r2 f2 w2 w',
    S3ReadableFile.Read Sample.readable 2 "" Sample.src_only_world
    = Returns (OK, r1, f1) w1
    /\ S3ReadableFile.Read f1 8 r1 w1 = Returns (OK, r2, f2) w2
    /\ S3ReadableFile.Read Sample.readable (2 + 8) "" Sample.src_only_world
       = Returns (OK, r1 +:+ r2, f2) w'
    /\ r1 +:+ r2
       = String.substring (Z.to_nat 12) (Z.to_nat (2 + 8)) "0123456789abcdef"
    /\ S3ReadableFile.offset_ f2 = 12 + Z.of_nat (String.length (r1 +:+ r2)).
Proof.
  apply (sequential_reads_concatenate Sample.readable
           (Sample.object "0123456789abcdef") 2 8 "" Sample.src_only_world).
  - exact readable_stands_for.
  - intros req. reflexivity.
  - cbn. lia.
  - lia.
  - lia.
  - cbn. lia.
Defined.

Lemma Skip_then_Read_witness :
  (exists f' f'' w',
     S3ReadableFile.Skip Sample.readable 1 = (OK, f')
     /\ S3ReadableFile.offset_ f' = Z.min (12 + 1) 16
     /\ S3ReadableFile.Read f' 8 "" Sample.src_only_world
        = Returns (OK, "def", f'') w')
  /\ (exists f',
        S3ReadableFile.Skip Sample.readable (2 ^ 64 - 1) = (OK, f')
        /\ S3ReadableFile.offset_ f' = 11).
Proof.
  destruct (@Skip_then_Read Sample.debug Sample.readable
              (Sample.object "0123456789abcdef") 1 8 "" Sample.src_only_world)
    as (_ & _ & Hread).
  destruct (@Skip_then_Read Sample.debug Sample.readable
              (Sample.object "0123456789abcdef") (2 ^ 64 - 1) 8 ""
              Sample.src_only_world)
    as (_ & Hwrap & _).
  split.
  - apply Hread; [exact readable_stands_for | intros req; reflexivity
                  | cbn; lia | lia | lia | cbn; lia].
  - destruct (Hwrap eq_refl) as (f' & Hskip & Hcursor & _).
    exists f'. split; [exact Hskip |]. rewrite Hcursor. vm_compute. reflexivity.
Defined.

Lemma PathExistsInS3_tells_witness :
  exists w' probe,
    PathExistsInS3 Sample.src_only_env "db1/000123.sst" "acme" true
      Sample.src_only_world
    = Returns OK w'
    /\ local_files w' = local_files Sample.src_only_world
    /\ s3_objects w' = s3_objects Sample.src_only_world
    /\ s3_fault w' = s3_fault Sample.src_only_world
    /\ s3_log w'
       = (probe ++ [HeadObjectRequest "rockset.acme" "db1/000123.sst"])%list
    /\ (probe = []
        \/ probe = [GetObjectRequest "rockset.acme" "db1/000123.sst"
                      (Some {| range_first := 0; range_last := 0 |}) None]).
Proof.
  pose proof (@PathExistsInS3_tells Sample.debug Sample.src_only_env
                "db1/000123.sst" "acme" true Sample.src_only_world
                ltac:(right; split; vm_compute; reflexivity)
                (fun _ => eq_refl)) as Hw.
  replace (s3_objects Sample.src_only_world
           !! (GetBucket "acme", "db1/000123.sst"))
    with (Some (Sample.object "0123456789abcdef")) in Hw
    by (vm_compute; reflexivity).
  exact Hw.
Defined.

Lemma src_only_probes_cleanly :
  probes_cleanly Sample.src_only_env "/data/000123.sst".
Proof.
  right. split; [reflexivity |]. split.
  - intros Hdest. vm_compute in Hdest. discriminate Hdest.
  - intros _. split; [discriminate | vm_compute; reflexivity].
Qed.

Lemma FileExists_resolves_witness :
  exists w',
    FileExists Sample.src_only_env "/data/000123.sst" Sample.src_only_world
    = Returns OK w'
    /\ local_files w' = local_files Sample.src_only_world
    /\ s3_objects w' = s3_objects Sample.src_only_world.
Proof.
  pose proof (@FileExists_resolves Sample.debug Sample.src_only_env
                "/data/000123.sst" Sample.src_only_world src_only_probes_cleanly
                ltac:(vm_compute; reflexivity) (fun _ => eq_refl)) as Hw.
  replace (resolve Sample.src_only_env "/data/000123.sst" Sample.src_only_world)
    with (Some SrcTier) in Hw by (vm_compute; reflexivity).
  exact Hw.
Defined.

Lemma src_only_opens_cleanly :
  opens_cleanly Sample.src_only_env "/data/000123.sst".
Proof.
  right. split; [reflexivity |]. split.
  - intros Hdest. vm_compute in Hdest. discriminate Hdest.
  - intros _. split; [discriminate | vm_compute; reflexivity].
Qed.

Lemma GetFileSize_resolves_witness :
  exists w',
    GetFileSize Sample.src_only_env "/data/000123.sst" Sample.src_only_world
    = Returns (OK, 16) w'
    /\ local_files w' = local_files Sample.src_only_world
    /\ s3_objects w' = s3_objects Sample.src_only_world.
Proof.
  pose proof (@GetFileSize_resolves Sample.debug Sample.src_only_env
                "/data/000123.sst" Sample.src_only_world src_only_opens_cleanly
                ltac:(vm_compute; reflexivity) (fun _ => eq_refl)) as Hw.
  replace (local_files Sample.src_only_world !! "/data/000123.sst")
    with (@None string) in Hw by (vm_compute; reflexivity).
  replace (dest_object Sample.src_only_env "/data/000123.sst"
             Sample.src_only_world)
    with (@None S3Object) in Hw by (vm_compute; reflexivity).
  replace (src_object Sample.src_only_env "/data/000123.sst"
             Sample.src_only_world)
    with (Some (Sample.object "0123456789abcdef")) in Hw
    by (vm_compute; reflexivity).
  exact Hw.
Defined.


Lemma manifest_in_bucket_has_no_size_witness :
  let env := Sample.dest_only_env false 0 in
  let w := Sample.manifest_object_world in
  (exists w', FileExists env "/data/MANIFEST-000001" w = Returns OK w')
  /\ (exists st size,
        GetFileSize env "/data/MANIFEST-000001" w = Returns (st, size) w
        /\ ok st = false)
  /\ (exists st mtime,
        GetFileModificationTime env "/data/MANIFEST-000001" 0 w
        = Returns (st, mtime) w
        /\ ok st = false).
Proof.
  intros env w.
  assert (Hprobe : probes_cleanly env "/data/MANIFEST-000001").
  { right. split; [reflexivity |]. split.
    - intros _. split; [discriminate | vm_compute; reflexivity].
    - intros Hsrc. vm_compute in Hsrc. discriminate Hsrc. }
  exact (@manifest_in_bucket_has_no_size Sample.debug env
           "/data/MANIFEST-000001" 0 (Sample.object "manifest") w Hprobe
           ltac:(vm_compute; reflexivity) ltac:(vm_compute; reflexivity)
           ltac:(vm_compute; reflexivity) (fun _ => eq_refl)
           ltac:(vm_compute; reflexivity) ltac:(vm_compute; reflexivity)).
Defined.

Lemma deleted_object_is_gone_witness :
  let env := Sample.dest_only_env false 0 in
  exists w1 w2 w3,
    DeleteObject env "acme" "db1/000041.sst" Sample.two_files_world
    = Returns OK w1
    /\ ExistsObject env "acme" "db1/000041.sst" w1 = Returns NotFound w2
    /\ GetObjectSize env "acme" "db1/000041.sst" 5 w1 = Returns (NotFound, 0) w3
    /\ s3_objects w1
       = delete ("rockset.acme", "db1/000041.sst")
           (s3_objects Sample.two_files_world)
    /\ s3_objects w2 = s3_objects w1
    /\ s3_objects w3 = s3_objects w1.
Proof.
  intros env.
  exact (deleted_object_is_gone env "acme" "db1/000041.sst" 5
           Sample.two_files_world
           ltac:(right; split; vm_compute; reflexivity) (fun _ => eq_refl)).
Defined.

Lemma Close_uploads_then_deletes_witness :
  let f := Sample.sst_file in
  let w := Sample.two_files_world in
  let put := PutObjectRequest "rockset.acme" "db1/000041.sst" "first" ∅ in
  exists st f' w',
    S3WritableFile.Close f w = Returns (st, f') w'
    /\ S3WritableFile.temp_file_ f' = None
    /\ S3WritableFile.status_ f' = st
    /\ s3_log w' = put :: s3_log w
    /\ result_size (s3client_result_ w') = Z.of_nat (String.length "first")
    /\ (s3_fault w put = None ->
        st = OK
        /\ s3_objects w' !! ("rockset.acme", "db1/000041.sst")
           = Some {| obj_body := "first"; obj_metadata := ∅;
                     obj_last_modified := now_micros w / 1000 |}
        /\ local_files w' = delete "/data/000041.sst" (local_files w))
    /\ (is_Some (s3_fault w put) ->
        st = IOError
        /\ local_files w' = local_files w
        /\ s3_objects w' = s3_objects w).
Proof.
  intros f w put.
  exact (Close_uploads_then_deletes f "/data/000041.sst" "first" w
           eq_refl eq_refl ltac:(right; split; vm_compute; reflexivity)
           ltac:(vm_compute; reflexivity) ltac:(discriminate)).
Defined.

Lemma Close_twice_witness :
  let f' := S3WritableFile.with_temp_file Sample.sst_file None in
  S3WritableFile.temp_file_ f' = None
  /\ S3WritableFile.status_ f' = OK
  /\ forall w2, S3WritableFile.Close f' w2 = Returns (OK, f') w2.
Proof.
  intros f'.
  assert (Hrun : S3WritableFile.Close Sample.sst_file Sample.two_files_world
                 = Returns (OK, f')
                     (world_after (S3WritableFile.Close Sample.sst_file)
                        Sample.two_files_world)).
  { vm_compute. reflexivity. }
  exact (Close_twice Sample.sst_file f' OK Sample.two_files_world _
           (fun temp_file _ => ex_intro _ Sample.two_files_world eq_refl) Hrun).
Defined.

Lemma upload_download_round_trip_witness :
  let env := Sample.dest_only_env false 0 in
  exists w1 w2,
    S3WritableFile.CopyToS3 env "/data/000041.sst" "rockset.acme"
      "db1/000041.sst" 5 Sample.two_files_world
    = Returns OK w1
    /\ S3WritableFile.CopyFromS3 env "rockset.acme" "db1/000041.sst"
         "/restore/000041.sst" w1
       = Returns OK w2
    /\ local_files w2 !! "/restore/000041.sst" = Some "first"
    /\ local_files w2 !! ("/restore/000041.sst" +:+ ".tmp") = None
    /\ s3_objects w2 !! ("rockset.acme", "db1/000041.sst")
       = Some {| obj_body := "first"; obj_metadata := ∅;
                 obj_last_modified := now_micros Sample.two_files_world / 1000 |}.
Proof.
  intros env.
  exact (upload_download_round_trip env "/data/000041.sst" "rockset.acme"
           "db1/000041.sst" "/restore/000041.sst" 5 "first"
           Sample.two_files_world
           ltac:(vm_compute; reflexivity) ltac:(discriminate) (fun _ => eq_refl)).
Defined.


Lemma written_sst_reaches_bucket_witness :
  let env := Sample.dest_only_env false 0 in
  let w := Sample.empty_world in
  exists f f' w1 w2 w3,
    NewWritableFile env "/data/000043.sst" Sample.no_mmap w
    = Returns (OK, Some (S3Writable f)) w1
    /\ s3_log w1 = s3_log w
    /\ local_files w1 !! "/data/000043.sst" = Some ""
    /\ BaseEnv.Append "/data/000043.sst" "third" w1 = Returns OK w2
    /\ S3WritableFile.Close f w2 = Returns (OK, f') w3
    /\ s3_objects w3 !! (GetBucket "acme", dest_key env "/data/000043.sst")
       = Some {| obj_body := "third"; obj_metadata := ∅;
                 obj_last_modified := now_micros w / 1000 |}
    /\ local_files w3 !! "/data/000043.sst" = None.
Proof.
  intros env w.
  exact (written_sst_reaches_bucket env "/data/000043.sst" "third"
           Sample.no_mmap w
           ltac:(right; split; [reflexivity | discriminate])
           eq_refl ltac:(vm_compute; reflexivity) ltac:(vm_compute; reflexivity)
           ltac:(discriminate) (fun _ => eq_refl)).
Defined.

Lemma NewWritableFile_manifest_witness :
  let w := Sample.empty_world in
  let w1 := set_local_files (<["/data/MANIFEST-000001" := ""]> (local_files w)) w in
  let late := Sample.dest_only_env false 0 in
  let durable := Sample.dest_only_env false 60000 in
  NewWritableFile late "/data/MANIFEST-000001" Sample.no_mmap w
  = Returns (OK, Some (LocalWritable "/data/MANIFEST-000001")) w1
  /\ NewWritableFile durable "/data/MANIFEST-000001" Sample.no_mmap w
     = Returns
         (OK,
          Some (S3Writable
                  {| S3WritableFile.env_ := durable;
                     S3WritableFile.fname_ := "/data/MANIFEST-000001";
                     S3WritableFile.temp_file_ := Some "/data/MANIFEST-000001";
                     S3WritableFile.s3_bucket_ := GetBucket "acme";
                     S3WritableFile.s3_object_ :=
                       dest_key durable (dirname "/data/MANIFEST-000001")
                       +:+ "/MANIFEST";
                     S3WritableFile.status_ := OK;
                     S3WritableFile.is_manifest_ := true;
                     S3WritableFile.manifest_durable_periodicity_millis_ := 60000;
                     S3WritableFile.manifest_last_sync_time_ := 0 |})) w1.
Proof.
  intros w w1 late durable.
  assert (Hkind : forall env : AwsEnv,
            status env = OK -> dest_bucket_prefix_ env <> "" ->
            (NDEBUG = true \/ (status env = OK /\ dest_bucket_prefix_ env <> ""))
            /\ IsSstFile "/data/MANIFEST-000001" = false
            /\ IsManifestFile "/data/MANIFEST-000001" = true
            /\ IsIdentityFile "/data/MANIFEST-000001" = false
            /\ (IsLogFile "/data/MANIFEST-000001" = false
                \/ keep_local_log_files (cloud_env_options env) = true)).
  { intros env Hst Hdest. split_all; [auto | vm_compute; reflexivity ..|].
    left. vm_compute. reflexivity. }
  destruct (Hkind late eq_refl ltac:(discriminate)) as (H1 & H2 & H3 & H4 & H5).
  destruct (Hkind durable eq_refl ltac:(discriminate)) as (G1 & _ & _ & _ & G5).
  split.
  - exact (proj1 (NewWritableFile_manifest late "/data/MANIFEST-000001"
                    Sample.no_mmap w H1 H2 H3 H4 H5) ltac:(cbn; lia)).
  - exact (proj2 (NewWritableFile_manifest durable "/data/MANIFEST-000001"
                    Sample.no_mmap w G1 H2 H3 H4 G5) ltac:(cbn; lia) eq_refl).
Defined.


Lemma GetChildrenFromS3_lists_all_witness :
  let env := Sample.dest_only_env false 0 in
  let w := Sample.two_files_world in
  exists keys w',
    GetChildrenFromS3 env "db1/" "acme" [] w = Returns (OK, ([] ++ keys)%list) w'
    /\ (forall key, key ∈ keys
                    <-> is_Some (s3_objects w !! (GetBucket "acme", key))
                        /\ String.prefix "db1/" key = true)
    /\ NoDup keys
    /\ StronglySorted String.le keys
    /\ s3_objects w' = s3_objects w
    /\ local_files w' = local_files w
    /\ local_dirs w' = local_dirs w.
Proof.
  intros env w.
  exact (GetChildrenFromS3_lists_all env "db1/" "acme" [] w
           (or_intror eq_refl) (fun _ => eq_refl)).
Defined.

Lemma EmptyBucket_reports_last_deletion_witness :
  let env := Sample.dest_only_env false 0 in
  let w := Sample.two_files_world in
  exists w',
    EmptyBucket env "acme" w = Returns OK w'
    /\ local_files w' = local_files w
    /\ forall b key,
         s3_objects w' !! (b, key)
         = if bool_decide (b = "rockset.acme") then None
           else s3_objects w !! (b, key).
Proof.
  intros env w.
  pose proof (EmptyBucket_reports_last_deletion env "acme" w
                (or_intror eq_refl) (fun _ => eq_refl)) as Hw.
  cbn zeta in Hw.
  replace (last (S3Client.keys_after (s3_objects w) (GetBucket "acme") "" ""))
    with (Some "db1/000042.sst") in Hw by (vm_compute; reflexivity).
  exact Hw.
Defined.

Lemma GetDbidList_looks_under_doubled_prefix_witness :
  let env := Sample.dest_only_env false 0 in
  exists w',
    GetDbidList env "acme" ∅ Sample.registry_world = Returns (NotFound, ∅) w'
    /\ s3_objects w' = s3_objects Sample.registry_world.
Proof.
  intros env.
  assert (Hkeys : forall key,
            is_Some (s3_objects Sample.registry_world !! (GetBucket "acme", key)) ->
            String.prefix (dbid_registry_ +:+ dbid_registry_) key = false).
  { intros key [o Ho]. cbn in Ho. apply lookup_insert_Some in Ho.
    destruct Ho as [[[= <-] _] | [_ Ho]]; [vm_compute; reflexivity |].
    rewrite lookup_empty in Ho. discriminate Ho. }
  pose proof (GetDbidList_looks_under_doubled_prefix env "acme" ∅
                Sample.registry_world (or_intror eq_refl) (fun _ => eq_refl)
                Hkeys) as Hw.
  cbn zeta in Hw.
  replace (S3Client.keys_after (s3_objects Sample.registry_world)
             (GetBucket "acme") dbid_registry_ "")
    with [".rockset/dbid/X7"] in Hw by (vm_compute; reflexivity).
  exact Hw.
Defined.

Lemma DeleteDir_after_CreateDir_witness :
  let env := Sample.dest_only_env false 0 in
  let w := Sample.empty_world in
  exists st w1 w2,
    CreateDir env "/data/dir1" w = Returns st w1
    /\ ("/data/dir1" ∉ local_dirs w -> st = OK /\ "/data/dir1" ∈ local_dirs w1)
    /\ is_Some (s3_objects w1 !! (GetBucket "acme", dest_key env "/data/dir1"))
    /\ DeleteDir env "/data/dir1" w1 = Returns IOError w2
    /\ s3_objects w2 = s3_objects w1
    /\ local_dirs w2 = local_dirs w1.
Proof.
  intros env w.
  exact (DeleteDir_after_CreateDir env "/data/dir1" w
           ltac:(right; split_all; [reflexivity | vm_compute; reflexivity
                                    | discriminate])
           eq_refl (fun _ => eq_refl)).
Defined.

Lemma GetChildren_lists_witness :
  let env := Sample.two_buckets_env in
  let w := Sample.dir_world ["db1/dir1/a"; "db2/dir1/b"] in
  exists st names w',
    BaseEnv.GetChildren "/data/dir1" w = Returns (st, names) w
    /\ GetChildren env "/data/dir1" w
       = Returns (if ok st
                  then (OK, (["db1/dir1/a"] ++ ["db1/dir1/a"] ++ names)%list)
                  else (st, (["db1/dir1/a"] ++ ["db1/dir1/a"])%list)) w'
    /\ s3_objects w' = s3_objects w
    /\ local_files w' = local_files w.
Proof.
  intros env w.
  pose proof (GetChildren_lists env "/data/dir1" w
                ltac:(right; split_all; [reflexivity | vm_compute; reflexivity
                                         | intros _; discriminate])
                (fun _ => eq_refl)) as Hw.
  cbn zeta in Hw.
  change (has_src_bucket_ env) with true in Hw.
  change (has_dest_bucket_ env && two_unique_buckets env) with true in Hw.
  cbn iota in Hw.
  replace (S3Client.keys_after (s3_objects w) (GetBucket (GetSrcBucketPrefix env))
             (src_key env "/data/dir1") "")
    with ["db1/dir1/a"] in Hw by (vm_compute; reflexivity).
  replace (S3Client.keys_after (s3_objects w) (GetBucket (GetDestBucketPrefix env))
             (src_key env "/data/dir1") "")
    with ["db1/dir1/a"] in Hw by (vm_compute; reflexivity).
  exact Hw.
Defined.


Lemma Retry_gives_up_witness :
  let func := BaseEnv.GetFileSize "/tmp/ROCKSET/000007.log" in
  let w := Sample.empty_world in
  (forall w', func w = Returns (OK, 0) w' -> Retry func w = Returns (OK, 0) w')
  /\ (ok IOError = false ->
      (forall t, func (set_now_micros t w) = Returns (IOError, 0) (set_now_micros t w)) ->
      Retry func w
      = Returns (TimedOut, 0)
          (set_now_micros (now_micros w + 100000 * (retry_period_micros / 100000 + 1))
             w)).
Proof.
  intros func w.
  exact (@Retry_gives_up Sample.debug _ func IOError 0 w
           ltac:(vm_compute; intros Hc; discriminate Hc)
           ltac:(vm_compute; intros Hc; discriminate Hc)
           ltac:(vm_compute; reflexivity)).
Defined.

Lemma NewAwsEnv_creates_bucket_witness :
  let w := Sample.empty_world in
  let req := CreateBucketRequest "rockset.acme" (Some "us-west-2") in
  exists st r w',
    NewAwsEnv "" "" "" "acme" "db1" "us-west-2" (Sample.options false 0) w
    = Returns (st, r) w'
    /\ (trim "acme" = "" -> st = OK /\ s3_log w' = s3_log w)
    /\ (trim "acme" <> "" ->
        s3_log w' = req :: s3_log w
        /\ s3client_result_ w'
           = {| result_type := kCreateOp; result_size := 0;
                result_micros := s3_latency w req; result_ok := false |}
        /\ (st = OK
            <-> match s3_fault w req with
                | None => True
                | Some error =>
                    GetErrorType error = BUCKET_ALREADY_EXISTS
                    \/ GetErrorType error = BUCKET_ALREADY_OWNED_BY_YOU
                end))
    /\ (st <> OK -> st = IOError /\ r = None /\ running_ w' = false)
    /\ (st = OK ->
        running_ w' = true
        /\ exists env,
             r = Some env
             /\ status env = OK
             /\ src_bucket_prefix_ env = trim ""
             /\ src_object_prefix_ env = trim ""
             /\ dest_bucket_prefix_ env = trim "acme"
             /\ dest_object_prefix_ env = trim "db1"
             /\ has_src_bucket_ env = negb (bool_decide (trim "" = ""))
             /\ has_dest_bucket_ env = negb (bool_decide (trim "acme" = ""))
             /\ file_deletion_thread_ env = true).
Proof.
  intros w req.
  exact (NewAwsEnv_creates_bucket "" "" "" "acme" "db1" "us-west-2"
           (Sample.options false 0) w eq_refl
           ltac:(intros Hsrc; exfalso; apply Hsrc; vm_compute; reflexivity)).
Defined.

Lemma DeleteFile_queues_and_deletes_locally_witness :
  let env := Sample.dest_only_env false 0 in
  let w := Sample.manifest_object_world in
  exists w',
    DeleteFile env "/data/MANIFEST-000001" w = Returns IOError w'
    /\ files_to_delete_ w'
       = (files_to_delete_ w ++ [(steady_now w, "/data/MANIFEST-000001")])%list
    /\ local_files w' = delete "/data/MANIFEST-000001" (local_files w)
    /\ s3_objects w' = s3_objects w
    /\ s3_log w' = s3_log w.
Proof.
  intros env w.
  pose proof (@DeleteFile_queues_and_deletes_locally Sample.debug env
                "/data/MANIFEST-000001" w
                (or_intror eq_refl) ltac:(vm_compute; reflexivity)) as Hw.
  replace (has_dest_bucket_ env && is_cloud_file "/data/MANIFEST-000001")
    with true in Hw by (vm_compute; reflexivity).
  exact Hw.
Defined.

Lemma registry_entries_are_independent_witness :
  let env := Sample.dest_only_env false 0 in
  let w := Sample.registry_world in
  let w' := world_after (SaveDbid env "X8" "/paths/y") w in
  exists r w1 w2,
    GetPathForDbid env "acme" "X7" "" w = Returns r w1
    /\ GetPathForDbid env "acme" "X7" "" w' = Returns r w2.
Proof.
  intros env w w'.
  assert (Hrun : SaveDbid env "X8" "/paths/y" w = Returns OK w').
  { vm_compute. reflexivity. }
  exact (registry_entries_are_independent env "X8" "X7" "/paths/y" "acme" "acme"
           "" OK w w' (or_intror eq_refl) ltac:(discriminate) (or_introl Hrun)).
Defined.

Lemma NewDirectory_asks_local_only_witness :
  let env := Sample.dest_only_env false 0 in
  let w := Sample.dir_world ["db1/dir2"] in
  NewDirectory env "/data/dir2" w
  = (if decide ("/data/dir2" ∈ local_dirs w) then Returns OK w
     else Aborts Undefined)
  /\ exists st w',
       CreateDirIfMissing env "/data/dir2" w = Returns st w'
       /\ (st = OK -> NewDirectory env "/data/dir2" w' = Returns OK w')
       /\ (st <> OK -> st = IOError /\ local_dirs w' = local_dirs w)
       /\ (has_dest_bucket_ env = false -> st = OK /\ s3_log w' = s3_log w).
Proof.
  intros env w.
  exact (NewDirectory_asks_local_only env "/data/dir2" w
           ltac:(right; split; [reflexivity | intros _; discriminate])).
Defined.

Lemma NewSequentialFileCloud_reads_object_witness :
  let env := Sample.src_only_env in
  let w := Sample.src_only_world in
  exists f f' w1 w2 w3,
    NewSequentialFileCloud env "acme" "db1/000123.sst" Sample.no_mmap w
    = Returns (OK, Some (S3File f)) w1
    /\ s3_log w1 = HeadObjectRequest (GetBucket "acme") "db1/000123.sst" :: s3_log w
    /\ S3ReadableFile.Read f 100 "" w1 = Returns (OK, "0123456789abcdef", f') w2
    /\ S3ReadableFile.Read f' 100 "" w2 = Returns (OK, "", f') w3.
Proof.
  intros env w.
  pose proof (@NewSequentialFileCloud_reads_object Sample.debug env "acme"
                "db1/000123.sst"
                Sample.no_mmap 100 w
                ltac:(right; split; vm_compute; reflexivity)
                (fun _ => eq_refl)) as Hw.
  replace (s3_objects w !! (GetBucket "acme", "db1/000123.sst"))
    with (Some (Sample.object "0123456789abcdef")) in Hw
    by (vm_compute; reflexivity).
  exact (Hw ltac:(vm_compute; intros Hc; discriminate Hc)
            ltac:(vm_compute; reflexivity)).
Defined.

End Witnesses.
